(** * SEAP: the loan evaluation pipeline, embedded and verified

    The repository holds two generations of the same two TypeScript
    services:

    - [src/lib/validation-service.ts] (module [Lib]) and the validation
      service of [src/unnamed/part_001], lines 1-492 (module [Alt]);
    - the credit-bureau client of [src/unnamed/part_001], lines 493-776
      (module [BcraA], unseeded simulation) and lines 777-1137
      (module [BcraB], simulation seeded from the CUIT).

    Both validation services import the client as ["./bcra-service"], so
    they are embedded over an interface [BCRAService] that either client
    implements.

    What uses the services is embedded after them: the submit handler and
    the validity condition of the form and the amounts of the result page
    of [src/components/simple-evaluation-form.tsx] (modules [Form] and
    [ResultPage]), and the progress bar at the end of part_001 (module
    [ProgressBar]).

    Conventions of the embedding.
    - A JavaScript [number] that the code only ever uses as an integer
      amount or as a counter is a [Z] (net income, amounts, situations);
      the counters of a summary, which the seeded simulation can fill with
      NaN, are [number]s ([NaN] or [Num z]).
    - Percentages and random draws are exact rationals ([Q]), where the code
      computes in binary64. The comparisons the code makes on them
      ([>= 40], [> 20], [< 0.7], [< 0.5], [< 0.1], [< 0.05]) and the
      [Math.floor] of the seeded simulation have the same outcome on the
      exact values, for entity counts below a few hundred and for every seed
      [parseInt] can read from four characters. [Math.floor] of a product
      with a draw of [Math.random] and [toFixed(1)] are taken on the exact
      value, which can differ from binary64 in the last unit on a tie; only
      simulated amounts and the text of two messages depend on them.
    - Strings are sequences of 8-bit characters; the accented letters of the
      messages are stored as their UTF-8 bytes.
    - [async] functions run to completion one after another, so they are
      functions in a state-and-exception monad [M] over a [World] that holds
      what the code reads from outside (environment variables, the clock,
      the answers of [fetch], the draws of [Math.random]) and what it does
      to the outside (requests and [setTimeout] waits, kept in a trace).
      The clock is read, never advanced: no property is about time stamps.
    - The body of a registry answer that [response.json()] parses is an
      object; the inputs of the services have their declared types.
    - [console.log] calls are left out. *)

From Stdlib Require Import ZArith QArith Qround String Ascii List Bool Lia.
From Stdlib Require Import DecimalString.
Import ListNotations.

Local Open Scope string_scope.
Local Open Scope Z_scope.

(* ================================================================== *)
(** * JavaScript values and string primitives                          *)
(* ================================================================== *)

Module Js.

(** A number restricted to the integers, plus NaN. *)
Inductive number : Type :=
| NaN
| Num (z : Z).

Definition nadd (a b : number) : number :=
  match a, b with
  | Num x, Num y => Num (x + y)
  | _, _ => NaN
  end.

Definition nsub (a b : number) : number :=
  match a, b with
  | Num x, Num y => Num (x - y)
  | _, _ => NaN
  end.

Definition nmul (a b : number) : number :=
  match a, b with
  | Num x, Num y => Num (x * y)
  | _, _ => NaN
  end.

(** [a % b]: the remainder takes the sign of the dividend; [x % 0] is NaN. *)
Definition nrem (a b : number) : number :=
  match a, b with
  | Num x, Num y => if y =? 0 then NaN else Num (Z.rem x y)
  | _, _ => NaN
  end.

(** Comparisons with NaN are false. *)
Definition nltb (a b : number) : bool :=
  match a, b with
  | Num x, Num y => x <? y
  | _, _ => false
  end.

Definition ngtb (a b : number) : bool := nltb b a.

(** [a === b] on numbers: NaN is not equal to itself. *)
Definition nseq (a b : number) : bool :=
  match a, b with
  | Num x, Num y => x =? y
  | _, _ => false
  end.

Definition string_of_Z (z : Z) : string :=
  NilZero.string_of_int (Z.to_int z).

(** [n.toString()]. *)
Definition toString (n : number) : string :=
  match n with
  | NaN => "NaN"
  | Num z => string_of_Z z
  end.

Definition code (c : ascii) : Z := Z.of_N (N_of_ascii c).

(** [\d] *)
Definition is_digit (c : ascii) : bool :=
  (48 <=? code c) && (code c <=? 57).

(** [\s], and the characters [trim] removes, among the 8-bit characters. *)
Definition is_space (c : ascii) : bool :=
  let n := code c in
  ((9 <=? n) && (n <=? 13)) || (n =? 32) || (n =? 160).

Definition digit_value (radix : Z) (c : ascii) : option Z :=
  let n := code c in
  let v :=
    if (48 <=? n) && (n <=? 57) then n - 48
    else if (97 <=? n) && (n <=? 122) then n - 87
    else if (65 <=? n) && (n <=? 90) then n - 55
    else radix in
  if v <? radix then Some v else None.

Fixpoint filter_string (keep : ascii -> bool) (s : string) : string :=
  match s with
  | EmptyString => EmptyString
  | String c r =>
      if keep c then String c (filter_string keep r) else filter_string keep r
  end.

Fixpoint all_chars (p : ascii -> bool) (s : string) : bool :=
  match s with
  | EmptyString => true
  | String c r => p c && all_chars p r
  end.

Fixpoint trimStart (s : string) : string :=
  match s with
  | EmptyString => EmptyString
  | String c r => if is_space c then trimStart r else s
  end.

Fixpoint rev_string (s acc : string) : string :=
  match s with
  | EmptyString => acc
  | String c r => rev_string r (String c acc)
  end.

(** [s.trim()] *)
Definition trim (s : string) : string :=
  rev_string (trimStart (rev_string (trimStart s) "")) "".

Fixpoint repeat_char (c : ascii) (n : nat) : string :=
  match n with
  | O => EmptyString
  | S k => String c (repeat_char c k)
  end.

(** [s.padStart(n, c)] for a one-character filler. *)
Definition padStart (n : nat) (c : ascii) (s : string) : string :=
  repeat_char c (n - String.length s) ++ s.

(** [s.slice(-n)] *)
Definition slice_last (n : nat) (s : string) : string :=
  substring (String.length s - n) n s.

(** [s.startsWith(p)] *)
Definition startsWith (p s : string) : bool := prefix p s.

(** [s[i]]: [None] stands for [undefined]. *)
Definition charAt (s : string) (i : nat) : option ascii := get i s.

(** The digits [parseInt] reads: the longest prefix of digits of the radix,
    accumulated from the left; [None] when there is none. *)
Fixpoint read_digits (radix : Z) (s : string) (acc : option Z) : option Z :=
  match s with
  | EmptyString => acc
  | String c r =>
      match digit_value radix c with
      | Some d =>
          read_digits radix r
            (Some (match acc with Some a => a * radix + d | None => d end))
      | None => acc
      end
  end.

(** [parseInt(s)] with no radix argument: leading white space is skipped,
    a sign is read, a [0x] or [0X] prefix selects radix 16, and the digits
    that follow are read up to the first character that is not one. *)
Definition parseInt (s : string) : number :=
  let s1 := trimStart s in
  let '(sign, s2) :=
    match s1 with
    | String "-" r => (-1, r)
    | String "+" r => (1, r)
    | _ => (1, s1)
    end in
  let '(radix, s3) :=
    match s2 with
    | String "0" (String "x" r) => (16, r)
    | String "0" (String "X" r) => (16, r)
    | _ => (10, s2)
    end in
  match read_digits radix s3 None with
  | Some v => Num (sign * v)
  | None => NaN
  end.

(** [parseInt(s[i])]: [parseInt(undefined)] is NaN. *)
Definition parseInt_at (s : string) (i : nat) : number :=
  match charAt s i with
  | Some c => parseInt (String c EmptyString)
  | None => NaN
  end.

(** [q.toFixed(1)] on the exact value: the closest multiple of 1/10, the
    larger one on a tie, printed with one decimal. *)
Definition toFixed1 (q : Q) : string :=
  let neg := negb (Qle_bool 0 q) in
  let a := if neg then Qopp q else q in
  let n := Qfloor (a * 10 + (1 # 2)) in
  (if neg then "-" else "") ++
  string_of_Z (n / 10) ++ "." ++ string_of_Z (n mod 10).

(** [a < b] on exact values. *)
Definition Qltb (a b : Q) : bool := negb (Qle_bool b a).

End Js.

Import Js.

(* ================================================================== *)
(** * The outside world and the monad of [async] functions             *)
(* ================================================================== *)

(** What a thrown [Error] carries: its message. *)
Inductive result (A : Type) : Type :=
| Ok (a : A)
| Throw (msg : string).
Arguments Ok {A} a.
Arguments Throw {A} msg.

Module Deuda.
(** [BCRADeuda] *)
Record t : Type := mk {
  entidad : string;
  situacion : Z;
  monto : Z;
  fechaActualizacion : string;
  diasAtraso : option Z
}.
End Deuda.

(** The JSON body of the registry's answer: both fields may be missing. *)
Record ApiResponse : Type := mkApiResponse {
  api_deudas : option (list Deuda.t);
  api_observaciones : option (list string)
}.

(** How one call of [fetch] ends. *)
Inductive FetchOutcome : Type :=
| Aborted                       (* the timer aborted it: an AbortError *)
| Failed (msg : string)         (* rejected with an Error *)
| FailedNonError                (* rejected with a value that is no Error *)
| Responded (status : Z) (body : result ApiResponse).
                                (* [body]: what [response.json()] gives *)

Inductive Event : Type :=
| EvFetch (url token : string) (timeout_ms : Z)
| EvSleep (ms : Z).

Record World : Type := mkWorld {
  env_NEXT_PUBLIC_BCRA_TOKEN : option string;
  env_BCRA_TOKEN : option string;
  now : string;                          (* [new Date().toISOString()] *)
  fetch_script : nat -> FetchOutcome;    (* the n-th call of [fetch] *)
  random_script : nat -> Q;              (* the n-th [Math.random()] *)
  fetches : nat;
  draws : nat;
  trace : list Event
}.

Definition M (A : Type) : Type := World -> result A * World.

Definition ret {A} (a : A) : M A := fun w => (Ok a, w).

Definition bind {A B} (m : M A) (k : A -> M B) : M B :=
  fun w =>
    match m w with
    | (Ok a, w') => k a w'
    | (Throw e, w') => (Throw e, w')
    end.

Definition throw {A} (msg : string) : M A := fun w => (Throw msg, w).

(** [try { m } catch (error) { h (error.message) }] *)
Definition try_catch {A} (m : M A) (h : string -> M A) : M A :=
  fun w =>
    match m w with
    | (Ok a, w') => (Ok a, w')
    | (Throw e, w') => h e w'
    end.

(** A pure computation that may throw. *)
Definition lift {A} (r : result A) : M A := fun w => (r, w).

Declare Scope monad_scope.
Delimit Scope monad_scope with monad.
Notation "x <- m ;; k" := (bind m (fun x => k))
  (at level 61, m at next level, right associativity) : monad_scope.
Notation "m ;;; k" := (bind m (fun _ => k))
  (at level 61, right associativity) : monad_scope.
Local Open Scope monad_scope.

Definition log_event (e : Event) : M unit := fun w =>
  (Ok tt,
   mkWorld (env_NEXT_PUBLIC_BCRA_TOKEN w) (env_BCRA_TOKEN w) (now w)
     (fetch_script w) (random_script w) (fetches w) (draws w)
     (trace w ++ [e])).

(** [await new Promise((resolve) => setTimeout(resolve, ms))] *)
Definition sleep (ms : Z) : M unit := log_event (EvSleep ms).

(** [Math.random()] *)
Definition Math_random : M Q := fun w =>
  (Ok (random_script w (draws w)),
   mkWorld (env_NEXT_PUBLIC_BCRA_TOKEN w) (env_BCRA_TOKEN w) (now w)
     (fetch_script w) (random_script w) (fetches w) (S (draws w))
     (trace w)).

(** [new Date().toISOString()] *)
Definition Date_now : M string := fun w => (Ok (now w), w).

(** One call of [fetch]: it is recorded, and the script says how it ends. *)
Definition fetch (url token : string) (timeout_ms : Z) : M FetchOutcome :=
  fun w =>
    (Ok (fetch_script w (fetches w)),
     mkWorld (env_NEXT_PUBLIC_BCRA_TOKEN w) (env_BCRA_TOKEN w) (now w)
       (fetch_script w) (random_script w) (S (fetches w)) (draws w)
       (trace w ++ [EvFetch url token timeout_ms])).

(** A string used as a condition: the empty string is falsy. *)
Definition truthy_string (s : option string) : bool :=
  match s with
  | Some s => negb (s =? "")%string
  | None => false
  end.

(** [a || b] on optional strings. *)
Definition or_string (a b : option string) : option string :=
  if truthy_string a then a else b.

Fixpoint mapM {A B} (f : A -> M B) (l : list A) : M (list B) :=
  match l with
  | [] => ret []
  | x :: r => y <- f x ;; ys <- mapM f r ;; ret (y :: ys)
  end.

(* ================================================================== *)
(** * The credit-bureau client: data and the code both versions share  *)
(* ================================================================== *)

Record Resumen : Type := mkResumen {
  situacion1 : number;
  situacion2 : number;
  situacion3 : number;
  situacion4 : number;
  situacion5 : number;
  totalEntidades : number;
  montoTotal : number
}.

Record BCRAResponse : Type := mkBCRAResponse {
  cuit : string;
  fechaConsulta : string;
  deudas : list Deuda.t;
  resumen : Resumen;
  inhabilitado : bool;
  observaciones : option (list string)
}.

Module BcraCommon.

Definition BASE_URL : string := "https://api.bcra.gob.ar/centraldeudores/v1.0".
Definition MAX_RETRIES : Z := 3.

(** [makeRequest]: one GET with a timer; the outcome of [fetch] is sorted
    into the answer or a thrown error. *)
Definition makeRequest (TIMEOUT_MS : Z) (cuit token : string) : M ApiResponse :=
  out <- fetch (BASE_URL ++ "/Deudas/" ++ cuit) token TIMEOUT_MS ;;
  match out with
  | Responded status body =>
      if negb ((200 <=? status) && (status <=? 299))
      then throw ("HTTP_ERROR_" ++ string_of_Z status)
      else lift body
  | Aborted => throw "TIMEOUT"
  | Failed msg => throw msg
  | FailedNonError => throw "UNKNOWN_ERROR"
  end.

(** The body of the [forEach] of [processResponse]: the [switch] on the
    situation (a situation outside 1-5 counts nowhere), then
    [resumen.montoTotal += deuda.monto || 0], where [|| 0] leaves an integer
    amount as it is. *)
Definition count_deuda (r : Resumen) (deuda : Deuda.t) : Resumen :=
  let incr n := nadd n (Num 1) in
  let r1 :=
    match Deuda.situacion deuda with
    | 1 => mkResumen (incr (situacion1 r)) (situacion2 r) (situacion3 r)
             (situacion4 r) (situacion5 r) (totalEntidades r) (montoTotal r)
    | 2 => mkResumen (situacion1 r) (incr (situacion2 r)) (situacion3 r)
             (situacion4 r) (situacion5 r) (totalEntidades r) (montoTotal r)
    | 3 => mkResumen (situacion1 r) (situacion2 r) (incr (situacion3 r))
             (situacion4 r) (situacion5 r) (totalEntidades r) (montoTotal r)
    | 4 => mkResumen (situacion1 r) (situacion2 r) (situacion3 r)
             (incr (situacion4 r)) (situacion5 r) (totalEntidades r) (montoTotal r)
    | 5 => mkResumen (situacion1 r) (situacion2 r) (situacion3 r)
             (situacion4 r) (incr (situacion5 r)) (totalEntidades r) (montoTotal r)
    | _ => r
    end in
  mkResumen (situacion1 r1) (situacion2 r1) (situacion3 r1) (situacion4 r1)
    (situacion5 r1) (totalEntidades r1)
    (nadd (montoTotal r1) (Num (Deuda.monto deuda))).

(** [processResponse] *)
Definition processResponse (apiResponse : ApiResponse) (cuit : string)
  : M BCRAResponse :=
  let deudas := match api_deudas apiResponse with Some l => l | None => [] end in
  let resumen0 :=
    mkResumen (Num 0) (Num 0) (Num 0) (Num 0) (Num 0)
      (Num (Z.of_nat (List.length deudas))) (Num 0) in
  let resumen := fold_left count_deuda deudas resumen0 in
  let inhabilitado := ngtb (situacion5 resumen) (Num 0) in
  fecha <- Date_now ;;
  ret (mkBCRAResponse cuit fecha deudas resumen inhabilitado
         (Some (match api_observaciones apiResponse with
                | Some l => l
                | None => []
                end))).

(** The loop of [consultarDeudas],
    [for (let attempt = 1; attempt <= MAX_RETRIES; attempt++)], by recursion
    on the number [remaining] of iterations left: the loop is entered with
    [remaining = MAX_RETRIES] and [attempt = 1], so that
    [attempt <= MAX_RETRIES] holds exactly while [remaining] is not zero.
    After the loop comes [throw lastError || new Error("MAX_RETRIES_EXCEEDED")]. *)
Fixpoint attempts (TIMEOUT_MS : Z) (cuit token : string)
    (remaining : nat) (attempt : Z) (lastError : option string)
  : M BCRAResponse :=
  match remaining with
  | O =>
      throw (match lastError with
             | Some e => e
             | None => "MAX_RETRIES_EXCEEDED"
             end)
  | S remaining' =>
      try_catch
        (response <- makeRequest TIMEOUT_MS cuit token ;;
         processResponse response cuit)
        (fun error =>
           (if attempt <? MAX_RETRIES
            then sleep (2 ^ attempt * 1000)
            else ret tt) ;;;
           attempts TIMEOUT_MS cuit token remaining' (attempt + 1) (Some error))
  end.

Definition multipliers : list Z := [5; 4; 3; 2; 7; 6; 5; 4; 3; 2].

(** [let sum = 0; for (let i = 0; i < 10; i++) sum += parseInt(s[i]) * multipliers[i]] *)
Definition weighted_sum (s : string) : number :=
  fold_left
    (fun sum i => nadd sum (nmul (parseInt_at s i) (Num (nth i multipliers 0))))
    (seq 0 10) (Num 0).

(** [const remainder = sum % 11;
     const checkDigit = remainder < 2 ? remainder : 11 - remainder] *)
Definition checkDigit (s : string) : number :=
  let remainder := nrem (weighted_sum s) (Num 11) in
  if nltb remainder (Num 2) then remainder else nsub (Num 11) remainder.

(** [validateCuitChecksum] *)
Definition validateCuitChecksum (cuit : string) : bool :=
  nseq (checkDigit cuit) (parseInt_at cuit 10).

End BcraCommon.

(** The favourable answer of the simulation, the same in both versions. *)
Definition favourable_response (cuit fecha : string) : BCRAResponse :=
  mkBCRAResponse cuit fecha
    [ Deuda.mk "Banco Nación" 1 0 fecha None;
      Deuda.mk "Banco Galicia" 2 15000 fecha None ]
    (mkResumen (Num 1) (Num 1) (Num 0) (Num 0) (Num 0) (Num 2) (Num 15000))
    false None.

(** [Math.floor(x)] on an exact value. *)
Definition Math_floor (q : Q) : Z := Qfloor q.

(* ================================================================== *)
(** * The client, first version (part_001, lines 493-776)              *)
(* ================================================================== *)

Module BcraA.
Import BcraCommon.

Definition TIMEOUT_MS : Z := 10000.

(** [getAuthToken]: this version returns [null] whatever the environment. *)
Definition getAuthToken : M (option string) := ret None.

(** [consultarDeudas] *)
Definition consultarDeudas (cuit : string) : M BCRAResponse :=
  token <- getAuthToken ;;
  if negb (truthy_string token)
  then throw "TOKEN_NOT_CONFIGURED"
  else
    attempts TIMEOUT_MS cuit (match token with Some t => t | None => "" end)
      (Z.to_nat MAX_RETRIES) 1 None.

(** [validateCuit]: hyphens and white space are removed first; 7 to 11
    digits are required, and 7 or 8 digits are accepted as a DNI. *)
Definition validateCuit (cuit : string) : bool :=
  let cleanCuit :=
    filter_string (fun c => negb ((c =? "-")%char || is_space c)) cuit in
  if negb (all_chars is_digit cleanCuit
           && (7 <=? String.length cleanCuit)%nat
           && (String.length cleanCuit <=? 11)%nat)
  then false
  else if (String.length cleanCuit <=? 8)%nat then true
  else validateCuitChecksum cleanCuit.

(** [dniToCuit] *)
Definition dniToCuit (dni : string) : result string :=
  let cleanDni := filter_string is_digit dni in
  if ((String.length cleanDni <? 7)%nat || (8 <? String.length cleanDni)%nat)
  then Throw "DNI_INVALID_LENGTH"
  else
    let baseCuit := "20" ++ padStart 8 "0" cleanDni in
    Ok (baseCuit ++ toString (checkDigit baseCuit)).

(** One element of [Array.from({ length: totalEntidades }, (_, i) => ...)]:
    [situacion] is evaluated before [monto]. *)
Definition mock_deuda (problematicas : Z) (fecha : string) (i : nat)
  : M Deuda.t :=
  situacion <-
    (if Z.of_nat i <? problematicas
     then r <- Math_random ;; ret (if Qltb r (1 # 2) then 3 else 4)
     else ret 1) ;;
  m <- Math_random ;;
  ret (Deuda.mk ("Entidad " ++ string_of_Z (Z.of_nat i + 1)) situacion
         (Math_floor (m * 100000)) fecha None).

(** [generateMockResponse]: every draw is a fresh [Math.random()]. *)
Definition generateMockResponse (cuit : string) : M BCRAResponse :=
  random <- Math_random ;;
  fecha <- Date_now ;;
  if Qltb random (7 # 10)
  then ret (favourable_response cuit fecha)
  else
    r <- Math_random ;;
    let totalEntidades := Math_floor (r * 4) + 2 in
    let problematicas := Math_floor (inject_Z totalEntidades * (6 # 10)) in
    deudas <- mapM (mock_deuda problematicas fecha)
                (seq 0 (Z.to_nat totalEntidades)) ;;
    r5 <- Math_random ;;
    rm <- Math_random ;;
    ri <- Math_random ;;
    ret (mkBCRAResponse cuit fecha deudas
           (mkResumen
              (Num (totalEntidades - problematicas))
              (Num 0)
              (Num (Math_floor (inject_Z problematicas * (7 # 10))))
              (Num (Math_floor (inject_Z problematicas * (3 # 10))))
              (Num (if Qltb r5 (1 # 10) then 1 else 0))
              (Num totalEntidades)
              (Num (Math_floor (rm * 500000))))
           (Qltb ri (1 # 10)) None).

End BcraA.

(* ================================================================== *)
(** * The client, second version (part_001, lines 777-1137)            *)
(* ================================================================== *)

Module BcraB.
Import BcraCommon.

Definition TIMEOUT_MS : Z := 15000.

(** [getAuthToken]:
    [process.env.NEXT_PUBLIC_BCRA_TOKEN || process.env.BCRA_TOKEN], and
    [null] when that is falsy. *)
Definition getAuthToken : M (option string) := fun w =>
  let token := or_string (env_NEXT_PUBLIC_BCRA_TOKEN w) (env_BCRA_TOKEN w) in
  (Ok (if negb (truthy_string token) then None else token), w).

(** [validateCuit]: exactly 11 characters, all digits, and the check digit. *)
Definition validateCuit (cuit : string) : bool :=
  if ((cuit =? "")%string || negb (String.length cuit =? 11)%nat) then false
  else if negb (all_chars is_digit cuit && (String.length cuit =? 11)%nat)
  then false
  else validateCuitChecksum cuit.

(** [dniToCuit]: exactly 8 characters are required, and they are not
    checked to be digits. *)
Definition dniToCuit (dni : string) : result string :=
  if negb (String.length dni =? 8)%nat
  then Throw "DNI inválido"
  else
    let baseCuit := "20" ++ dni in
    Ok (baseCuit ++ toString (checkDigit baseCuit)).

(** The answer of [generateMockResponse] when [parseInt(cuit.slice(-4))] is
    NaN: [random] is NaN, every comparison with it is false, and
    [Array.from({ length: NaN })] is empty. *)
Definition nan_response (cuit fecha : string) : BCRAResponse :=
  mkBCRAResponse cuit fecha []
    (mkResumen NaN (Num 0) NaN NaN (Num 0) NaN NaN) false None.

(** [generateMockResponse]: one pseudo-random value, derived from the last
    four characters of the CUIT, is used for every choice. *)
Definition generateMockResponse (cuit : string) : M BCRAResponse :=
  fecha <- Date_now ;;
  match parseInt (slice_last 4 cuit) with
  | NaN => ret (nan_response cuit fecha)
  | Num seed =>
      let random := (inject_Z (Z.rem (seed * 9301 + 49297) 233280) / 233280)%Q in
      if Qltb random (7 # 10)
      then ret (favourable_response cuit fecha)
      else
        let totalEntidades := Math_floor (random * 4) + 2 in
        let problematicas := Math_floor (inject_Z totalEntidades * (6 # 10)) in
        ret (mkBCRAResponse cuit fecha
               (map (fun i =>
                       Deuda.mk ("Entidad " ++ string_of_Z (Z.of_nat i + 1))
                         (if Z.of_nat i <? problematicas
                          then (if Qltb random (1 # 2) then 3 else 4)
                          else 1)
                         (Math_floor (random * 100000)) fecha None)
                  (seq 0 (Z.to_nat totalEntidades)))
               (mkResumen
                  (Num (totalEntidades - problematicas))
                  (Num 0)
                  (Num (Math_floor (inject_Z problematicas * (7 # 10))))
                  (Num (Math_floor (inject_Z problematicas * (3 # 10))))
                  (Num (if Qltb random (1 # 10) then 1 else 0))
                  (Num totalEntidades)
                  (Num (Math_floor (random * 500000))))
               (Qltb random (1 # 10)) None)
  end.

(** [consultarDeudas]: with no token the simulated answer is returned. *)
Definition consultarDeudas (cuit : string) : M BCRAResponse :=
  token <- getAuthToken ;;
  match token with
  | None => generateMockResponse cuit
  | Some t => attempts TIMEOUT_MS cuit t (Z.to_nat MAX_RETRIES) 1 None
  end.

End BcraB.

(** What a validation service uses of ["./bcra-service"]. *)
Record BCRAService : Type := mkService {
  svc_validateCuit : string -> bool;
  svc_dniToCuit : string -> result string;
  svc_consultarDeudas : string -> M BCRAResponse;
  svc_generateMockResponse : string -> M BCRAResponse
}.

Definition serviceA : BCRAService :=
  mkService BcraA.validateCuit BcraA.dniToCuit
    BcraA.consultarDeudas BcraA.generateMockResponse.

Definition serviceB : BCRAService :=
  mkService BcraB.validateCuit BcraB.dniToCuit
    BcraB.consultarDeudas BcraB.generateMockResponse.

(* ================================================================== *)
(** * The validation services: data                                    *)
(* ================================================================== *)

(** A percentage: an exact value or NaN. *)
Inductive real : Type :=
| RNaN
| Real (q : Q).

(** [x >= k] and [x > k]; false on NaN. *)
Definition rgeb (x : real) (k : Q) : bool :=
  match x with Real q => Qle_bool k q | RNaN => false end.
Definition rgtb (x : real) (k : Q) : bool :=
  match x with Real q => Qltb k q | RNaN => false end.

(** [x.toFixed(1)] *)
Definition toFixed (x : real) : string :=
  match x with Real q => toFixed1 q | RNaN => "NaN" end.

Inductive TipoEmpleado : Type :=
| publico
| privado
| jubilado
| sin_tipo.  (* the empty string *)

Record ClienteData : Type := mkCliente {
  nombre : string;
  apellido : string;
  dni : string;
  sueldoNeto : Z;
  tipoEmpleado : TipoEmpleado;
  provincia : string;
  bancoPagador : string;
  numeroCuenta : option string
}.

Module Banco.
Record t : Type := mk {
  id : string;
  nombre : string;
  restricciones : bool;
  situacion : Z;
  requiereCuenta : bool
}.
End Banco.

Module Moroso.
Record t : Type := mk {
  dni : string;
  tieneCredito : bool;
  montoDeuda : Z
}.
End Moroso.

(** The values found in [details], which the code types [any]. *)
Inductive JsValue : Type :=
| VBool (b : bool)
| VNum (n : number)
| VInt (z : Z)
| VReal (x : real)
| VStr (s : string)
| VBanco (b : Banco.t)
| VBcra (r : BCRAResponse).

(** An object literal, as its list of properties. *)
Definition Details : Type := list (string * JsValue).

Fixpoint lookup (k : string) (d : Details) : option JsValue :=
  match d with
  | [] => None
  | (k', v) :: r => if (k' =? k)%string then Some v else lookup k r
  end.

(** [details?.k] *)
Definition field (k : string) (d : option Details) : option JsValue :=
  match d with
  | Some d => lookup k d
  | None => None
  end.

(** A value used as a condition; [None] is [undefined]. *)
Definition truthy (v : option JsValue) : bool :=
  match v with
  | None => false
  | Some (VBool b) => b
  | Some (VNum NaN) => false
  | Some (VNum (Num z)) => negb (z =? 0)
  | Some (VInt z) => negb (z =? 0)
  | Some (VReal RNaN) => false
  | Some (VReal (Real q)) => negb (Qeq_bool q 0)
  | Some (VStr s) => negb (s =? "")%string
  | Some (VBanco _) => true
  | Some (VBcra _) => true
  end.

(** [v > k] for a property that holds a number when it is there:
    [undefined > k] is false. *)
Definition value_gtb (v : option JsValue) (k : Z) : bool :=
  match v with
  | Some (VNum n) => ngtb n (Num k)
  | Some (VInt z) => k <? z
  | Some (VReal x) => rgtb x (inject_Z k)
  | _ => false
  end.

(** [details?.banco?.situacion === k] *)
Definition banco_situacion_is (d : option Details) (k : Z) : bool :=
  match field "banco" d with
  | Some (VBanco b) => Banco.situacion b =? k
  | _ => false
  end.

(** [ValidationResult], with the two properties that the bureau stage of
    [src/lib/validation-service.ts] adds to it. *)
Record ValidationResult : Type := mkVR {
  success : bool;
  message : string;
  details : option Details;
  vr_situacion5 : option bool;
  vr_porcentajeProblematicas : option real
}.

Definition plain (success : bool) (message : string) (details : option Details)
  : ValidationResult :=
  mkVR success message details None None.

Inductive Resultado : Type :=
| aprobado
| rechazado
| pendiente.

Record Detalles : Type := mkDetalles {
  protecap : ValidationResult;
  bcra : ValidationResult;
  banco : ValidationResult;
  montoCalculado : option Z
}.

Record EvaluationResult : Type := mkEval {
  resultado : Resultado;
  montoMaximo : option Z;
  motivoRechazo : option string;
  detalles : Detalles
}.

Definition no_evaluado : ValidationResult := plain false "No evaluado" None.

Definition clientesMorosos : list Moroso.t :=
  [ Moroso.mk "12345678" true 50000;
    Moroso.mk "87654321" false 0;
    Moroso.mk "11223344" true 25000 ].

(** [validateProtecap], the same in both services. *)
Definition validateProtecap (dni : string) : M ValidationResult :=
  sleep 1500 ;;;
  let cliente := find (fun c => (Moroso.dni c =? dni)%string) clientesMorosos in
  match cliente with
  | Some c =>
      if Moroso.tieneCredito c
      then ret (plain false "Cliente con crédito activo en base Protecap"
                  (Some [("montoDeuda", VInt (Moroso.montoDeuda c))]))
      else ret (plain true "Cliente sin créditos activos en Protecap"
                  (Some [("montoDeuda", VInt 0)]))
  | None =>
      ret (plain true "Cliente sin créditos activos en Protecap"
             (Some [("montoDeuda", VInt 0)]))
  end.

(** [resumen.situacion3 + resumen.situacion4 + resumen.situacion5] *)
Definition totalProblematicas (r : Resumen) : number :=
  nadd (nadd (situacion3 r) (situacion4 r)) (situacion5 r).

(** [totalEntidades > 0 ? (totalProblematicas / totalEntidades) * 100 : 0] *)
Definition porcentajeProblematicas (r : Resumen) : real :=
  if ngtb (totalEntidades r) (Num 0)
  then
    match totalProblematicas r, totalEntidades r with
    | Num p, Num e => Real (inject_Z p / inject_Z e * 100)
    | _, _ => RNaN
    end
  else Real 0.

(** [!numeroCuenta || numeroCuenta.trim() === ""] *)
Definition cuenta_en_blanco (numeroCuenta : option string) : bool :=
  negb (truthy_string numeroCuenta)
  || match numeroCuenta with
     | Some s => (trim s =? "")%string
     | None => false
     end.

(* ================================================================== *)
(** * [src/lib/validation-service.ts]                                  *)
(* ================================================================== *)

Module Lib.
Section WithService.
Variable svc : BCRAService.

Definition bancosHabilitados : list Banco.t :=
  [ Banco.mk "nacion" "Banco Nación" false 1 false;
    Banco.mk "macro" "Banco Macro" true 2 true;
    Banco.mk "santander" "Banco Santander" false 2 false;
    Banco.mk "galicia" "Banco Galicia" false 2 false;
    Banco.mk "bbva" "BBVA" true 3 false;
    Banco.mk "icbc" "ICBC" false 1 false;
    Banco.mk "supervielle" "Banco Supervielle" false 2 false ].

(** [validateSueldoMinimo] *)
Definition validateSueldoMinimo (sueldoNeto : Z) : ValidationResult :=
  if sueldoNeto <? 500000
  then plain false "Sueldo insuficiente. Mínimo requerido: $500.000"
         (Some [("sueldoMinimo", VInt 500000); ("sueldoActual", VInt sueldoNeto)])
  else plain true "Sueldo cumple requisitos mínimos"
         (Some [("sueldoActual", VInt sueldoNeto)]).

(** What [validateBCRA] does with the answer of the registry once it has
    one (from "Paso 1" to the end of the inner block). *)
Definition classify (bcraResponse : BCRAResponse) : ValidationResult :=
  let situacion5 :=
    inhabilitado bcraResponse
    || ngtb (situacion5 (resumen bcraResponse)) (Num 0) in
  let total := totalProblematicas (resumen bcraResponse) in
  let porcentaje := porcentajeProblematicas (resumen bcraResponse) in
  if rgeb porcentaje 40
  then
    mkVR false
      ("Porcentaje alto de situaciones problemáticas: "
         ++ toFixed porcentaje ++ "%")
      (Some [("bcraData", VBcra bcraResponse);
             ("porcentajeProblematicas", VReal porcentaje);
             ("totalProblematicas", VNum total)])
      (Some situacion5) (Some porcentaje)
  else
    mkVR true
      ("Situación BCRA favorable: " ++ toFixed porcentaje
         ++ "% situaciones problemáticas")
      (Some [("bcraData", VBcra bcraResponse);
             ("porcentajeProblematicas", VReal porcentaje);
             ("totalEntidades", VNum (totalEntidades (resumen bcraResponse)))])
      (Some situacion5) (Some porcentaje).

(** [validateBCRA] *)
Definition validateBCRA (dni : string) : M ValidationResult :=
  try_catch
    (cuit <- lift (if svc_validateCuit svc dni then Ok dni
                   else svc_dniToCuit svc dni) ;;
     try_catch
       (bcraResponse <- svc_consultarDeudas svc cuit ;;
        ret (classify bcraResponse))
       (fun errorMessage =>
          if (errorMessage =? "TOKEN_NOT_CONFIGURED")%string
          then
            bcraResponse <- svc_generateMockResponse svc cuit ;;
            ret (classify bcraResponse)
          else
            ret (plain false
                   "Error técnico en consulta BCRA - Pendiente revisión manual"
                   (Some [("error", VStr errorMessage);
                          ("requiresManualReview", VBool true)]))))
    (fun _ =>
       ret (plain false "Error técnico en validación BCRA"
              (Some [("error", VStr "unexpected_error");
                     ("requiresManualReview", VBool true)]))).

(** [validateBanco], over the table it searches. *)
Definition validateBancoEn (tabla : list Banco.t) (clienteData : ClienteData)
  : M ValidationResult :=
  sleep 800 ;;;
  match find (fun b => (Banco.id b =? bancoPagador clienteData)%string) tabla with
  | None => ret (plain false "Banco no habilitado" (Some []))
  | Some banco =>
      if (Banco.id banco =? "macro")%string
         && match tipoEmpleado clienteData with privado => true | _ => false end
      then ret (plain false "Banco Macro no acepta empleados privados"
                  (Some [("banco", VBanco banco)]))
      else if Banco.restricciones banco && (sueldoNeto clienteData <=? 650000)
      then ret (plain false
                  (Banco.nombre banco ++ " requiere sueldo superior a $650.000")
                  (Some [("banco", VBanco banco); ("requiredSalary", VInt 650000)]))
      else if 4 <=? Banco.situacion banco
      then ret (plain false
                  (Banco.nombre banco ++ " en situación "
                     ++ string_of_Z (Banco.situacion banco) ++ " - No habilitado")
                  (Some [("banco", VBanco banco)]))
      else if Banco.requiereCuenta banco
              && cuenta_en_blanco (numeroCuenta clienteData)
      then ret (plain false (Banco.nombre banco ++ " requiere número de cuenta")
                  (Some [("banco", VBanco banco)]))
      else
        bloqueada <-
          (if (Banco.id banco =? "macro")%string
              && truthy_string (numeroCuenta clienteData)
           then r <- Math_random ;; ret (Qltb r (1 # 10))
           else ret false) ;;
        if bloqueada
        then ret (plain false "Cuenta bancaria bloqueada"
                    (Some [("banco", VBanco banco); ("accountBlocked", VBool true)]))
        else ret (plain true (Banco.nombre banco ++ " habilitado")
                    (Some [("banco", VBanco banco)]))
  end.

Definition validateBanco : ClienteData -> M ValidationResult :=
  validateBancoEn bancosHabilitados.

(** [calculateMaxAmount] *)
Definition calculateMaxAmount (clienteData : ClienteData)
    (bcraResult bancoResult : ValidationResult) : Z :=
  let sueldoNeto := sueldoNeto clienteData in
  let tipoEmpleado := tipoEmpleado clienteData in
  match vr_situacion5 bcraResult with
  | Some true => 100000
  | _ =>
      let montoMaximo :=
        if 1000000 <? sueldoNeto then
          match tipoEmpleado with
          | publico | jubilado => 200000
          | privado => 150000
          | sin_tipo => 0
          end
        else if 800000 <? sueldoNeto then
          match tipoEmpleado with
          | publico | jubilado => 150000
          | privado => 100000
          | sin_tipo => 0
          end
        else if 500000 <? sueldoNeto then 100000
        else 0 in
      if banco_situacion_is (details bancoResult) 3
      then Z.min montoMaximo 150000
      else montoMaximo
  end.

(** [evaluateCliente] *)
Definition evaluateCliente (clienteData : ClienteData) : M EvaluationResult :=
  let sueldoValidation := validateSueldoMinimo (sueldoNeto clienteData) in
  if negb (success sueldoValidation)
  then ret (mkEval rechazado None (Some (message sueldoValidation))
              (mkDetalles no_evaluado no_evaluado no_evaluado None))
  else
    protecapResult <- validateProtecap (dni clienteData) ;;
    if negb (success protecapResult)
    then ret (mkEval rechazado None (Some (message protecapResult))
                (mkDetalles protecapResult no_evaluado no_evaluado None))
    else
      bcraResult <- validateBCRA (dni clienteData) ;;
      if negb (success bcraResult)
      then
        if truthy (field "requiresManualReview" (details bcraResult))
        then ret (mkEval pendiente None (Some (message bcraResult))
                    (mkDetalles protecapResult bcraResult no_evaluado None))
        else ret (mkEval rechazado None (Some (message bcraResult))
                    (mkDetalles protecapResult bcraResult no_evaluado None))
      else
        bancoResult <- validateBanco clienteData ;;
        if negb (success bancoResult)
        then ret (mkEval rechazado None (Some (message bancoResult))
                    (mkDetalles protecapResult bcraResult bancoResult None))
        else
          let montoMaximo :=
            calculateMaxAmount clienteData bcraResult bancoResult in
          ret (mkEval aprobado (Some montoMaximo) None
                 (mkDetalles protecapResult bcraResult bancoResult
                    (Some montoMaximo))).

End WithService.
End Lib.

(* ================================================================== *)
(** * The validation service of part_001 (lines 1-492)                 *)
(* ================================================================== *)

Module Alt.
Section WithService.
Variable svc : BCRAService.

Definition bancosData : list Banco.t :=
  [ Banco.mk "nacion" "Banco Nación" false 1 false;
    Banco.mk "macro" "Banco Macro" true 2 true;
    Banco.mk "santander" "Banco Santander" false 1 false;
    Banco.mk "galicia" "Banco Galicia" false 2 false;
    Banco.mk "bbva" "BBVA" true 3 false;
    Banco.mk "icbc" "ICBC" false 1 false ].

(** What [validateBCRA] does with the answer of the registry once it has
    one (from the [inhabilitado] test to the end of the [try] block). *)
Definition classify (bcraResponse : BCRAResponse) : ValidationResult :=
  if inhabilitado bcraResponse
  then
    plain false "Cliente inhabilitado en BCRA (Situación 5)"
      (Some [("bcraData", VBcra bcraResponse);
             ("situacion5Count", VNum (situacion5 (resumen bcraResponse)))])
  else
    let total := totalProblematicas (resumen bcraResponse) in
    let porcentaje := porcentajeProblematicas (resumen bcraResponse) in
    if rgeb porcentaje 40
    then
      plain false
        ("Porcentaje alto de situaciones problemáticas: "
           ++ toFixed porcentaje ++ "%")
        (Some [("bcraData", VBcra bcraResponse);
               ("porcentajeProblematicas", VReal porcentaje);
               ("totalProblematicas", VNum total)])
    else
      plain true
        ("Situación BCRA favorable: " ++ toFixed porcentaje
           ++ "% situaciones problemáticas")
        (Some [("bcraData", VBcra bcraResponse);
               ("porcentajeProblematicas", VReal porcentaje);
               ("totalEntidades", VNum (totalEntidades (resumen bcraResponse)));
               ("montoTotal", VNum (montoTotal (resumen bcraResponse)))]).

(** The [switch (errorMessage)] of [validateBCRA]; the case
    ["TOKEN_NOT_CONFIGURED"] is handled by the caller. *)
Definition technical_failure (errorMessage : string) : ValidationResult :=
  if (errorMessage =? "TIMEOUT")%string then
    plain false "Timeout en consulta BCRA - Pendiente revisión manual"
      (Some [("error", VStr "timeout"); ("requiresManualReview", VBool true)])
  else if (errorMessage =? "MAX_RETRIES_EXCEEDED")%string then
    plain false "Error de conexión con BCRA - Pendiente revisión manual"
      (Some [("error", VStr "connection_failed");
             ("requiresManualReview", VBool true)])
  else if startsWith "HTTP_ERROR_" errorMessage then
    let statusCode :=
      substring 11 (String.length errorMessage - 11) errorMessage in
    plain false
      ("Error HTTP " ++ statusCode
         ++ " en consulta BCRA - Pendiente revisión manual")
      (Some [("error", VStr "http_error"); ("statusCode", VStr statusCode);
             ("requiresManualReview", VBool true)])
  else
    plain false "Error técnico en consulta BCRA - Pendiente revisión manual"
      (Some [("error", VStr "unknown"); ("requiresManualReview", VBool true)]).

(** [validateBCRA] *)
Definition validateBCRA (dni : string) : M ValidationResult :=
  try_catch
    (cuit <- lift (if svc_validateCuit svc dni then Ok dni
                   else svc_dniToCuit svc dni) ;;
     try_catch
       (bcraResponse <- svc_consultarDeudas svc cuit ;;
        ret (classify bcraResponse))
       (fun errorMessage =>
          if (errorMessage =? "TOKEN_NOT_CONFIGURED")%string
          then
            bcraResponse <- svc_generateMockResponse svc cuit ;;
            ret (classify bcraResponse)
          else ret (technical_failure errorMessage)))
    (fun _ =>
       ret (plain false
              "Error técnico en validación BCRA - Pendiente revisión manual"
              (Some [("error", VStr "unexpected_error");
                     ("requiresManualReview", VBool true)]))).

(** [validateBanco], over the table it searches. *)
Definition validateBancoEn (tabla : list Banco.t) (clienteData : ClienteData)
  : M ValidationResult :=
  sleep 800 ;;;
  match find (fun b => (Banco.id b =? bancoPagador clienteData)%string) tabla with
  | None => ret (plain false "Banco no encontrado" (Some []))
  | Some banco =>
      if Banco.restricciones banco && (sueldoNeto clienteData <? 650000)
      then ret (plain false
                  (Banco.nombre banco ++ " requiere sueldo mínimo de $650.000")
                  (Some [("banco", VBanco banco); ("requiredSalary", VInt 650000)]))
      else if 4 <=? Banco.situacion banco
      then ret (plain false
                  (Banco.nombre banco ++ " en situación "
                     ++ string_of_Z (Banco.situacion banco) ++ " - No habilitado")
                  (Some [("banco", VBanco banco)]))
      else if (Banco.id banco =? "macro")%string
              && match tipoEmpleado clienteData with privado => true | _ => false end
      then ret (plain false "Banco Macro no acepta empleados privados"
                  (Some [("banco", VBanco banco)]))
      else if Banco.requiereCuenta banco
              && cuenta_en_blanco (numeroCuenta clienteData)
      then ret (plain false (Banco.nombre banco ++ " requiere número de cuenta")
                  (Some [("banco", VBanco banco)]))
      else
        randomCheck <- Math_random ;;
        if Qltb randomCheck (5 # 100)
        then ret (plain false "Cuenta bancaria bloqueada"
                    (Some [("banco", VBanco banco); ("accountBlocked", VBool true)]))
        else ret (plain true (Banco.nombre banco ++ " habilitado")
                    (Some [("banco", VBanco banco)]))
  end.

Definition validateBanco : ClienteData -> M ValidationResult :=
  validateBancoEn bancosData.

(** [calculateMaxAmount]; its second argument is the object
    [{ bcra: ..., banco: ... }]. *)
Definition calculateMaxAmount (clienteData : ClienteData)
    (bcra banco : ValidationResult) : Z :=
  let baseAmount :=
    if 1000000 <=? sueldoNeto clienteData then 200000
    else if 800000 <=? sueldoNeto clienteData then 150000
    else if 500000 <=? sueldoNeto clienteData then 100000
    else 0 in
  let baseAmount :=
    match tipoEmpleado clienteData with
    | publico | jubilado => Z.min baseAmount 200000
    | privado => Z.min baseAmount 150000
    | sin_tipo => baseAmount
    end in
  let baseAmount :=
    if banco_situacion_is (details banco) 3
    then Z.min baseAmount 150000 else baseAmount in
  let bcraDetails := details bcra in
  let baseAmount :=
    if value_gtb (field "porcentajeProblematicas" bcraDetails) 20
    then Z.min baseAmount 100000 else baseAmount in
  let baseAmount :=
    if value_gtb (field "montoTotal" bcraDetails) 100000
    then Z.min baseAmount 100000 else baseAmount in
  baseAmount.

(** [evaluateCliente] *)
Definition evaluateCliente (clienteData : ClienteData) : M EvaluationResult :=
  try_catch
    (protecapResult <- validateProtecap (dni clienteData) ;;
     if negb (success protecapResult)
     then ret (mkEval rechazado None (Some (message protecapResult))
                 (mkDetalles protecapResult no_evaluado no_evaluado None))
     else
       bcraResult <- validateBCRA (dni clienteData) ;;
       if negb (success bcraResult)
       then
         if truthy (field "requiresManualReview" (details bcraResult))
         then ret (mkEval pendiente None (Some (message bcraResult))
                     (mkDetalles protecapResult bcraResult no_evaluado None))
         else ret (mkEval rechazado None (Some (message bcraResult))
                     (mkDetalles protecapResult bcraResult no_evaluado None))
       else
         bancoResult <- validateBanco clienteData ;;
         if negb (success bancoResult)
         then ret (mkEval rechazado None (Some (message bancoResult))
                     (mkDetalles protecapResult bcraResult bancoResult None))
         else
           let montoMaximo :=
             calculateMaxAmount clienteData bcraResult bancoResult in
           if montoMaximo =? 0
           then ret (mkEval rechazado None
                       (Some "No califica para monto mínimo de préstamo")
                       (mkDetalles protecapResult bcraResult bancoResult
                          (Some 0)))
           else ret (mkEval aprobado (Some montoMaximo) None
                       (mkDetalles protecapResult bcraResult bancoResult
                          (Some montoMaximo))))
    (fun _ =>
       ret (mkEval pendiente None
              (Some "Error técnico en evaluación - Pendiente revisión manual")
              (mkDetalles (plain false "Error técnico" None)
                 (plain false "Error técnico" None)
                 (plain false "Error técnico" None) None))).

End WithService.
End Alt.

(* ================================================================== *)
(** * The form and the result page
      ([src/components/simple-evaluation-form.tsx])                    *)
(* ================================================================== *)

(** [Math.round(x)]: the nearest integer, a half going up. *)
Definition Math_round (q : Q) : Z := Qfloor (q + (1 # 2)).

(** [Math.max(a, b)] and [Math.min(a, b)] on exact values. *)
Definition Math_max (a b : Q) : Q := if Qltb a b then b else a.
Definition Math_min (a b : Q) : Q := if Qltb b a then b else a.

Module Form.

(** What [handleSubmit] does to the components around it: the calls of the
    state setter [setIsLoading] and of the property [onEvaluationComplete]. *)
Inductive Action : Type :=
| setIsLoading (loading : bool)
| onEvaluationComplete (result : EvaluationResult).

Section WithService.
Variable svc : BCRAService.

(** [isFormValid]: a chain of [&&] that is used as a condition; a string is
    truthy when it is not empty. *)
Definition isFormValid (formData : ClienteData) : bool :=
  negb (nombre formData =? "")%string
  && negb (apellido formData =? "")%string
  && negb (dni formData =? "")%string
  && (0 <? sueldoNeto formData)
  && match tipoEmpleado formData with sin_tipo => false | _ => true end
  && negb (provincia formData =? "")%string
  && negb (bancoPagador formData =? "")%string.

(** The [errorResult] of the [catch] block of [handleSubmit]. *)
Definition errorResult : EvaluationResult :=
  mkEval pendiente None
    (Some "Error técnico durante la evaluación. Intente nuevamente.")
    (mkDetalles (plain false "Error técnico" None)
       (plain false "Error técnico" None)
       (plain false "Error técnico" None) None).

(** [handleSubmit], as the calls it makes, in order. The form imports the
    service of [src/lib/validation-service.ts]. The two [Date.now()] are
    read for a [console.log] only. *)
Definition handleSubmit (formData : ClienteData) : M (list Action) :=
  done <- try_catch
            (result <- Lib.evaluateCliente svc formData ;;
             ret [onEvaluationComplete result])
            (fun _ => ret [onEvaluationComplete errorResult]) ;;
  ret (setIsLoading true :: done ++ [setIsLoading false])%list.

End WithService.
End Form.

Module ResultPage.

(** [amountOptions]: [result.montoMaximo] is falsy when it is absent or 0.
    The products by 0.5 and 0.75 are exact in binary64 for an integer
    amount. *)
Definition amountOptions (result : EvaluationResult) : list Z :=
  match montoMaximo result with
  | Some m =>
      if m =? 0 then []
      else [Math_round (inject_Z m * (1 # 2));
            Math_round (inject_Z m * (3 # 4)); m]
  | None => []
  end.

(** [result.resultado === "aprobado" && result.montoMaximo]: the condition
    under which the amount and instalment selectors are rendered. *)
Definition shows_selectors (result : EvaluationResult) : bool :=
  match resultado result, montoMaximo result with
  | aprobado, Some m => negb (m =? 0)
  | _, _ => false
  end.

(** The [disabled] of the contact button:
    [result.resultado === "aprobado" && (!selectedAmount || !selectedInstallments)]. *)
Definition contact_disabled (result : EvaluationResult)
    (selectedAmount selectedInstallments : Z) : bool :=
  match resultado result with
  | aprobado => (selectedAmount =? 0) || (selectedInstallments =? 0)
  | _ => false
  end.

End ResultPage.

(* ================================================================== *)
(** * The progress bar (part_001, lines 1138-1163)                     *)
(* ================================================================== *)

Module ProgressBar.

(** [Math.min(Math.max((value / max) * 100, 0), 100)] for finite [value]
    and [max], on exact values. A division by zero gives an infinity, which
    the two bounds turn into 100 or 0, and 0/0 gives NaN, which [Math.max]
    and [Math.min] return. *)
Definition percentage (value max : Q) : real :=
  if Qeq_bool max 0
  then
    if Qltb 0 value then Real 100
    else if Qltb value 0 then Real 0
    else RNaN
  else Real (Math_min (Math_max (value / max * 100) 0) 100).

(** [Math.round(percentage)], the label. *)
Definition label (value max : Q) : number :=
  match percentage value max with
  | Real p => Num (Math_round p)
  | RNaN => NaN
  end.

End ProgressBar.

(* ================================================================== *)
(** * Definitions used to state the properties                         *)
(* ================================================================== *)

(** The character of a decimal digit. *)
Definition char_of_digit (d : Z) : ascii := ascii_of_N (Z.to_N (48 + d)).

(** The digits of a string; [None] when a character is not a digit. *)
Fixpoint digits_of (s : string) : option (list Z) :=
  match s with
  | EmptyString => Some []
  | String c r =>
      if is_digit c
      then match digits_of r with
           | Some ds => Some ((code c - 48) :: ds)
           | None => None
           end
      else None
  end.

Fixpoint dot (ws ds : list Z) : Z :=
  match ws, ds with
  | w :: ws', d :: ds' => w * d + dot ws' ds'
  | _, _ => 0
  end.

(** The check digit the code computes, on digits: the remainder itself when
    it is 0 or 1, and 11 minus the remainder otherwise. *)
Definition code_check_digit (ds : list Z) : Z :=
  let r := dot [5; 4; 3; 2; 7; 6; 5; 4; 3; 2] ds mod 11 in
  if r <? 2 then r else 11 - r.

(** A string of 11 digits whose last digit is [check] of the first ten. *)
Definition eleven_digits_with (check : list Z -> Z) (s : string) : Prop :=
  exists ds, digits_of s = Some ds /\ List.length ds = 11%nat
             /\ nth 10 ds 0 = check (firstn 10 ds).

(** The check digit as the specification words it: 11 minus the remainder,
    and 0 when the remainder is 0 or 1. *)
Definition claimed_check_digit (ds : list Z) : Z :=
  let r := dot [5; 4; 3; 2; 7; 6; 5; 4; 3; 2] ds mod 11 in
  if r <? 2 then 0 else 11 - r.

(** How an attempt of the retry loop ends, read off the outcome of its
    [fetch]: the message of the error it fails with, or [None] when the
    registry answered with a 2xx status and a readable body. *)
Definition attempt_error (o : FetchOutcome) : option string :=
  match o with
  | Aborted => Some "TIMEOUT"
  | Failed msg => Some msg
  | FailedNonError => Some "UNKNOWN_ERROR"
  | Responded status body =>
      if (200 <=? status) && (status <=? 299)
      then match body with Throw msg => Some msg | Ok _ => None end
      else Some ("HTTP_ERROR_" ++ string_of_Z status)
  end.

Definition deudas_url (cuit : string) : string :=
  BcraCommon.BASE_URL ++ "/Deudas/" ++ cuit.

(** A world at the start of an evaluation. *)
Definition start_world (public_token token : option string)
    (answers : nat -> FetchOutcome) (randoms : nat -> Q) : World :=
  mkWorld public_token token "2025-01-01T00:00:00.000Z" answers randoms
    O O [].

(** No credential; every [Math.random()] gives 1/2. *)
Definition offline : World :=
  start_world None None (fun _ => Aborted) (fun _ => 1 # 2).

(** A credential, and a registry that never answers in time. *)
Definition live_timeouts : World :=
  start_world None (Some "secret") (fun _ => Aborted) (fun _ => 1 # 2).

(** A credential, and a registry that answers 503 to every request. *)
Definition live_503 : World :=
  start_world None (Some "secret")
    (fun _ => Responded 503 (Throw "Unexpected token")) (fun _ => 1 # 2).

(** The part of an answer that the data model calls the summary. *)
Definition summary (r : BCRAResponse) : Resumen * bool :=
  (resumen r, inhabilitado r).

(** The value a run returns, when it returns one. *)
Definition returned {A} (r : result A * World) : option A :=
  match fst r with
  | Ok a => Some a
  | Throw _ => None
  end.

(** The credential the second client finds in the environment. *)
Definition credential (w : World) : option string :=
  or_string (env_NEXT_PUBLIC_BCRA_TOKEN w) (env_BCRA_TOKEN w).

(** What a summary says about each debt, without the time stamps. *)
Definition deuda_facts (d : Deuda.t) : string * Z * Z :=
  (Deuda.entidad d, Deuda.situacion d, Deuda.monto d).

(** No credential; [Math.random()] gives 1/2 once and 9/10 ever after. *)
Definition offline_varying : World :=
  start_world None None (fun _ => Aborted)
    (fun n => match n with O => 1 # 2 | _ => 9 # 10 end).

(** The deterministic grounds on which the bank stage refuses a bank of the
    table, as the specification lists them; [strict] says whether the income
    bound of a bank with restrictions is [< 650000] or [<= 650000]. *)
Definition deterministic_rejection (strict : bool) (b : Banco.t)
    (c : ClienteData) : Prop :=
  (Banco.requiereCuenta b = true /\ cuenta_en_blanco (numeroCuenta c) = true)
  \/ (Banco.restricciones b = true
      /\ if strict then sueldoNeto c < 650000 else sueldoNeto c <= 650000)
  \/ 4 <= Banco.situacion b
  \/ ((Banco.id b = "macro")%string /\ tipoEmpleado c = privado).

(** The bank the stage finds for an applicant. *)
Definition banco_de (tabla : list Banco.t) (c : ClienteData) : option Banco.t :=
  find (fun b => (Banco.id b =? bancoPagador c)%string) tabla.

(** The next value [Math.random()] will give. *)
Definition next_draw (w : World) : Q := random_script w (draws w).

(** An applicant, for the examples. *)
Definition applicant (dni : string) (sueldoNeto : Z) (tipo : TipoEmpleado)
    (bancoPagador : string) (numeroCuenta : option string) : ClienteData :=
  mkCliente "Ana" "Paz" dni sueldoNeto tipo "Buenos Aires" bancoPagador
    numeroCuenta.

Definition bbva : Banco.t := Banco.mk "bbva" "BBVA" true 3 false.

(** The base amount of an income, as the specification tabulates it. *)
Definition bracket_base (sueldoNeto : Z) : Z :=
  if 1000000 <=? sueldoNeto then 200000
  else if 800000 <=? sueldoNeto then 150000
  else if 500000 <=? sueldoNeto then 100000
  else 0.

(** A credential, and a registry that answers every request with the
    debts [ds]. *)
Definition live_with (ds : list Deuda.t) : World :=
  start_world None (Some "secret")
    (fun _ => Responded 200 (Ok (mkApiResponse (Some ds) None)))
    (fun _ => 1 # 2).

Definition une_deuda (entidad : string) (situacion monto : Z) : Deuda.t :=
  Deuda.mk entidad situacion monto "2024-12-31" None.

Definition nacion : Banco.t := Banco.mk "nacion" "Banco Nación" false 1 false.

(** The result of a bank stage that accepted the bank [b]. *)
Definition banco_aceptado (b : Banco.t) : ValidationResult :=
  plain true (Banco.nombre b ++ " habilitado") (Some [("banco", VBanco b)]).

(** The outcome, the amount and the reason of an evaluation. *)
Definition verdict (r : result EvaluationResult * World)
  : option (Resultado * option Z * option string) :=
  option_map (fun e => (resultado e, montoMaximo e, motivoRechazo e))
    (returned r).

(** Whether the bureau stage of an evaluation recorded a problematic
    percentage above 20. *)
Definition recorded_above_20 (r : result EvaluationResult * World) : option bool :=
  option_map
    (fun e =>
       value_gtb
         (field "porcentajeProblematicas" (details (bcra (detalles e)))) 20)
    (returned r).

(** The decision of the orchestrator as a table over the verdicts of the
    stages: [income_ok] for the income stage, then the delinquency, bureau
    and bank stages and the amount; [zero_rejects] says whether an amount of
    0 is turned into a rejection. *)
Definition outcome_table (income_ok : bool)
    (protecapResult bcraResult bancoResult : ValidationResult)
    (amount : Z) (zero_rejects : bool) : Resultado :=
  if negb income_ok then rechazado
  else if negb (success protecapResult) then rechazado
  else if negb (success bcraResult) then
    (if truthy (field "requiresManualReview" (details bcraResult))
     then pendiente else rechazado)
  else if negb (success bancoResult) then rechazado
  else if zero_rejects && (amount =? 0) then rechazado
  else aprobado.

(** The tax identifier the bureau stage queries, or the error of
    [dniToCuit]. *)
Definition derive_cuit (svc : BCRAService) (dni : string) : result string :=
  if svc_validateCuit svc dni then Ok dni else svc_dniToCuit svc dni.

(** The bureau stage ends on one of its [catch] blocks that ask for a manual
    review: the tax identifier could not be derived, or the client threw an
    error other than TOKEN_NOT_CONFIGURED, or the simulation it falls back
    on threw. *)
Definition bureau_fault (svc : BCRAService) (dni : string) (w : World) : Prop :=
  match derive_cuit svc dni with
  | Throw _ => True
  | Ok cuit =>
      match svc_consultarDeudas svc cuit w with
      | (Ok _, _) => False
      | (Throw msg, w1) =>
          if (msg =? "TOKEN_NOT_CONFIGURED")%string
          then match svc_generateMockResponse svc cuit w1 with
               | (Ok _, _) => False
               | (Throw _, _) => True
               end
          else True
      end
  end.

(** The manual-review flag of a stage result. *)
Definition requires_review (r : ValidationResult) : bool :=
  truthy (field "requiresManualReview" (details r)).

(** The delinquency registry has the applicant with an active credit. *)
Definition con_credito_activo (dni : string) : bool :=
  match find (fun c => (Moroso.dni c =? dni)%string) clientesMorosos with
  | Some c => Moroso.tieneCredito c
  | None => false
  end.

(** What the properties say of an orchestrator [evaluate] built on the
    stages [bureau] and [bank] and the calculator [amount]: run on the
    applicant [c] in the world [w], the three stages return results [p], [b]
    and [k] when run one after the other; [evaluate] returns an evaluation
    [e], whose outcome is the one of [outcome_table]; the bureau result asks
    for a manual review exactly on a [bureau_fault]; and the outcome is
    [pendiente] exactly when the income and delinquency stages pass and the
    bureau stage meets such a fault. *)
Definition pipeline_spec
    (evaluate : ClienteData -> M EvaluationResult)
    (bureau : string -> M ValidationResult)
    (bank : ClienteData -> M ValidationResult)
    (amount : ClienteData -> ValidationResult -> ValidationResult -> Z)
    (income_ok zero_rejects : bool)
    (svc : BCRAService) (c : ClienteData) (w : World) : Prop :=
  exists p b w2 k w3 e w',
    validateProtecap (dni c) w = (Ok p, snd (sleep 1500 w))
    /\ success p = negb (con_credito_activo (dni c))
    /\ bureau (dni c) (snd (sleep 1500 w)) = (Ok b, w2)
    /\ bank c w2 = (Ok k, w3)
    /\ evaluate c w = (Ok e, w')
    /\ resultado e = outcome_table income_ok p b k (amount c b k) zero_rejects
    /\ (requires_review b = true <->
        bureau_fault svc (dni c) (snd (sleep 1500 w)))
    /\ (resultado e = pendiente <->
        income_ok = true /\ con_credito_activo (dni c) = false
        /\ bureau_fault svc (dni c) (snd (sleep 1500 w))).



(** A world in which the next [Math.random()] gives 0.02. *)
Definition offline_low_draw : World :=
  start_world None None (fun _ => Aborted) (fun _ => 2 # 100).

(* ------------------------------------------------------------------ *)
(** ** Further definitions: the credit-bureau client                   *)
(* ------------------------------------------------------------------ *)

(** The number of debts in situation [k]. *)
Definition count_situacion (k : Z) (ds : list Deuda.t) : Z :=
  Z.of_nat
    (List.length (List.filter (fun d => Deuda.situacion d =? k) ds)).

(** The sum of the amounts of the debts. *)
Fixpoint sum_montos (ds : list Deuda.t) : Z :=
  match ds with
  | [] => 0
  | d :: r => Deuda.monto d + sum_montos r
  end.

(** The debts whose situation is one of 1 to 5. *)
Definition situacion_conocida (d : Deuda.t) : bool :=
  (1 <=? Deuda.situacion d) && (Deuda.situacion d <=? 5).

(** The body of a registry answer that ends an attempt well. *)
Definition answer_of (o : FetchOutcome) : option ApiResponse :=
  match o with
  | Responded status (Ok api) =>
      if (200 <=? status) && (status <=? 299) then Some api else None
  | _ => None
  end.

(** The requests and waits of [k] attempts in a row, the first of them
    numbered [attempt], none of them the last the loop allows. *)
Fixpoint backoff_trace (url token : string) (timeout_ms : Z)
    (attempt : Z) (k : nat) : list Event :=
  match k with
  | O => []
  | S k' =>
      EvFetch url token timeout_ms
        :: match k' with
           | O => []
           | S _ =>
               EvSleep (2 ^ attempt * 1000)
                 :: backoff_trace url token timeout_ms (attempt + 1) k'
           end
  end.

(** The waits recorded in a trace, in milliseconds. *)
Fixpoint total_wait (t : list Event) : Z :=
  match t with
  | [] => 0
  | EvSleep ms :: r => ms + total_wait r
  | EvFetch _ _ _ :: r => total_wait r
  end.

(** A credential, and a registry that does not answer the first request in
    time and answers the following ones with the debts [ds]. *)
Definition live_flaky (ds : list Deuda.t) : World :=
  start_world None (Some "secret")
    (fun n =>
       match n with
       | O => Aborted
       | S _ => Responded 200 (Ok (mkApiResponse (Some ds) None))
       end)
    (fun _ => 1 # 2).

(** The pseudo-random value of the seeded simulation, as a numerator over
    233280. *)
Definition seeded_numerator (seed : Z) : Z :=
  Z.rem (seed * 9301 + 49297) 233280.

(** Every value [Math.random()] gives lies in [0, 1). *)
Definition draws_in_unit (w : World) : Prop :=
  forall n, (0 <= random_script w n)%Q /\ (random_script w n < 1)%Q.

(** A debt as the first client's simulation makes them: in a situation from
    1 to 4, with an amount below 100,000. *)
Definition simulated_deuda (d : Deuda.t) : Prop :=
  1 <= Deuda.situacion d <= 4 /\ 0 <= Deuda.monto d < 100000.

(** [w'] differs from [w] at most by the number of random draws made. *)
Definition only_draws (w w' : World) : Prop :=
  env_NEXT_PUBLIC_BCRA_TOKEN w' = env_NEXT_PUBLIC_BCRA_TOKEN w
  /\ env_BCRA_TOKEN w' = env_BCRA_TOKEN w
  /\ now w' = now w
  /\ fetch_script w' = fetch_script w
  /\ random_script w' = random_script w
  /\ fetches w' = fetches w
  /\ trace w' = trace w
  /\ (draws w <= draws w')%nat.

(** [w'] differs from [w] by the waits [ms], made in this order, and by the
    number of random draws made: no request was sent. *)
Definition only_waits (ms : list Z) (w w' : World) : Prop :=
  env_NEXT_PUBLIC_BCRA_TOKEN w' = env_NEXT_PUBLIC_BCRA_TOKEN w
  /\ env_BCRA_TOKEN w' = env_BCRA_TOKEN w
  /\ now w' = now w
  /\ fetch_script w' = fetch_script w
  /\ random_script w' = random_script w
  /\ fetches w' = fetches w
  /\ trace w' = (trace w ++ map EvSleep ms)%list
  /\ (draws w <= draws w')%nat.

(** What an evaluation records: the amount is there exactly when the outcome
    is [aprobado] and the reason exactly when it is not; an approval has the
    three stage results passed and the calculated amount as its amount; a
    stage after a failed one is recorded as not evaluated; and the outcome
    is [pendiente] exactly when the recorded bureau result failed asking for
    a manual review after a successful delinquency stage. *)
Definition recorded_in_order (e : EvaluationResult) : Prop :=
  let d := detalles e in
  (resultado e = aprobado <-> montoMaximo e <> None)
  /\ (resultado e = aprobado <-> motivoRechazo e = None)
  /\ (resultado e = aprobado ->
      success (protecap d) = true /\ success (bcra d) = true
      /\ success (banco d) = true /\ montoCalculado d = montoMaximo e)
  /\ (success (protecap d) = false -> bcra d = no_evaluado)
  /\ (success (bcra d) = false -> banco d = no_evaluado)
  /\ (resultado e = pendiente <->
      success (protecap d) = true /\ success (bcra d) = false
      /\ requires_review (bcra d) = true).


(* ================================================================== *)
(** * Properties: the embedding on a few inputs                        *)
(* ================================================================== *)

Example parseInt_hex : parseInt "0x1f" = Num 31.
Proof. reflexivity. Qed.

Example parseInt_prefix : parseInt "7NaN" = Num 7.
Proof. reflexivity. Qed.

Example parseInt_blank : parseInt " " = NaN.
Proof. reflexivity. Qed.

Example toFixed1_third : toFixed1 ((1 # 3) * 100) = "33.3".
Proof. reflexivity. Qed.

Example padStart_seven : padStart 8 "0" "1234567" = "01234567".
Proof. reflexivity. Qed.

Example slice_last_four : slice_last 4 "20123456786" = "6786".
Proof. reflexivity. Qed.

Example trim_blank : trim "  12 3 " = "12 3".
Proof. reflexivity. Qed.

Example dniToCuit_A_8 : BcraA.dniToCuit "12345678" = Ok "20123456786".
Proof. reflexivity. Qed.

Example dniToCuit_A_7 : BcraA.dniToCuit "1234567" = Ok "20012345675".
Proof. reflexivity. Qed.

Example dniToCuit_B_7 : BcraB.dniToCuit "1234567" = Throw "DNI inválido".
Proof. reflexivity. Qed.

Example dniToCuit_B_letters : BcraB.dniToCuit "1234567a" = Ok "201234567aNaN".
Proof. reflexivity. Qed.

Example validateCuit_B_ok : BcraB.validateCuit "20123456786" = true.
Proof. reflexivity. Qed.

Example validateCuit_A_dni : BcraA.validateCuit "12.345.678" = false.
Proof. reflexivity. Qed.

Example validateCuit_A_hyphens : BcraA.validateCuit "20-12345678-6" = true.
Proof. reflexivity. Qed.

Example cuenta_bloqueada_lib :
  option_map message
    (returned (Lib.validateBanco
                 (applicant "30111222" 900000 publico "macro" (Some "123-4"))
                 offline_low_draw))
  = Some "Cuenta bancaria bloqueada".
Proof. reflexivity. Qed.

Example cuenta_bloqueada_alt :
  option_map message
    (returned (Alt.validateBanco
                 (applicant "30111222" 900000 publico "nacion" None)
                 offline_low_draw))
  = Some "Cuenta bancaria bloqueada".
Proof. reflexivity. Qed.

Example scenario_A_low_income (svc : BCRAService) :
  verdict (Lib.evaluateCliente svc
             (applicant "30111222" 300000 publico "nacion" None) offline)
  = Some (rechazado, None,
          Some "Sueldo insuficiente. Mínimo requerido: $500.000").
Proof. reflexivity. Qed.

Example scenario_B_delinquent (svc : BCRAService) :
  verdict (Lib.evaluateCliente svc
             (applicant "12345678" 1200000 privado "nacion" None) offline)
  = Some (rechazado, None,
          Some "Cliente con crédito activo en base Protecap").
Proof. reflexivity. Qed.

Example scenario_D_http_503 :
  verdict (Alt.evaluateCliente serviceB
             (applicant "30111222" 1200000 publico "nacion" None) live_503)
  = Some (pendiente, None,
          Some "Error HTTP 503 en consulta BCRA - Pendiente revisión manual").
Proof. vm_compute. reflexivity. Qed.

(* ================================================================== *)
(** * Properties: the identifier service                               *)
(* ================================================================== *)

Section Digits.

Lemma is_digit_range (c : ascii) :
  is_digit c = true -> 0 <= code c - 48 <= 9.
Proof.
  unfold is_digit. rewrite andb_true_iff, !Z.leb_le. lia.
Qed.

Lemma parseInt_digit (c : ascii) :
  is_digit c = true -> parseInt (String c EmptyString) = Num (code c - 48).
Proof.
  destruct c as [[] [] [] [] [] [] [] []]; intro H;
    solve [discriminate H | reflexivity].
Qed.

Lemma char_of_digit_code (c : ascii) :
  is_digit c = true -> char_of_digit (code c - 48) = c.
Proof.
  destruct c as [[] [] [] [] [] [] [] []]; intro H;
    solve [discriminate H | reflexivity].
Qed.

Lemma digit_cases (d : Z) :
  0 <= d <= 9 ->
  d = 0 \/ d = 1 \/ d = 2 \/ d = 3 \/ d = 4 \/ d = 5 \/ d = 6 \/ d = 7
  \/ d = 8 \/ d = 9.
Proof. lia. Qed.

Lemma is_digit_char_of_digit (d : Z) :
  0 <= d <= 9 -> is_digit (char_of_digit d) = true.
Proof.
  intro H. destruct (digit_cases d H) as [E|[E|[E|[E|[E|[E|[E|[E|[E|E]]]]]]]]];
    subst d; reflexivity.
Qed.

Lemma code_char_of_digit (d : Z) :
  0 <= d <= 9 -> code (char_of_digit d) - 48 = d.
Proof.
  intro H. destruct (digit_cases d H) as [E|[E|[E|[E|[E|[E|[E|[E|[E|E]]]]]]]]];
    subst d; reflexivity.
Qed.

Lemma toString_digit (d : Z) :
  0 <= d <= 9 -> toString (Num d) = String (char_of_digit d) EmptyString.
Proof.
  intro H. destruct (digit_cases d H) as [E|[E|[E|[E|[E|[E|[E|[E|[E|E]]]]]]]]];
    subst d; reflexivity.
Qed.

(** The loop of the checksum on a string that starts with ten digits. *)
Lemma weighted_sum_digits (c0 c1 c2 c3 c4 c5 c6 c7 c8 c9 : ascii) (rest : string) :
  is_digit c0 = true -> is_digit c1 = true -> is_digit c2 = true ->
  is_digit c3 = true -> is_digit c4 = true -> is_digit c5 = true ->
  is_digit c6 = true -> is_digit c7 = true -> is_digit c8 = true ->
  is_digit c9 = true ->
  BcraCommon.weighted_sum
    (String c0 (String c1 (String c2 (String c3 (String c4 (String c5
      (String c6 (String c7 (String c8 (String c9 rest))))))))))
  = Num (dot [5; 4; 3; 2; 7; 6; 5; 4; 3; 2]
           [code c0 - 48; code c1 - 48; code c2 - 48; code c3 - 48;
            code c4 - 48; code c5 - 48; code c6 - 48; code c7 - 48;
            code c8 - 48; code c9 - 48]).
Proof.
  intros H0 H1 H2 H3 H4 H5 H6 H7 H8 H9.
  unfold BcraCommon.weighted_sum, parseInt_at, charAt.
  cbn [seq fold_left get nth BcraCommon.multipliers].
  rewrite !parseInt_digit by assumption.
  cbn [nmul nadd dot]. f_equal. lia.
Qed.

Lemma dot_digits_nonneg (ds : list Z) (ws : list Z) :
  Forall (fun w => 0 <= w) ws -> Forall (fun d => 0 <= d) ds -> 0 <= dot ws ds.
Proof.
  intro Hw. revert ds. induction Hw as [|w ws Hw0 Hws IH]; intros ds Hd.
  - simpl. lia.
  - destruct Hd as [|d ds Hd0 Hds]; simpl; [lia|].
    specialize (IH ds Hds). nia.
Qed.

Lemma digits_dot_nonneg (c0 c1 c2 c3 c4 c5 c6 c7 c8 c9 : ascii) :
  is_digit c0 = true -> is_digit c1 = true -> is_digit c2 = true ->
  is_digit c3 = true -> is_digit c4 = true -> is_digit c5 = true ->
  is_digit c6 = true -> is_digit c7 = true -> is_digit c8 = true ->
  is_digit c9 = true ->
  0 <= dot [5; 4; 3; 2; 7; 6; 5; 4; 3; 2]
         [code c0 - 48; code c1 - 48; code c2 - 48; code c3 - 48;
          code c4 - 48; code c5 - 48; code c6 - 48; code c7 - 48;
          code c8 - 48; code c9 - 48].
Proof.
  intros. apply dot_digits_nonneg.
  - repeat constructor; lia.
  - repeat constructor; apply is_digit_range; assumption.
Qed.

(** [checkDigit] from the value of the loop: always a single digit. *)
Lemma checkDigit_of_sum (s : string) (v : Z) :
  0 <= v ->
  BcraCommon.weighted_sum s = Num v ->
  BcraCommon.checkDigit s
  = Num (if v mod 11 <? 2 then v mod 11 else 11 - v mod 11).
Proof.
  intros Hv E. unfold BcraCommon.checkDigit. rewrite E.
  unfold nrem. cbn [Z.eqb]. rewrite Z.rem_mod_nonneg by lia.
  unfold nltb. destruct (v mod 11 <? 2); reflexivity.
Qed.

Lemma check_digit_range (v : Z) :
  0 <= (if v mod 11 <? 2 then v mod 11 else 11 - v mod 11) <= 9.
Proof.
  pose proof (Z.mod_pos_bound v 11 ltac:(lia)).
  destruct (v mod 11 <? 2) eqn:E.
  - apply Z.ltb_lt in E. lia.
  - apply Z.ltb_ge in E. lia.
Qed.

End Digits.

Section TaxId.

Lemma string_length_S (s : string) (n : nat) :
  String.length s = S n ->
  exists c r, s = String c r /\ String.length r = n.
Proof.
  destruct s as [|c r]; simpl; intro H; [discriminate|].
  exists c, r. split; [reflexivity|]. now injection H.
Qed.

Lemma string_length_0 (s : string) : String.length s = O -> s = EmptyString.
Proof. destruct s; simpl; [reflexivity|discriminate]. Qed.

(** Splits a string whose length is known into its characters. *)
Ltac explode s H :=
  repeat
    match type of H with
    | String.length ?x = S _ =>
        let c := fresh "c" in
        let r := fresh "r" in
        let E := fresh "E" in
        destruct (string_length_S _ _ H) as (c & r & E & H');
        subst x; clear H; rename H' into H
    | String.length ?x = O =>
        apply string_length_0 in H; subst x
    end.

Lemma digits_of_all (s : string) (ds : list Z) :
  digits_of s = Some ds ->
  all_chars is_digit s = true /\ List.length ds = String.length s.
Proof.
  revert ds. induction s as [|c r IH]; simpl; intros ds H.
  - injection H as <-. split; reflexivity.
  - destruct (is_digit c); [|discriminate].
    destruct (digits_of r) as [ds'|]; [|discriminate].
    injection H as <-. destruct (IH ds' eq_refl) as [IH1 IH2].
    split; simpl; [assumption|now rewrite IH2].
Qed.

Lemma all_digits_of (s : string) :
  all_chars is_digit s = true -> exists ds, digits_of s = Some ds.
Proof.
  induction s as [|c r IH]; simpl; intro H.
  - now exists [].
  - apply andb_true_iff in H. destruct H as [Hc Hr].
    destruct (IH Hr) as [ds E]. rewrite Hc, E. eauto.
Qed.

(** The two functions of the code, on eleven digits. *)
Lemma checksum_eleven (c0 c1 c2 c3 c4 c5 c6 c7 c8 c9 c10 : ascii) :
  let s := String c0 (String c1 (String c2 (String c3 (String c4 (String c5
             (String c6 (String c7 (String c8 (String c9
               (String c10 EmptyString)))))))))) in
  all_chars is_digit s = true ->
  digits_of s
  = Some [code c0 - 48; code c1 - 48; code c2 - 48; code c3 - 48;
          code c4 - 48; code c5 - 48; code c6 - 48; code c7 - 48;
          code c8 - 48; code c9 - 48; code c10 - 48]
  /\ BcraCommon.validateCuitChecksum s
     = (code_check_digit
          [code c0 - 48; code c1 - 48; code c2 - 48; code c3 - 48;
           code c4 - 48; code c5 - 48; code c6 - 48; code c7 - 48;
           code c8 - 48; code c9 - 48] =? code c10 - 48).
Proof.
  intros s H. subst s. cbn [all_chars] in H.
  repeat (apply andb_true_iff in H; let Hc := fresh "Hc" in destruct H as [Hc H]).
  split.
  - cbn [digits_of]. now rewrite Hc, Hc0, Hc1, Hc2, Hc3, Hc4, Hc5, Hc6, Hc7, Hc8, Hc9.
  - unfold BcraCommon.validateCuitChecksum.
    pose proof (weighted_sum_digits c0 c1 c2 c3 c4 c5 c6 c7 c8 c9
                  (String c10 EmptyString)
                  Hc Hc0 Hc1 Hc2 Hc3 Hc4 Hc5 Hc6 Hc7 Hc8) as Hsum.
    rewrite (checkDigit_of_sum _ _ (digits_dot_nonneg _ _ _ _ _ _ _ _ _ _
               Hc Hc0 Hc1 Hc2 Hc3 Hc4 Hc5 Hc6 Hc7 Hc8) Hsum).
    unfold parseInt_at, charAt. cbn [get].
    rewrite parseInt_digit by assumption.
    reflexivity.
Qed.

(** The strict [validateCuit] accepts exactly the strings of eleven digits
    that end with the check digit of the code. *)
Lemma validateCuit_B_spec (s : string) :
  BcraB.validateCuit s = true <-> eleven_digits_with code_check_digit s.
Proof.
  unfold BcraB.validateCuit, eleven_digits_with. split.
  - intro H.
    destruct ((s =? "")%string || negb (String.length s =? 11)%nat) eqn:E1;
      [discriminate|].
    apply orb_false_iff in E1. destruct E1 as [_ E1].
    apply negb_false_iff, Nat.eqb_eq in E1.
    rewrite E1, Nat.eqb_refl, andb_true_r in H.
    destruct (all_chars is_digit s) eqn:E2; [|discriminate]. cbn [negb] in H.
    explode s E1.
    destruct (checksum_eleven _ _ _ _ _ _ _ _ _ _ _ E2) as [Hd Hc].
    rewrite Hc in H. apply Z.eqb_eq in H.
    eexists. split; [exact Hd|]. split; [reflexivity|].
    cbn [nth firstn]. now rewrite H.
  - intros (ds & Hd & Hl & Hn).
    destruct (digits_of_all _ _ Hd) as [Hall Hlen].
    rewrite Hl in Hlen. symmetry in Hlen.
    rewrite Hlen, Hall. cbn [Nat.eqb negb andb].
    explode s Hlen. cbn [String.eqb orb].
    destruct (checksum_eleven _ _ _ _ _ _ _ _ _ _ _ Hall) as [Hd' Hc].
    rewrite Hd' in Hd. injection Hd as <-.
    cbn [nth firstn] in Hn. rewrite Hc, Hn. apply Z.eqb_refl.
Qed.

Lemma filter_digits_id (s : string) :
  all_chars is_digit s = true -> filter_string is_digit s = s.
Proof.
  induction s as [|c r IH]; simpl; intro H; [reflexivity|].
  apply andb_true_iff in H. destruct H as [Hc Hr].
  rewrite Hc. f_equal. auto.
Qed.

Lemma digit_not_separator (c : ascii) :
  is_digit c = true -> negb ((c =? "-")%char || is_space c) = true.
Proof.
  destruct c as [[] [] [] [] [] [] [] []]; intro H;
    solve [discriminate H | reflexivity].
Qed.

Lemma filter_separators_id (s : string) :
  all_chars is_digit s = true ->
  filter_string (fun c => negb ((c =? "-")%char || is_space c)) s = s.
Proof.
  induction s as [|c r IH]; simpl; intro H; [reflexivity|].
  apply andb_true_iff in H. destruct H as [Hc Hr].
  rewrite (digit_not_separator c Hc). f_equal. auto.
Qed.

(** On a string of digits the lenient [validateCuit] is decided by the
    length and, for eleven digits, by the checksum. *)
Lemma validateCuit_A_digits (s : string) :
  all_chars is_digit s = true ->
  BcraA.validateCuit s
  = if ((7 <=? String.length s)%nat && (String.length s <=? 11)%nat)
    then (if (String.length s <=? 8)%nat then true
          else BcraCommon.validateCuitChecksum s)
    else false.
Proof.
  intro H. unfold BcraA.validateCuit.
  rewrite (filter_separators_id s H), H. cbn [andb].
  now destruct ((7 <=? String.length s)%nat && (String.length s <=? 11)%nat).
Qed.

Lemma validateCuit_B_checksum (s : string) :
  BcraB.validateCuit s = true ->
  all_chars is_digit s = true /\ String.length s = 11%nat
  /\ BcraCommon.validateCuitChecksum s = true.
Proof.
  unfold BcraB.validateCuit. intro H.
  destruct ((s =? "")%string || negb (String.length s =? 11)%nat) eqn:E1;
    [discriminate|].
  apply orb_false_iff in E1. destruct E1 as [_ E1].
  apply negb_false_iff in E1. rewrite E1, andb_true_r in H.
  apply Nat.eqb_eq in E1.
  destruct (all_chars is_digit s); [|discriminate]. auto.
Qed.

(** What the strict version accepts, the lenient one accepts. *)
Lemma validateCuit_A_of_B (s : string) :
  BcraB.validateCuit s = true -> BcraA.validateCuit s = true.
Proof.
  intro H. destruct (validateCuit_B_checksum s H) as (Hd & Hl & Hc).
  rewrite (validateCuit_A_digits s Hd), Hl. exact Hc.
Qed.

(** Nine or ten digits never pass the checksum: [cuit[10]] is [undefined]. *)
Lemma checksum_short (s : string) :
  all_chars is_digit s = true ->
  String.length s = 9%nat \/ String.length s = 10%nat ->
  BcraCommon.validateCuitChecksum s = false.
Proof.
  intros H [L|L]; explode s L;
    unfold BcraCommon.validateCuitChecksum, parseInt_at, charAt; cbn [get];
    match goal with |- nseq ?x NaN = false => now destruct x end.
Qed.

(** Ten digits and the check digit the code appends to them. *)
Lemma append_check_digit (b : string) :
  String.length b = 10%nat ->
  all_chars is_digit b = true ->
  exists ds,
    digits_of b = Some ds
    /\ b ++ toString (BcraCommon.checkDigit b)
       = b ++ String (char_of_digit (code_check_digit ds)) EmptyString
    /\ 0 <= code_check_digit ds <= 9
    /\ String.length (b ++ toString (BcraCommon.checkDigit b)) = 11%nat
    /\ BcraB.validateCuit (b ++ toString (BcraCommon.checkDigit b)) = true.
Proof.
  intros L H. explode b L. cbn [all_chars] in H.
  assert (Hall := H).
  repeat (apply andb_true_iff in H; let Hc := fresh "Hc" in destruct H as [Hc H]).
  pose proof (weighted_sum_digits c c0 c1 c2 c3 c4 c5 c6 c7 c8 EmptyString
                Hc Hc0 Hc1 Hc2 Hc3 Hc4 Hc5 Hc6 Hc7 Hc8) as Hsum.
  pose proof (digits_dot_nonneg _ _ _ _ _ _ _ _ _ _
                Hc Hc0 Hc1 Hc2 Hc3 Hc4 Hc5 Hc6 Hc7 Hc8) as Hnn.
  rewrite (checkDigit_of_sum _ _ Hnn Hsum).
  set (ds := [code c - 48; code c0 - 48; code c1 - 48; code c2 - 48;
              code c3 - 48; code c4 - 48; code c5 - 48; code c6 - 48;
              code c7 - 48; code c8 - 48]) in *.
  assert (Hk : 0 <= code_check_digit ds <= 9) by apply check_digit_range.
  change (if dot [5; 4; 3; 2; 7; 6; 5; 4; 3; 2] ds mod 11 <? 2
          then dot [5; 4; 3; 2; 7; 6; 5; 4; 3; 2] ds mod 11
          else 11 - dot [5; 4; 3; 2; 7; 6; 5; 4; 3; 2] ds mod 11)
    with (code_check_digit ds).
  rewrite (toString_digit _ Hk).
  exists ds. split.
  - cbn [digits_of]. now rewrite Hc, Hc0, Hc1, Hc2, Hc3, Hc4, Hc5, Hc6, Hc7, Hc8.
  - split; [reflexivity|]. split; [exact Hk|]. split; [reflexivity|].
    apply validateCuit_B_spec. cbn [append].
    exists (ds ++ [code_check_digit ds])%list. split.
    + cbn [digits_of].
      rewrite Hc, Hc0, Hc1, Hc2, Hc3, Hc4, Hc5, Hc6, Hc7, Hc8.
      rewrite (is_digit_char_of_digit _ Hk), (code_char_of_digit _ Hk).
      reflexivity.
    + split; reflexivity.
Qed.

Lemma validateCuit_B_intro (s : string) :
  all_chars is_digit s = true -> String.length s = 11%nat ->
  BcraCommon.validateCuitChecksum s = true -> BcraB.validateCuit s = true.
Proof.
  intros Hd Hl Hc. unfold BcraB.validateCuit. rewrite Hl, Hd, Hc.
  destruct s; [discriminate Hl|reflexivity].
Qed.

Lemma validateCuit_A_spec (s : string) :
  let clean :=
    filter_string (fun c => negb ((c =? "-")%char || is_space c)) s in
  BcraA.validateCuit s = true <->
  (all_chars is_digit clean = true
   /\ (String.length clean = 7%nat \/ String.length clean = 8%nat))
  \/ eleven_digits_with code_check_digit clean.
Proof.
  intro clean. unfold BcraA.validateCuit. fold clean. split.
  - intro H. destruct (all_chars is_digit clean) eqn:Hd; [|discriminate].
    destruct (7 <=? String.length clean)%nat eqn:H7; [|discriminate].
    destruct (String.length clean <=? 11)%nat eqn:H11; [|discriminate].
    cbn [andb negb] in H.
    apply Nat.leb_le in H7. apply Nat.leb_le in H11.
    destruct (String.length clean <=? 8)%nat eqn:H8.
    + apply Nat.leb_le in H8. left. split; [reflexivity|lia].
    + apply Nat.leb_gt in H8. right. apply validateCuit_B_spec.
      assert (L : (String.length clean = 9 \/ String.length clean = 10
                   \/ String.length clean = 11)%nat) by lia.
      destruct L as [L|[L|L]].
      * rewrite (checksum_short clean Hd (or_introl L)) in H. discriminate.
      * rewrite (checksum_short clean Hd (or_intror L)) in H. discriminate.
      * now apply validateCuit_B_intro.
  - intros [[Hd [L|L]]|H].
    + now rewrite Hd, L.
    + now rewrite Hd, L.
    + apply validateCuit_B_spec, validateCuit_B_checksum in H.
      destruct H as (Hd & L & Hc). now rewrite Hd, L.
Qed.

(** The lenient [dniToCuit] on 7 or 8 digits. *)
Lemma dniToCuit_A_digits (d : string) :
  all_chars is_digit d = true ->
  String.length d = 7%nat \/ String.length d = 8%nat ->
  let base := "20" ++ padStart 8 "0" d in
  String.length base = 10%nat /\ all_chars is_digit base = true
  /\ BcraA.dniToCuit d = Ok (base ++ toString (BcraCommon.checkDigit base)).
Proof.
  intros Hd L base. unfold BcraA.dniToCuit.
  rewrite (filter_digits_id d Hd). fold base.
  destruct L as [L|L]; rewrite L; cbn [Nat.ltb Nat.leb orb];
    (split; [|split; [|reflexivity]]); subst base; unfold padStart; rewrite L;
    explode d L; try reflexivity; exact Hd.
Qed.

End TaxId.

(** The check digit of the code and the one the claim words differ on a
    remainder of 1 only. *)
Lemma code_check_digit_claimed (ds : list Z) :
  dot [5; 4; 3; 2; 7; 6; 5; 4; 3; 2] ds mod 11 <> 1 ->
  code_check_digit ds = claimed_check_digit ds.
Proof.
  unfold code_check_digit, claimed_check_digit. cbv zeta. intro H.
  pose proof (Z.mod_pos_bound (dot [5; 4; 3; 2; 7; 6; 5; 4; 3; 2] ds) 11
                ltac:(lia)) as Hb.
  destruct (dot [5; 4; 3; 2; 7; 6; 5; 4; 3; 2] ds mod 11 <? 2) eqn:E;
    [|reflexivity].
  apply Z.ltb_lt in E. lia.
Qed.

Lemma code_check_digit_one (ds : list Z) :
  dot [5; 4; 3; 2; 7; 6; 5; 4; 3; 2] ds mod 11 = 1 ->
  code_check_digit ds = 1 /\ claimed_check_digit ds = 0.
Proof.
  unfold code_check_digit, claimed_check_digit. cbv zeta. intro H.
  rewrite H. split; reflexivity.
Qed.

(** The strict [validateCuit] on eleven digits. *)
Lemma validateCuit_B_on_digits (s : string) (ds : list Z) :
  digits_of s = Some ds -> List.length ds = 11%nat ->
  (BcraB.validateCuit s = true <->
   nth 10 ds 0 = code_check_digit (firstn 10 ds)).
Proof.
  intros Hds L. rewrite validateCuit_B_spec. unfold eleven_digits_with.
  split.
  - intros (ds' & H & _ & Hn). rewrite Hds in H. injection H as <-. exact Hn.
  - intro Hn. exists ds. auto.
Qed.

(** C7: the code departs from the claim. When the weighted sum of the first
    ten digits leaves a remainder of 1 modulo 11, the claim maps the check
    digit to 0 (and [11 - 1] is the digit 10 that is to be refused), but the
    strict [validateCuit] accepts the eleven digits exactly when the last
    one is 1: so it accepts 20000000011, which [dniToCuit] produces from
    00000001, and refuses 20000000010; the lenient [validateCuit] accepts
    20000000011 too. On every other remainder the strict [validateCuit]
    does what the claim says: it returns true exactly on the strings of
    eleven digits whose last digit is 11 minus the remainder, or 0 for a
    remainder of 0. The lenient [validateCuit] accepts what the strict one
    accepts once hyphens and white space are removed, and also 7 or 8
    digits. *)
Theorem C7_validateCuit_remainder_one :
  (forall (s : string) (ds : list Z),
      digits_of s = Some ds -> List.length ds = 11%nat ->
      dot [5; 4; 3; 2; 7; 6; 5; 4; 3; 2] (firstn 10 ds) mod 11 = 1 ->
      claimed_check_digit (firstn 10 ds) = 0
      /\ (BcraB.validateCuit s = true <-> nth 10 ds 0 = 1))
  /\ (forall (s : string) (ds : list Z),
         digits_of s = Some ds -> List.length ds = 11%nat ->
         dot [5; 4; 3; 2; 7; 6; 5; 4; 3; 2] (firstn 10 ds) mod 11 <> 1 ->
         (BcraB.validateCuit s = true <->
          nth 10 ds 0 = claimed_check_digit (firstn 10 ds)))
  /\ (forall s : string,
         BcraB.validateCuit s = true ->
         exists ds, digits_of s = Some ds /\ List.length ds = 11%nat)
  /\ (forall s : string,
         let clean :=
           filter_string (fun c => negb ((c =? "-")%char || is_space c)) s in
         BcraA.validateCuit s = true <->
         (all_chars is_digit clean = true
          /\ (String.length clean = 7%nat \/ String.length clean = 8%nat))
         \/ BcraB.validateCuit clean = true)
  /\ BcraB.validateCuit "20000000011" = true
  /\ BcraA.validateCuit "20000000011" = true
  /\ BcraB.validateCuit "20000000010" = false
  /\ BcraB.dniToCuit "00000001" = Ok "20000000011"
  /\ BcraA.dniToCuit "00000001" = Ok "20000000011".
Proof.
  split; [|split; [|split; [|split]]].
  - intros s ds Hds L Hr.
    destruct (code_check_digit_one _ Hr) as [Hc Hk].
    split; [exact Hk|].
    rewrite (validateCuit_B_on_digits s ds Hds L), Hc. reflexivity.
  - intros s ds Hds L Hr.
    rewrite (validateCuit_B_on_digits s ds Hds L).
    rewrite (code_check_digit_claimed _ Hr). reflexivity.
  - intros s H. apply validateCuit_B_spec in H.
    destruct H as (ds & Hds & L & _). exists ds. auto.
  - intros s clean.
    rewrite (validateCuit_B_spec clean). apply validateCuit_A_spec.
  - repeat split; reflexivity.
Qed.

(** C7, witness: 20000000011, whose first ten digits have a weighted sum of
    12, and the CUIT of DNI 12345678, whose remainder is 5. *)
Lemma C7_witness :
  (claimed_check_digit (firstn 10 [2; 0; 0; 0; 0; 0; 0; 0; 0; 1; 1]) = 0
   /\ (BcraB.validateCuit "20000000011" = true
       <-> nth 10 [2; 0; 0; 0; 0; 0; 0; 0; 0; 1; 1] 0 = 1))
  /\ (BcraB.validateCuit "20123456786" = true
      <-> nth 10 [2; 0; 1; 2; 3; 4; 5; 6; 7; 8; 6] 0
          = claimed_check_digit (firstn 10 [2; 0; 1; 2; 3; 4; 5; 6; 7; 8; 6])).
Proof.
  split.
  - apply (proj1 C7_validateCuit_remainder_one "20000000011"
             [2; 0; 0; 0; 0; 0; 0; 0; 0; 1; 1]); reflexivity.
  - apply (proj1 (proj2 C7_validateCuit_remainder_one) "20123456786"
             [2; 0; 1; 2; 3; 4; 5; 6; 7; 8; 6]);
      [reflexivity|reflexivity|vm_compute; discriminate].
Defined.

(** C8, as amended. First client: for every string [d] of 7 or 8 digits
    [dniToCuit] succeeds and returns eleven characters, "20", [d] padded on
    the left with zeros to 8 digits, and one more; when the weighted sum of
    those ten digits does not leave a remainder of 1 modulo 11, the last
    character is the check digit of the mod-11 algorithm (11 minus the
    remainder, 0 for a remainder of 0) and both versions of [validateCuit]
    accept the result. An input whose digits (all other characters are
    dropped first) are fewer than 7 or more than 8 fails with
    DNI_INVALID_LENGTH. Second client: only inputs of exactly 8 characters
    are accepted, on which, when they are digits, it returns what the first
    client returns; every other length, 7 digits included, fails with
    "DNI inválido". *)
Theorem C8_dniToCuit :
  (forall (d : string) (ds : list Z),
      all_chars is_digit d = true ->
      String.length d = 7%nat \/ String.length d = 8%nat ->
      digits_of ("20" ++ padStart 8 "0" d) = Some ds ->
      dot [5; 4; 3; 2; 7; 6; 5; 4; 3; 2] ds mod 11 <> 1 ->
      exists out : string,
        out = ("20" ++ padStart 8 "0" d)
                ++ String (char_of_digit (claimed_check_digit ds)) EmptyString
        /\ 0 <= claimed_check_digit ds <= 9
        /\ BcraA.dniToCuit d = Ok out
        /\ String.length out = 11%nat
        /\ BcraA.validateCuit out = true
        /\ BcraB.validateCuit out = true)
  /\ (forall d : string,
         all_chars is_digit d = true ->
         String.length d = 7%nat \/ String.length d = 8%nat ->
         exists (ds : list Z) (k : ascii),
           digits_of ("20" ++ padStart 8 "0" d) = Some ds
           /\ List.length ds = 10%nat
           /\ is_digit k = true
           /\ BcraA.dniToCuit d
              = Ok (("20" ++ padStart 8 "0" d) ++ String k EmptyString))
  /\ (forall d : string,
         (String.length (filter_string is_digit d) < 7
          \/ 8 < String.length (filter_string is_digit d))%nat ->
         BcraA.dniToCuit d = Throw "DNI_INVALID_LENGTH")
  /\ (forall d : string,
         String.length d <> 8%nat -> BcraB.dniToCuit d = Throw "DNI inválido")
  /\ (forall d : string,
         all_chars is_digit d = true -> String.length d = 8%nat ->
         BcraB.dniToCuit d = BcraA.dniToCuit d).
Proof.
  split; [|split; [|split; [|split]]].
  - intros d ds Hd L Hds Hr.
    destruct (dniToCuit_A_digits d Hd L) as (Lb & Hb & E).
    destruct (append_check_digit _ Lb Hb) as (ds' & Hds' & Eo & Hk & Lo & Hv).
    rewrite Hds in Hds'. injection Hds' as <-.
    rewrite (code_check_digit_claimed _ Hr) in Eo, Hk.
    exists (("20" ++ padStart 8 "0" d)
              ++ String (char_of_digit (claimed_check_digit ds)) EmptyString).
    rewrite <- Eo.
    repeat split; try assumption; try lia.
    now apply validateCuit_A_of_B.
  - intros d Hd L.
    destruct (dniToCuit_A_digits d Hd L) as (Lb & Hb & E).
    destruct (append_check_digit _ Lb Hb) as (ds & Hds & Eo & Hk & Lo & Hv).
    exists ds, (char_of_digit (code_check_digit ds)).
    split; [exact Hds|].
    split; [destruct (digits_of_all _ _ Hds) as [_ Hl]; now rewrite Hl|].
    split; [now apply is_digit_char_of_digit|].
    rewrite <- Eo. exact E.
  - intros d H. unfold BcraA.dniToCuit.
    destruct H as [H|H].
    + apply Nat.ltb_lt in H. now rewrite H.
    + apply Nat.ltb_lt in H. rewrite H. now rewrite orb_true_r.
  - intros d H. unfold BcraB.dniToCuit.
    apply Nat.eqb_neq in H. now rewrite H.
  - intros d Hd L. unfold BcraB.dniToCuit, BcraA.dniToCuit.
    rewrite (filter_digits_id d Hd), L. unfold padStart. rewrite L.
    reflexivity.
Qed.

(** C8, witness: DNI 1234567 in the first client, and a DNI of three digits. *)
Lemma C8_witness :
  (exists out : string,
      out = ("20" ++ padStart 8 "0" "1234567")
              ++ String (char_of_digit
                           (claimed_check_digit [2; 0; 0; 1; 2; 3; 4; 5; 6; 7]))
                   EmptyString
      /\ 0 <= claimed_check_digit [2; 0; 0; 1; 2; 3; 4; 5; 6; 7] <= 9
      /\ BcraA.dniToCuit "1234567" = Ok out
      /\ String.length out = 11%nat
      /\ BcraA.validateCuit out = true
      /\ BcraB.validateCuit out = true)
  /\ BcraA.dniToCuit "123" = Throw "DNI_INVALID_LENGTH".
Proof.
  split.
  - apply (proj1 C8_dniToCuit "1234567" [2; 0; 0; 1; 2; 3; 4; 5; 6; 7]);
      [reflexivity|left; reflexivity|reflexivity|vm_compute; discriminate].
  - apply (proj1 (proj2 (proj2 C8_dniToCuit)) "123"). left. simpl. lia.
Defined.

(** C8, counterexample: the second client refuses a DNI of seven digits,
    which the first client converts. *)
Lemma C8_counterexample :
  all_chars is_digit "1234567" = true
  /\ String.length "1234567" = 7%nat
  /\ BcraB.dniToCuit "1234567" = Throw "DNI inválido"
  /\ BcraA.dniToCuit "1234567" = Ok "20012345675".
Proof. repeat split; reflexivity. Qed.

(* ================================================================== *)
(** * Properties: the credit-bureau client                             *)
(* ================================================================== *)

Section RetryLoop.
Import BcraCommon.

Variable TIMEOUT_MS : Z.
Variables cuit token : string.

Let after_fetch (w : World) : World :=
  snd (fetch (deudas_url cuit) token TIMEOUT_MS w).

Lemma makeRequest_fails (w : World) (e : string) :
  attempt_error (fetch_script w (fetches w)) = Some e ->
  makeRequest TIMEOUT_MS cuit token w = (Throw e, after_fetch w).
Proof.
  unfold makeRequest, bind, fetch, attempt_error, after_fetch, deudas_url, fetch.
  cbn [snd]. intro H.
  destruct (fetch_script w (fetches w)) as [|msg| |status body].
  - injection H as <-. reflexivity.
  - injection H as <-. reflexivity.
  - injection H as <-. reflexivity.
  - destruct ((200 <=? status) && (status <=? 299)); cbn [negb].
    + destruct body as [a|msg]; [discriminate|]. injection H as <-. reflexivity.
    + injection H as <-. reflexivity.
Qed.

Lemma makeRequest_succeeds (w : World) :
  attempt_error (fetch_script w (fetches w)) = None ->
  exists api, makeRequest TIMEOUT_MS cuit token w = (Ok api, after_fetch w).
Proof.
  unfold makeRequest, bind, fetch, attempt_error, after_fetch, deudas_url, fetch.
  cbn [snd]. intro H.
  destruct (fetch_script w (fetches w)) as [|msg| |status body];
    try discriminate.
  destruct ((200 <=? status) && (status <=? 299)); cbn [negb];
    [|discriminate].
  destruct body as [a|msg]; [|discriminate]. now exists a.
Qed.

(** One failed iteration of the loop. *)
Lemma attempts_fail_step (n : nat) (attempt : Z) (last : option string)
    (w : World) (e : string) :
  attempt_error (fetch_script w (fetches w)) = Some e ->
  attempts TIMEOUT_MS cuit token (S n) attempt last w
  = attempts TIMEOUT_MS cuit token n (attempt + 1) (Some e)
      (if attempt <? MAX_RETRIES
       then snd (sleep (2 ^ attempt * 1000) (after_fetch w))
       else after_fetch w).
Proof.
  intro H. cbn [attempts]. unfold try_catch at 1. unfold bind at 1.
  rewrite (makeRequest_fails w e H). unfold bind at 1.
  destruct (attempt <? MAX_RETRIES); reflexivity.
Qed.

(** The whole loop when its three attempts fail. *)
Lemma attempts_all_fail (w : World) (e1 e2 e3 : string) :
  attempt_error (fetch_script w (fetches w)) = Some e1 ->
  attempt_error (fetch_script w (S (fetches w))) = Some e2 ->
  attempt_error (fetch_script w (S (S (fetches w)))) = Some e3 ->
  exists w',
    attempts TIMEOUT_MS cuit token (Z.to_nat MAX_RETRIES) 1 None w
    = (Throw e3, w')
    /\ trace w'
       = (trace w
            ++ [EvFetch (deudas_url cuit) token TIMEOUT_MS; EvSleep 2000;
                EvFetch (deudas_url cuit) token TIMEOUT_MS; EvSleep 4000;
                EvFetch (deudas_url cuit) token TIMEOUT_MS])%list
    /\ fetches w' = S (S (S (fetches w)))
    /\ draws w' = draws w.
Proof.
  intros H1 H2 H3.
  change (Z.to_nat MAX_RETRIES) with 3%nat.
  rewrite (attempts_fail_step 2 1 None w e1 H1).
  change (1 <? MAX_RETRIES) with true. cbv iota.
  set (w1 := snd (sleep (2 ^ 1 * 1000) (after_fetch w))).
  rewrite (attempts_fail_step 1 (1 + 1) (Some e1) w1 e2 H2).
  change (1 + 1 <? MAX_RETRIES) with true. cbv iota.
  set (w2 := snd (sleep (2 ^ (1 + 1) * 1000) (after_fetch w1))).
  rewrite (attempts_fail_step 0 (1 + 1 + 1) (Some e2) w2 e3 H3).
  change (1 + 1 + 1 <? MAX_RETRIES) with false. cbv iota.
  eexists. split; [reflexivity|].
  subst w2 w1. unfold after_fetch. cbn.
  repeat rewrite <- app_assoc. cbn. repeat split; reflexivity.
Qed.

End RetryLoop.

(** The first client never reaches its loop: it has no way to get a token. *)
Lemma consultarDeudas_A_no_token (cuit : string) (w : World) :
  BcraA.consultarDeudas cuit w = (Throw "TOKEN_NOT_CONFIGURED", w).
Proof. reflexivity. Qed.

(** C5, as amended. In live mode (a credential in the environment, second
    client), when the three attempts fail, [consultarDeudas] makes exactly
    three requests, waits 2000 ms after the first failure and 4000 ms after
    the second, does not wait after the third, and then throws the error of
    the last attempt itself (TIMEOUT, HTTP_ERROR_n, UNKNOWN_ERROR or whatever
    [fetch] failed with), not an error named MAX_RETRIES_EXCEEDED. The loop
    of the first client does the same with its own timeout once it is
    entered, but that client's [getAuthToken] always returns null, so its
    [consultarDeudas] throws TOKEN_NOT_CONFIGURED without any request. *)
Theorem C5_retry_budget (w : World) (cuit t e1 e2 e3 : string) :
  BcraB.getAuthToken w = (Ok (Some t), w) ->
  attempt_error (fetch_script w (fetches w)) = Some e1 ->
  attempt_error (fetch_script w (S (fetches w))) = Some e2 ->
  attempt_error (fetch_script w (S (S (fetches w)))) = Some e3 ->
  (exists w',
      BcraB.consultarDeudas cuit w = (Throw e3, w')
      /\ trace w'
         = (trace w
              ++ [EvFetch (deudas_url cuit) t 15000; EvSleep 2000;
                  EvFetch (deudas_url cuit) t 15000; EvSleep 4000;
                  EvFetch (deudas_url cuit) t 15000])%list
      /\ fetches w' = S (S (S (fetches w))))
  /\ (exists w',
         BcraCommon.attempts BcraA.TIMEOUT_MS cuit t
           (Z.to_nat BcraCommon.MAX_RETRIES) 1 None w = (Throw e3, w')
         /\ trace w'
            = (trace w
                 ++ [EvFetch (deudas_url cuit) t 10000; EvSleep 2000;
                     EvFetch (deudas_url cuit) t 10000; EvSleep 4000;
                     EvFetch (deudas_url cuit) t 10000])%list)
  /\ BcraA.consultarDeudas cuit w = (Throw "TOKEN_NOT_CONFIGURED", w).
Proof.
  intros Ht H1 H2 H3. split; [|split].
  - unfold BcraB.consultarDeudas, bind. rewrite Ht.
    destruct (attempts_all_fail BcraB.TIMEOUT_MS cuit t w e1 e2 e3 H1 H2 H3)
      as (w' & E & Tr & F & _).
    exists w'. auto.
  - destruct (attempts_all_fail BcraA.TIMEOUT_MS cuit t w e1 e2 e3 H1 H2 H3)
      as (w' & E & Tr & _).
    exists w'. auto.
  - reflexivity.
Qed.

(** C5, witness: a registry that never answers in time. *)
Lemma C5_witness :
  (exists w',
      BcraB.consultarDeudas "20123456786" live_timeouts = (Throw "TIMEOUT", w')
      /\ trace w'
         = (trace live_timeouts
              ++ [EvFetch (deudas_url "20123456786") "secret" 15000;
                  EvSleep 2000;
                  EvFetch (deudas_url "20123456786") "secret" 15000;
                  EvSleep 4000;
                  EvFetch (deudas_url "20123456786") "secret" 15000])%list
      /\ fetches w' = S (S (S (fetches live_timeouts)))).
Proof.
  apply (C5_retry_budget live_timeouts "20123456786" "secret"
           "TIMEOUT" "TIMEOUT" "TIMEOUT"); reflexivity.
Defined.

(** C5, counterexample: after three timeouts, and after three answers 503,
    what the client throws is the last error, not MAX_RETRIES_EXCEEDED. *)
Lemma C5_counterexample :
  fst (BcraB.consultarDeudas "20123456786" live_timeouts) = Throw "TIMEOUT"
  /\ fst (BcraB.consultarDeudas "20123456786" live_503)
     = Throw "HTTP_ERROR_503"
  /\ fetches (snd (BcraB.consultarDeudas "20123456786" live_503)) = 3%nat.
Proof. repeat split; reflexivity. Qed.

(** C6, as amended. With no credential in the environment, the second
    client's [consultarDeudas] answers with a summary (the counters, the
    total amount and the [inhabilitado] flag) and a list of debts that depend
    on the tax identifier only: the same in any two worlds, whatever their
    clocks, random sources and networks, and the call leaves the world as it
    was, so a second call in the same process gives the same again. Only the
    time stamps [fechaConsulta] and [fechaActualizacion] follow the clock.
    (The first client's simulation draws from [Math.random]: see the
    counterexample.) *)
Theorem C6_simulation_deterministic (cuit : string) (w1 w2 : World) :
  truthy_string (credential w1) = false ->
  truthy_string (credential w2) = false ->
  exists r1 r2,
    BcraB.consultarDeudas cuit w1 = (Ok r1, w1)
    /\ BcraB.consultarDeudas cuit w2 = (Ok r2, w2)
    /\ summary r1 = summary r2
    /\ map deuda_facts (deudas r1) = map deuda_facts (deudas r2)
    /\ fechaConsulta r1 = now w1 /\ fechaConsulta r2 = now w2.
Proof.
  intros H1 H2.
  unfold BcraB.consultarDeudas, BcraB.getAuthToken, bind.
  fold (credential w1). fold (credential w2). rewrite H1, H2. cbn [negb].
  unfold BcraB.generateMockResponse, bind, Date_now.
  destruct (parseInt (slice_last 4 cuit)) as [|seed].
  - do 2 eexists. repeat split.
  - match goal with |- context [Qltb ?r (7 # 10)] =>
      destruct (Qltb r (7 # 10)) end.
    + do 2 eexists. repeat split.
    + do 2 eexists. split; [reflexivity|]. split; [reflexivity|].
      split; [reflexivity|]. split; [|split; reflexivity].
      cbn [deudas]. rewrite !map_map. reflexivity.
Qed.

(** C6, witness: the same CUIT at two different times, with two different
    random sources. *)
Lemma C6_witness :
  exists r1 r2,
    BcraB.consultarDeudas "20123456786" offline = (Ok r1, offline)
    /\ BcraB.consultarDeudas "20123456786" offline_varying
       = (Ok r2, offline_varying)
    /\ summary r1 = summary r2
    /\ map deuda_facts (deudas r1) = map deuda_facts (deudas r2)
    /\ fechaConsulta r1 = now offline
    /\ fechaConsulta r2 = now offline_varying.
Proof.
  apply (C6_simulation_deterministic "20123456786" offline offline_varying);
    reflexivity.
Defined.

(** C6, counterexample. In the first client a query without credential
    throws TOKEN_NOT_CONFIGURED and the bureau stage then asks
    [generateMockResponse], every choice of which is a [Math.random()]: two
    calls in a row for the same CUIT, in a process whose draws are 1/2 and
    then 9/10, give a favourable summary and then a summary of five
    entities; the bureau stage passes the first time and fails the second. *)
Lemma C6_counterexample :
  let first := BcraA.generateMockResponse "20123456786" offline_varying in
  let second := BcraA.generateMockResponse "20123456786" (snd first) in
  fst (BcraA.consultarDeudas "20123456786" offline_varying)
  = Throw "TOKEN_NOT_CONFIGURED"
  /\ option_map summary (returned first)
     = Some (mkResumen (Num 1) (Num 1) (Num 0) (Num 0) (Num 0) (Num 2)
               (Num 15000), false)
  /\ option_map summary (returned second)
     = Some (mkResumen (Num 2) (Num 0) (Num 2) (Num 0) (Num 0) (Num 5)
               (Num 450000), false)
  /\ (let stage1 := Lib.validateBCRA serviceA "12345678" offline_varying in
      option_map success (returned stage1) = Some true
      /\ option_map success
           (returned (Lib.validateBCRA serviceA "12345678" (snd stage1)))
         = Some false).
Proof. vm_compute. repeat split; reflexivity. Qed.

(* ================================================================== *)
(** * Properties: the bank stage                                       *)
(* ================================================================== *)

Section BankStage.

Ltac head_atom c :=
  match c with
  | ?a && _ => head_atom a
  | ?a || _ => head_atom a
  | negb ?a => head_atom a
  | match tipoEmpleado ?x with _ => _ end => constr:(tipoEmpleado x)
  | _ => c
  end.

Ltac split_ifs :=
  repeat
    match goal with
    | |- context [if ?c then _ else _] =>
        let a := head_atom c in
        let E := fresh "E" in
        destruct a eqn:E; cbn [andb orb negb]
    end.

Ltac to_props :=
  repeat
    match goal with
    | H : (_ =? _)%string = true |- _ => apply String.eqb_eq in H
    | H : (_ =? _)%string = false |- _ => apply String.eqb_neq in H
    | H : (_ <=? _) = true |- _ => apply Z.leb_le in H
    | H : (_ <=? _) = false |- _ => apply Z.leb_gt in H
    | H : (_ <? _) = true |- _ => apply Z.ltb_lt in H
    | H : (_ <? _) = false |- _ => apply Z.ltb_ge in H
    end.

Ltac settle :=
  do 2 eexists; split; [reflexivity|];
  cbn [success plain draws random_script] in *; to_props;
  unfold deterministic_rejection;
  split;
  [ intro;
    first [ discriminate
          | left; reflexivity
          | right; eexists; split; [reflexivity|];
            intuition (try congruence; try lia) ]
  | let H := fresh "H" in
    let b0 := fresh "b0" in
    let Hb := fresh "Hb" in
    intros [H|(b0 & Hb & H)];
    [ first [reflexivity | discriminate]
    | first [ reflexivity
            | injection Hb as <-; intuition (try congruence; try lia) ] ] ].

(** The bank stage of [src/lib/validation-service.ts]. *)
Lemma validateBanco_lib_spec (tabla : list Banco.t) (c : ClienteData) (w : World) :
  exists r w',
    Lib.validateBancoEn tabla c w = (Ok r, w')
    /\ (success r = false <->
        banco_de tabla c = None
        \/ exists b, banco_de tabla c = Some b
             /\ (deterministic_rejection false b c
                 \/ ((Banco.id b = "macro")%string
                     /\ truthy_string (numeroCuenta c) = true
                     /\ Qltb (next_draw w) (1 # 10) = true))).
Proof.
  unfold Lib.validateBancoEn, bind, sleep, log_event, Math_random, ret,
    next_draw, banco_de.
  cbn [draws random_script].
  destruct (find (fun b => (Banco.id b =? bancoPagador c)%string) tabla)
    as [b|]; [|settle].
  split_ifs; settle.
Qed.

(** The bank stage of part_001. *)
Lemma validateBanco_alt_spec (tabla : list Banco.t) (c : ClienteData) (w : World) :
  exists r w',
    Alt.validateBancoEn tabla c w = (Ok r, w')
    /\ (success r = false <->
        banco_de tabla c = None
        \/ exists b, banco_de tabla c = Some b
             /\ (deterministic_rejection true b c
                 \/ Qltb (next_draw w) (5 # 100) = true)).
Proof.
  unfold Alt.validateBancoEn, bind, sleep, log_event, Math_random, ret,
    next_draw, banco_de.
  cbn [draws random_script].
  destruct (find (fun b => (Banco.id b =? bancoPagador c)%string) tabla)
    as [b|]; [|settle].
  split_ifs; settle.
Qed.

End BankStage.

(** C9, as amended. In [src/lib/validation-service.ts] the bank stage fails
    exactly when the payer bank is not in the table, or the bank requires an
    account number and the supplied one is absent or blank, or the bank has
    restrictions and the net income is <= 650,000, or the bank's situation
    is >= 4, or the bank is "macro" and the employment is private, or the
    simulated account-blocked check fires, which there is made only for
    "macro" with an account number, with a draw below 0.1. In part_001 the
    grounds are the same except that the income bound of a bank with
    restrictions is strict (< 650,000: an income of exactly 650,000 passes)
    and that the account-blocked check is made for every bank, with a draw
    below 0.05. *)
Theorem C9_bank_stage (tabla : list Banco.t) (c : ClienteData) (w : World) :
  (exists r w',
      Lib.validateBancoEn tabla c w = (Ok r, w')
      /\ (success r = false <->
          banco_de tabla c = None
          \/ exists b, banco_de tabla c = Some b
               /\ (deterministic_rejection false b c
                   \/ ((Banco.id b = "macro")%string
                       /\ truthy_string (numeroCuenta c) = true
                       /\ Qltb (next_draw w) (1 # 10) = true))))
  /\ (exists r w',
         Alt.validateBancoEn tabla c w = (Ok r, w')
         /\ (success r = false <->
             banco_de tabla c = None
             \/ exists b, banco_de tabla c = Some b
                  /\ (deterministic_rejection true b c
                      \/ Qltb (next_draw w) (5 # 100) = true))).
Proof.
  split.
  - apply validateBanco_lib_spec.
  - apply validateBanco_alt_spec.
Qed.

(** C9, counterexample: BBVA has restrictions; with a net income of exactly
    650,000 the stage of part_001 passes (the draw is 1/2, no simulated
    block), where the claim has it fail; that of
    [src/lib/validation-service.ts] fails. *)
Lemma C9_counterexample :
  let c := applicant "30111222" 650000 publico "bbva" None in
  banco_de Alt.bancosData c = Some bbva
  /\ Banco.restricciones bbva = true
  /\ sueldoNeto c <= 650000
  /\ option_map success (returned (Alt.validateBanco c offline)) = Some true
  /\ option_map success (returned (Lib.validateBanco c offline)) = Some false.
Proof.
  cbv zeta. repeat split; try reflexivity; vm_compute; discriminate.
Qed.

(* ================================================================== *)
(** * Properties: the amount calculator                                *)
(* ================================================================== *)

Section Amount.

(** What the bureau stage of part_001 hands to the calculator when it
    passes. *)
Lemma alt_classify_pass (resp : BCRAResponse) :
  success (Alt.classify resp) = true ->
  inhabilitado resp = false
  /\ rgeb (porcentajeProblematicas (resumen resp)) 40 = false
  /\ field "porcentajeProblematicas" (details (Alt.classify resp))
     = Some (VReal (porcentajeProblematicas (resumen resp)))
  /\ field "montoTotal" (details (Alt.classify resp))
     = Some (VNum (montoTotal (resumen resp))).
Proof.
  unfold Alt.classify.
  destruct (inhabilitado resp); [discriminate|].
  destruct (rgeb (porcentajeProblematicas (resumen resp)) 40);
    [discriminate|].
  intros _. repeat split; reflexivity.
Qed.

Lemma banco_situacion_is_field (d : option Details) (b : Banco.t) (k : Z) :
  field "banco" d = Some (VBanco b) ->
  banco_situacion_is d k = (Banco.situacion b =? k).
Proof. unfold banco_situacion_is. now intros ->. Qed.

(** The calculator of part_001: below the base of the bracket, and below
    every cap whose condition holds. *)
Lemma alt_amount_caps (c : ClienteData) (bcra banco : ValidationResult) :
  let m := Alt.calculateMaxAmount c bcra banco in
  0 <= m <= bracket_base (sueldoNeto c)
  /\ (tipoEmpleado c = publico \/ tipoEmpleado c = jubilado -> m <= 200000)
  /\ (tipoEmpleado c = privado -> m <= 150000)
  /\ (banco_situacion_is (details banco) 3 = true -> m <= 150000)
  /\ (value_gtb (field "porcentajeProblematicas" (details bcra)) 20 = true ->
      m <= 100000)
  /\ (value_gtb (field "montoTotal" (details bcra)) 100000 = true ->
      m <= 100000).
Proof.
  unfold Alt.calculateMaxAmount, bracket_base.
  destruct (1000000 <=? sueldoNeto c);
    [|destruct (800000 <=? sueldoNeto c);
      [|destruct (500000 <=? sueldoNeto c)]];
    destruct (tipoEmpleado c);
    destruct (banco_situacion_is (details banco) 3);
    destruct (value_gtb (field "porcentajeProblematicas" (details bcra)) 20);
    destruct (value_gtb (field "montoTotal" (details bcra)) 100000);
    cbv zeta; repeat split; intros; try lia; try discriminate;
    repeat match goal with H : _ \/ _ |- _ => destruct H end;
    try discriminate; try (cbn; lia).
Qed.

(** The calculator of [src/lib/validation-service.ts]: for an income that
    passes the income stage, below the base of the bracket, the cap of the
    employment category and the cap of a bank in situation 3. *)
Lemma lib_amount_caps (c : ClienteData) (bcra banco : ValidationResult) :
  let m := Lib.calculateMaxAmount c bcra banco in
  0 <= m
  /\ (500000 <= sueldoNeto c -> m <= bracket_base (sueldoNeto c))
  /\ (tipoEmpleado c = publico \/ tipoEmpleado c = jubilado -> m <= 200000)
  /\ (tipoEmpleado c = privado -> m <= 150000)
  /\ (banco_situacion_is (details banco) 3 = true -> m <= 150000)
  /\ (vr_situacion5 bcra = Some true -> m = 100000).
Proof.
  unfold Lib.calculateMaxAmount, bracket_base.
  destruct (vr_situacion5 bcra) as [[|]|];
    destruct (1000000 <? sueldoNeto c) eqn:E1;
    destruct (800000 <? sueldoNeto c) eqn:E2;
    destruct (500000 <? sueldoNeto c) eqn:E3;
    destruct (1000000 <=? sueldoNeto c) eqn:F1;
    destruct (800000 <=? sueldoNeto c) eqn:F2;
    destruct (500000 <=? sueldoNeto c) eqn:F3;
    try (exfalso;
         repeat match goal with
                | H : (_ <? _) = true |- _ => apply Z.ltb_lt in H
                | H : (_ <? _) = false |- _ => apply Z.ltb_ge in H
                | H : (_ <=? _) = true |- _ => apply Z.leb_le in H
                | H : (_ <=? _) = false |- _ => apply Z.leb_gt in H
                end; lia);
    destruct (tipoEmpleado c);
    destruct (banco_situacion_is (details banco) 3);
    cbv zeta; repeat split; intros; try lia; try discriminate;
    repeat match goal with H : _ \/ _ |- _ => destruct H end;
    try discriminate; try (cbn; lia);
    try (apply Z.leb_gt in F3; lia).
Qed.

End Amount.

Lemma lib_classify_flag (resp : BCRAResponse) :
  vr_situacion5 (Lib.classify resp)
  = Some (inhabilitado resp || ngtb (situacion5 (resumen resp)) (Num 0)).
Proof.
  unfold Lib.classify.
  now destruct (rgeb (porcentajeProblematicas (resumen resp)) 40).
Qed.

(** C4, as amended. Let the bureau stage have classified the answer [resp]
    of the registry and the bank stage have accepted the bank [b].
    In part_001, when the bureau stage passes, the amount is between 0 and
    the base of the income bracket (>= 1,000,000: 200,000; >= 800,000:
    150,000; >= 500,000: 100,000; else 0) and is at most each cap whose
    condition holds: 200,000 for public-sector and retired, 150,000 for
    private-sector, 150,000 for a bank in situation 3, 100,000 when the
    problematic percentage is above 20, 100,000 when the total amount owed
    is above 100,000; an income of 900,000, public sector, a bank in
    situation 1 and a problematic percentage not above 20 (0 for instance)
    give exactly 150,000 provided the total amount owed is not above
    100,000. In [src/lib/validation-service.ts] the amount is at least 0,
    is at most the base of the bracket when the income is at least 500,000
    (what the income stage lets through), and is at most the caps of the
    employment category and of a bank in situation 3; it is 100,000 whenever
    the answer has the situation-5 flag; no cap follows the problematic
    percentage or the amount owed; the same 900,000 example gives 150,000
    when the answer has no situation-5 flag. *)
Theorem C4_amount_caps (c : ClienteData) (resp : BCRAResponse) (b : Banco.t)
    (bancoResult : ValidationResult) :
  field "banco" (details bancoResult) = Some (VBanco b) ->
  (success (Alt.classify resp) = true ->
   let m := Alt.calculateMaxAmount c (Alt.classify resp) bancoResult in
   0 <= m <= bracket_base (sueldoNeto c)
   /\ (tipoEmpleado c = publico \/ tipoEmpleado c = jubilado -> m <= 200000)
   /\ (tipoEmpleado c = privado -> m <= 150000)
   /\ (Banco.situacion b = 3 -> m <= 150000)
   /\ (rgtb (porcentajeProblematicas (resumen resp)) 20 = true -> m <= 100000)
   /\ (ngtb (montoTotal (resumen resp)) (Num 100000) = true -> m <= 100000)
   /\ (sueldoNeto c = 900000 -> tipoEmpleado c = publico ->
       Banco.situacion b = 1 ->
       rgtb (porcentajeProblematicas (resumen resp)) 20 = false ->
       ngtb (montoTotal (resumen resp)) (Num 100000) = false ->
       m = 150000))
  /\ (let m := Lib.calculateMaxAmount c (Lib.classify resp) bancoResult in
      0 <= m
      /\ (500000 <= sueldoNeto c -> m <= bracket_base (sueldoNeto c))
      /\ (tipoEmpleado c = publico \/ tipoEmpleado c = jubilado -> m <= 200000)
      /\ (tipoEmpleado c = privado -> m <= 150000)
      /\ (Banco.situacion b = 3 -> m <= 150000)
      /\ (inhabilitado resp || ngtb (situacion5 (resumen resp)) (Num 0) = true ->
          m = 100000)
      /\ (sueldoNeto c = 900000 -> tipoEmpleado c = publico ->
          Banco.situacion b = 1 ->
          inhabilitado resp || ngtb (situacion5 (resumen resp)) (Num 0) = false ->
          m = 150000)).
Proof.
  intro Hb. split.
  - intro Hpass.
    destruct (alt_classify_pass resp Hpass) as (_ & _ & Fp & Fm).
    destruct (alt_amount_caps c (Alt.classify resp) bancoResult)
      as (H0 & H1 & H2 & H3 & H4 & H5).
    rewrite (banco_situacion_is_field _ b 3 Hb) in H3.
    rewrite Fp in H4. rewrite Fm in H5.
    cbv zeta.
    split; [exact H0|]. split; [exact H1|]. split; [exact H2|].
    split; [intro E; apply H3; now apply Z.eqb_eq|].
    split; [exact H4|]. split; [exact H5|].
    intros Es Et Eb Ep Em.
    unfold Alt.calculateMaxAmount.
    rewrite (banco_situacion_is_field _ b 3 Hb), Fp, Fm, Es, Et, Eb.
    cbn [value_gtb]. change (inject_Z 20) with 20%Q. rewrite Ep, Em.
    reflexivity.
  - destruct (lib_amount_caps c (Lib.classify resp) bancoResult)
      as (H0 & H1 & H2 & H3 & H4 & H5).
    rewrite (banco_situacion_is_field _ b 3 Hb) in H4.
    rewrite lib_classify_flag in H5.
    cbv zeta.
    split; [exact H0|]. split; [exact H1|]. split; [exact H2|].
    split; [exact H3|].
    split; [intro E; apply H4; now apply Z.eqb_eq|].
    split; [intro E; apply H5; now rewrite E|].
    intros Es Et Eb Ef.
    unfold Lib.calculateMaxAmount.
    rewrite lib_classify_flag, Ef,
      (banco_situacion_is_field _ b 3 Hb), Es, Et, Eb.
    reflexivity.
Qed.

(** C4, witness: 900,000, public sector, Banco Nación (situation 1), the
    favourable answer (no problematic entity, 15,000 owed). *)
Lemma C4_witness :
  Alt.calculateMaxAmount (applicant "30111222" 900000 publico "nacion" None)
    (Alt.classify (favourable_response "20301112227" "2025-01-01"))
    (banco_aceptado nacion) = 150000
  /\ Lib.calculateMaxAmount (applicant "30111222" 900000 publico "nacion" None)
       (Lib.classify (favourable_response "20301112227" "2025-01-01"))
       (banco_aceptado nacion) = 150000.
Proof.
  destruct (C4_amount_caps
              (applicant "30111222" 900000 publico "nacion" None)
              (favourable_response "20301112227" "2025-01-01")
              nacion (banco_aceptado nacion) eq_refl) as [HA HL].
  split.
  - apply (HA eq_refl); reflexivity.
  - apply HL; reflexivity.
Defined.

(** C4, counterexample. With [src/lib/validation-service.ts]: 1,200,000,
    public sector, Banco Nación, and a registry that reports four entities,
    one of them in situation 3 (25% problematic, above 20): approved for
    200,000, above the cap of 100,000. With part_001: 900,000, public
    sector, Banco Nación (situation 1), and a registry that reports one
    entity in situation 1 owed 200,000 (0% problematic): approved for
    100,000, not 150,000. *)
Lemma C4_counterexample :
  let cuatro :=
    live_with [une_deuda "A" 1 0; une_deuda "B" 1 0; une_deuda "C" 1 0;
               une_deuda "D" 3 10000] in
  let una := live_with [une_deuda "A" 1 200000] in
  verdict (Lib.evaluateCliente serviceB
             (applicant "30111222" 1200000 publico "nacion" None) cuatro)
  = Some (aprobado, Some 200000, None)
  /\ recorded_above_20
       (Lib.evaluateCliente serviceB
          (applicant "30111222" 1200000 publico "nacion" None) cuatro)
     = Some true
  /\ verdict (Alt.evaluateCliente serviceB
                (applicant "30111222" 900000 publico "nacion" None) una)
     = Some (aprobado, Some 100000, None)
  /\ recorded_above_20
       (Alt.evaluateCliente serviceB
          (applicant "30111222" 900000 publico "nacion" None) una)
     = Some false.
Proof. vm_compute. repeat split; reflexivity. Qed.

(** C10. In [calculateMaxAmount] of [src/lib/validation-service.ts], when
    the employment category is unset, the bureau result carries no
    situation-5 flag and the net income is above 800,000, the amount is 0,
    whatever the bank. *)
Theorem C10_unset_category_zero (c : ClienteData)
    (bcraResult bancoResult : ValidationResult) :
  tipoEmpleado c = sin_tipo ->
  vr_situacion5 bcraResult <> Some true ->
  800000 < sueldoNeto c ->
  Lib.calculateMaxAmount c bcraResult bancoResult = 0.
Proof.
  intros Ht Hf Hs. unfold Lib.calculateMaxAmount. rewrite Ht.
  destruct (vr_situacion5 bcraResult) as [[|]|]; try congruence;
    destruct (1000000 <? sueldoNeto c);
    try (apply Z.ltb_lt in Hs; rewrite Hs);
    now destruct (banco_situacion_is (details bancoResult) 3).
Qed.

(** C10, witness: 2,000,000 with no employment category, the favourable
    answer of the registry, Banco Nación. *)
Lemma C10_witness :
  Lib.calculateMaxAmount (applicant "30111222" 2000000 sin_tipo "nacion" None)
    (Lib.classify (favourable_response "20301112227" "2025-01-01"))
    (banco_aceptado nacion) = 0.
Proof.
  apply C10_unset_category_zero.
  - reflexivity.
  - discriminate.
  - reflexivity.
Defined.

(* ================================================================== *)
(** * Properties: the bureau stage and the orchestrator                *)
(* ================================================================== *)

Section Orchestrator.
Variable svc : BCRAService.

Lemma validateProtecap_run (dni : string) (w : World) :
  exists p,
    validateProtecap dni w = (Ok p, snd (sleep 1500 w))
    /\ success p = negb (con_credito_activo dni).
Proof.
  unfold validateProtecap, con_credito_activo, bind, sleep, log_event, ret.
  cbn [snd].
  destruct (find (fun c => (Moroso.dni c =? dni)%string) clientesMorosos)
    as [m|]; [destruct (Moroso.tieneCredito m)|]; eauto.
Qed.

Lemma lib_classify_no_review (resp : BCRAResponse) :
  requires_review (Lib.classify resp) = false.
Proof.
  unfold Lib.classify.
  now destruct (rgeb (porcentajeProblematicas (resumen resp)) 40).
Qed.

Lemma alt_classify_no_review (resp : BCRAResponse) :
  requires_review (Alt.classify resp) = false.
Proof.
  unfold Alt.classify. destruct (inhabilitado resp); [reflexivity|].
  now destruct (rgeb (porcentajeProblematicas (resumen resp)) 40).
Qed.

Lemma alt_technical_failure_review (msg : string) :
  success (Alt.technical_failure msg) = false
  /\ requires_review (Alt.technical_failure msg) = true.
Proof.
  unfold Alt.technical_failure.
  destruct (msg =? "TIMEOUT")%string; [split; reflexivity|].
  destruct (msg =? "MAX_RETRIES_EXCEEDED")%string; [split; reflexivity|].
  destruct (startsWith "HTTP_ERROR_" msg); split; reflexivity.
Qed.

(** The bureau stage of [src/lib/validation-service.ts] always returns a
    result; the result asks for a manual review exactly on a fault, and is
    otherwise the classification of an answer. *)
Lemma lib_validateBCRA_run (dni : string) (w : World) :
  exists b w',
    Lib.validateBCRA svc dni w = (Ok b, w')
    /\ (requires_review b = true <-> bureau_fault svc dni w)
    /\ (requires_review b = true -> success b = false)
    /\ (requires_review b = false -> exists resp, b = Lib.classify resp).
Proof.
  unfold Lib.validateBCRA, bureau_fault, try_catch, bind, lift, ret.
  fold (derive_cuit svc dni).
  destruct (derive_cuit svc dni) as [cuit|e].
  - destruct (svc_consultarDeudas svc cuit w) as [[resp|msg] w1].
    + do 2 eexists. split; [reflexivity|].
      rewrite lib_classify_no_review. repeat split; try discriminate;
        try contradiction. eauto.
    + destruct (msg =? "TOKEN_NOT_CONFIGURED")%string.
      * destruct (svc_generateMockResponse svc cuit w1) as [[resp|m2] w2].
        -- do 2 eexists. split; [reflexivity|].
           rewrite lib_classify_no_review. repeat split; try discriminate;
             try contradiction. eauto.
        -- do 2 eexists. split; [reflexivity|].
           repeat split; try discriminate; auto.
      * do 2 eexists. split; [reflexivity|].
        repeat split; try discriminate; auto.
  - do 2 eexists. split; [reflexivity|].
    repeat split; try discriminate; auto.
Qed.

(** The same for the bureau stage of part_001. *)
Lemma alt_validateBCRA_run (dni : string) (w : World) :
  exists b w',
    Alt.validateBCRA svc dni w = (Ok b, w')
    /\ (requires_review b = true <-> bureau_fault svc dni w)
    /\ (requires_review b = true -> success b = false)
    /\ (requires_review b = false -> exists resp, b = Alt.classify resp).
Proof.
  unfold Alt.validateBCRA, bureau_fault, try_catch, bind, lift, ret.
  fold (derive_cuit svc dni).
  destruct (derive_cuit svc dni) as [cuit|e].
  - destruct (svc_consultarDeudas svc cuit w) as [[resp|msg] w1].
    + do 2 eexists. split; [reflexivity|].
      rewrite alt_classify_no_review. repeat split; try discriminate;
        try contradiction. eauto.
    + destruct (msg =? "TOKEN_NOT_CONFIGURED")%string.
      * destruct (svc_generateMockResponse svc cuit w1) as [[resp|m2] w2].
        -- do 2 eexists. split; [reflexivity|].
           rewrite alt_classify_no_review. repeat split; try discriminate;
             try contradiction. eauto.
        -- do 2 eexists. split; [reflexivity|].
           repeat split; try discriminate; auto.
      * do 2 eexists. split; [reflexivity|].
        destruct (alt_technical_failure_review msg) as [Hs Hr].
        rewrite Hr. repeat split; try discriminate; auto.
  - do 2 eexists. split; [reflexivity|].
    repeat split; try discriminate; auto.
Qed.

Lemma income_stage_passes (sueldoNeto : Z) :
  success (Lib.validateSueldoMinimo sueldoNeto) = (500000 <=? sueldoNeto).
Proof.
  unfold Lib.validateSueldoMinimo. rewrite Z.leb_antisym.
  now destruct (sueldoNeto <? 500000).
Qed.

(** [evaluateCliente] of [src/lib/validation-service.ts] always returns an
    evaluation, and its outcome is the one of the table. *)
Lemma lib_evaluate_table (c : ClienteData) (w : World) :
  exists p b w2 k w3 e w',
    validateProtecap (dni c) w = (Ok p, snd (sleep 1500 w))
    /\ Lib.validateBCRA svc (dni c) (snd (sleep 1500 w)) = (Ok b, w2)
    /\ Lib.validateBanco c w2 = (Ok k, w3)
    /\ Lib.evaluateCliente svc c w = (Ok e, w')
    /\ resultado e
       = outcome_table (500000 <=? sueldoNeto c) p b k
           (Lib.calculateMaxAmount c b k) false
    /\ (resultado e = aprobado ->
        montoMaximo e = Some (Lib.calculateMaxAmount c b k))
    /\ (500000 <= sueldoNeto c -> success p = true -> success b = false ->
        motivoRechazo e = Some (message b)).
Proof.
  destruct (validateProtecap_run (dni c) w) as [p [Hp _]].
  destruct (lib_validateBCRA_run (dni c) (snd (sleep 1500 w)))
    as (b & w2 & Hb & _).
  destruct (validateBanco_lib_spec Lib.bancosHabilitados c w2)
    as (k & w3 & Hk & _).
  exists p, b, w2, k, w3.
  unfold Lib.evaluateCliente, outcome_table.
  rewrite income_stage_passes.
  destruct (500000 <=? sueldoNeto c) eqn:Ei; cbn [negb].
  - unfold bind at 1. rewrite Hp.
    destruct (success p); cbn [negb].
    + unfold bind at 1. rewrite Hb.
      destruct (success b); cbn [negb].
      * unfold bind at 1. unfold Lib.validateBanco. rewrite Hk.
        destruct (success k); cbn [negb andb];
          do 2 eexists; repeat split; try reflexivity; try assumption;
          discriminate.
      * destruct (truthy (field "requiresManualReview" (details b)));
          do 2 eexists; repeat split; try reflexivity; try assumption;
          discriminate.
    + do 2 eexists; repeat split; try reflexivity; try assumption;
        discriminate.
  - do 2 eexists; repeat split; try reflexivity; try assumption;
      try discriminate.
    apply Z.leb_gt in Ei. lia.
Qed.

(** [evaluateCliente] of part_001 always returns an evaluation, and its
    outcome is the one of the table, with an amount of 0 rejected. *)
Lemma alt_evaluate_table (c : ClienteData) (w : World) :
  exists p b w2 k w3 e w',
    validateProtecap (dni c) w = (Ok p, snd (sleep 1500 w))
    /\ Alt.validateBCRA svc (dni c) (snd (sleep 1500 w)) = (Ok b, w2)
    /\ Alt.validateBanco c w2 = (Ok k, w3)
    /\ Alt.evaluateCliente svc c w = (Ok e, w')
    /\ resultado e
       = outcome_table true p b k (Alt.calculateMaxAmount c b k) true
    /\ (resultado e = aprobado ->
        montoMaximo e = Some (Alt.calculateMaxAmount c b k))
    /\ (success p = true -> success b = true -> success k = true ->
        Alt.calculateMaxAmount c b k = 0 ->
        resultado e = rechazado
        /\ motivoRechazo e = Some "No califica para monto mínimo de préstamo")
    /\ (success p = true -> success b = false ->
        motivoRechazo e = Some (message b)).
Proof.
  destruct (validateProtecap_run (dni c) w) as [p [Hp _]].
  destruct (alt_validateBCRA_run (dni c) (snd (sleep 1500 w)))
    as (b & w2 & Hb & _).
  destruct (validateBanco_alt_spec Alt.bancosData c w2)
    as (k & w3 & Hk & _).
  exists p, b, w2, k, w3.
  unfold Alt.evaluateCliente, outcome_table, try_catch. cbn [negb].
  unfold bind at 1. rewrite Hp.
  destruct (success p); cbn [negb].
  - unfold bind at 1. rewrite Hb.
    destruct (success b); cbn [negb].
    + unfold bind at 1. unfold Alt.validateBanco. rewrite Hk.
      destruct (success k); cbn [negb andb].
      * destruct (Alt.calculateMaxAmount c b k =? 0) eqn:E0;
          do 2 eexists; repeat split; try reflexivity; try assumption;
          try discriminate;
          match goal with
          | H : Alt.calculateMaxAmount _ _ _ = 0 |- _ =>
              rewrite H in E0; discriminate E0
          end.
      * do 2 eexists; repeat split; try reflexivity; try assumption;
          discriminate.
    + destruct (truthy (field "requiresManualReview" (details b)));
        do 2 eexists; repeat split; try reflexivity; try assumption;
        discriminate.
  - do 2 eexists; repeat split; try reflexivity; try assumption;
      discriminate.
Qed.

(** The outcome [pendiente] in the table. *)
Lemma outcome_table_pendiente (income_ok : bool)
    (p b k : ValidationResult) (amount : Z) (zero_rejects : bool) :
  (requires_review b = true -> success b = false) ->
  (outcome_table income_ok p b k amount zero_rejects = pendiente <->
   income_ok = true /\ success p = true /\ requires_review b = true).
Proof.
  unfold outcome_table, requires_review. intro Hr.
  destruct income_ok, (success p), (success b),
    (truthy (field "requiresManualReview" (details b))), (success k),
    zero_rejects, (amount =? 0); cbn [negb andb];
    split; try discriminate; try tauto;
    intros (? & ? & ?); try discriminate;
    specialize (Hr eq_refl); discriminate.
Qed.

Lemma lib_pipeline (c : ClienteData) (w : World) :
  pipeline_spec (Lib.evaluateCliente svc) (Lib.validateBCRA svc)
    Lib.validateBanco Lib.calculateMaxAmount
    (500000 <=? sueldoNeto c) false svc c w.
Proof.
  destruct (lib_evaluate_table c w)
    as (p & b & w2 & k & w3 & e & w' & Hp & Hb & Hk & He & Ht & _).
  destruct (validateProtecap_run (dni c) w) as (p' & Hp' & Hs).
  rewrite Hp in Hp'. injection Hp' as <-.
  destruct (lib_validateBCRA_run (dni c) (snd (sleep 1500 w)))
    as (b' & w2' & Hb' & Hf & Hr & _).
  rewrite Hb in Hb'. injection Hb' as <- <-.
  exists p, b, w2, k, w3, e, w'.
  repeat (split; [assumption|]).
  rewrite Ht, (outcome_table_pendiente _ _ _ _ _ _ Hr), Hs, Hf.
  destruct (con_credito_activo (dni c)); cbn [negb]; intuition congruence.
Qed.

Lemma alt_pipeline (c : ClienteData) (w : World) :
  pipeline_spec (Alt.evaluateCliente svc) (Alt.validateBCRA svc)
    Alt.validateBanco Alt.calculateMaxAmount true true svc c w.
Proof.
  destruct (alt_evaluate_table c w)
    as (p & b & w2 & k & w3 & e & w' & Hp & Hb & Hk & He & Ht & _).
  destruct (validateProtecap_run (dni c) w) as (p' & Hp' & Hs).
  rewrite Hp in Hp'. injection Hp' as <-.
  destruct (alt_validateBCRA_run (dni c) (snd (sleep 1500 w)))
    as (b' & w2' & Hb' & Hf & Hr & _).
  rewrite Hb in Hb'. injection Hb' as <- <-.
  exists p, b, w2, k, w3, e, w'.
  repeat (split; [assumption|]).
  rewrite Ht, (outcome_table_pendiente _ _ _ _ _ _ Hr), Hs, Hf.
  destruct (con_credito_activo (dni c)); cbn [negb]; intuition congruence.
Qed.

(** In part_001 an approved evaluation carries a positive amount. *)
Lemma alt_aprobado_monto_positivo (c : ClienteData) (w : World)
    (e : EvaluationResult) (w' : World) :
  Alt.evaluateCliente svc c w = (Ok e, w') ->
  resultado e = aprobado ->
  exists m, montoMaximo e = Some m /\ 0 < m.
Proof.
  intros He Ha.
  destruct (alt_evaluate_table c w)
    as (p & b & w2 & k & w3 & e' & w'' & _ & _ & _ & He' & Ht & Hm & _).
  rewrite He in He'. injection He' as <- <-.
  exists (Alt.calculateMaxAmount c b k). split; [auto|].
  rewrite Ht in Ha. unfold outcome_table in Ha.
  destruct (alt_amount_caps c b k) as [[H0 _] _].
  destruct (Alt.calculateMaxAmount c b k =? 0) eqn:E0.
  - cbn [negb andb] in Ha.
    destruct (success p), (success b),
      (truthy (field "requiresManualReview" (details b))), (success k);
      discriminate.
  - apply Z.eqb_neq in E0. cbv zeta in H0. lia.
Qed.

End Orchestrator.

(** C3, as amended. With either bureau client, [evaluateCliente] always
    returns an evaluation, whose outcome is one of [aprobado], [rechazado]
    and [pendiente], and never throws. Its outcome is that of
    [outcome_table]: a failure of the income stage (in
    [src/lib/validation-service.ts], which alone has one), of the delinquency
    stage or of the bank stage gives [rechazado], and so does an amount of 0
    in part_001; a failure of the bureau stage gives [pendiente] when its
    result asks for a manual review and [rechazado] otherwise. The bureau
    stage asks for a manual review exactly on a [bureau_fault]: when the
    client throws any error other than TOKEN_NOT_CONFIGURED (TIMEOUT,
    HTTP_ERROR_n, UNKNOWN_ERROR, whatever [fetch] failed with), and also when
    anything else throws inside the stage, in particular [dniToCuit] on an
    identifier whose length it refuses. So the outcome is [pendiente]
    exactly when the income and delinquency stages pass and the bureau stage
    meets such a fault. *)
Theorem C3_outcomes (svc : BCRAService) (c : ClienteData) (w : World) :
  pipeline_spec (Lib.evaluateCliente svc) (Lib.validateBCRA svc)
    Lib.validateBanco Lib.calculateMaxAmount
    (500000 <=? sueldoNeto c) false svc c w
  /\ pipeline_spec (Alt.evaluateCliente svc) (Alt.validateBCRA svc)
       Alt.validateBanco Alt.calculateMaxAmount true true svc c w.
Proof.
  split.
  - apply lib_pipeline.
  - apply alt_pipeline.
Qed.

(** C3, counterexample. An applicant whose identifier has three digits, with
    [src/lib/validation-service.ts] and the first client: [dniToCuit] throws
    DNI_INVALID_LENGTH, and the outcome is [pendiente], although the registry
    was never queried (the trace holds the wait of the delinquency stage
    only). An applicant with a DNI of seven digits, with part_001 and the
    second client: [dniToCuit] throws "DNI inválido", and the outcome is
    [pendiente] again. Neither is a failure of the client. *)
Lemma C3_counterexample :
  BcraA.dniToCuit "123" = Throw "DNI_INVALID_LENGTH"
  /\ verdict (Lib.evaluateCliente serviceA
                (applicant "123" 600000 publico "nacion" None) offline)
     = Some (pendiente, None, Some "Error técnico en validación BCRA")
  /\ trace (snd (Lib.evaluateCliente serviceA
                   (applicant "123" 600000 publico "nacion" None) offline))
     = [EvSleep 1500]
  /\ BcraB.dniToCuit "1234567" = Throw "DNI inválido"
  /\ verdict (Alt.evaluateCliente serviceB
                (applicant "1234567" 600000 publico "nacion" None) offline)
     = Some (pendiente, None,
             Some "Error técnico en validación BCRA - Pendiente revisión manual")
  /\ trace (snd (Alt.evaluateCliente serviceB
                   (applicant "1234567" 600000 publico "nacion" None) offline))
     = [EvSleep 1500].
Proof. vm_compute. repeat split; reflexivity. Qed.

(** C1, the code at the failing input. A public-sector applicant with a net
    income of exactly 500,000, paid through Banco Nación, with no credit in
    the delinquency registry and a favourable simulated answer of the bureau:
    every stage of [src/lib/validation-service.ts] passes, the calculator
    returns 0 (its lowest bracket starts above 500,000), and the outcome is
    [aprobado] with an amount of 0, with either bureau client. On the same
    input part_001 approves 100,000. *)
Theorem C1_lib_approves_zero :
  verdict (Lib.evaluateCliente serviceA
             (applicant "30111222" 500000 publico "nacion" None) offline)
  = Some (aprobado, Some 0, None)
  /\ verdict (Lib.evaluateCliente serviceB
                (applicant "30111222" 500000 publico "nacion" None) offline)
     = Some (aprobado, Some 0, None)
  /\ success (Lib.validateSueldoMinimo 500000) = true
  /\ verdict (Alt.evaluateCliente serviceB
                (applicant "30111222" 500000 publico "nacion" None) offline)
     = Some (aprobado, Some 100000, None).
Proof. vm_compute. repeat split; reflexivity. Qed.

(** C1 holds of part_001: when the stages pass and the calculator returns 0
    the outcome is [rechazado] with the fixed message, and an approved
    evaluation carries an amount above 0. *)
Lemma C1_holds_in_part_001 (svc : BCRAService) (c : ClienteData) (w : World) :
  exists p b w2 k w3 e w',
    validateProtecap (dni c) w = (Ok p, snd (sleep 1500 w))
    /\ Alt.validateBCRA svc (dni c) (snd (sleep 1500 w)) = (Ok b, w2)
    /\ Alt.validateBanco c w2 = (Ok k, w3)
    /\ Alt.evaluateCliente svc c w = (Ok e, w')
    /\ (success p = true -> success b = true -> success k = true ->
        Alt.calculateMaxAmount c b k = 0 ->
        resultado e = rechazado
        /\ motivoRechazo e = Some "No califica para monto mínimo de préstamo")
    /\ (resultado e = aprobado -> exists m, montoMaximo e = Some m /\ 0 < m).
Proof.
  destruct (alt_evaluate_table svc c w)
    as (p & b & w2 & k & w3 & e & w' & Hp & Hb & Hk & He & _ & _ & Hz & _).
  exists p, b, w2, k, w3, e, w'.
  repeat (split; [assumption|]).
  apply (alt_aprobado_monto_positivo svc c w e w' He).
Qed.






(* ================================================================== *)
(** * Further properties: the summary of a registry answer             *)
(* ================================================================== *)

Section Summary.
Import BcraCommon.

Lemma count_situacion_cons (k : Z) (d : Deuda.t) (ds : list Deuda.t) :
  count_situacion k (d :: ds)
  = (if Deuda.situacion d =? k then 1 else 0) + count_situacion k ds.
Proof.
  unfold count_situacion. cbn [List.filter].
  destruct (Deuda.situacion d =? k); cbn [List.length]; lia.
Qed.

Lemma count_situacion_nonneg (k : Z) (ds : list Deuda.t) :
  0 <= count_situacion k ds.
Proof. unfold count_situacion. lia. Qed.

(** One step of the [forEach], on counters that are numbers. *)
Lemma count_deuda_step (a1 a2 a3 a4 a5 t m : Z) (d : Deuda.t) :
  count_deuda
    (mkResumen (Num a1) (Num a2) (Num a3) (Num a4) (Num a5) (Num t) (Num m)) d
  = mkResumen
      (Num (a1 + if Deuda.situacion d =? 1 then 1 else 0))
      (Num (a2 + if Deuda.situacion d =? 2 then 1 else 0))
      (Num (a3 + if Deuda.situacion d =? 3 then 1 else 0))
      (Num (a4 + if Deuda.situacion d =? 4 then 1 else 0))
      (Num (a5 + if Deuda.situacion d =? 5 then 1 else 0))
      (Num t) (Num (m + Deuda.monto d)).
Proof.
  unfold count_deuda.
  destruct (Deuda.situacion d) as [|p|p];
    [| do 3 (try destruct p as [p|p|]) |];
    cbn; rewrite ?Z.add_0_r; reflexivity.
Qed.

Lemma fold_count_deuda (ds : list Deuda.t) (a1 a2 a3 a4 a5 t m : Z) :
  fold_left count_deuda ds
    (mkResumen (Num a1) (Num a2) (Num a3) (Num a4) (Num a5) (Num t) (Num m))
  = mkResumen
      (Num (a1 + count_situacion 1 ds)) (Num (a2 + count_situacion 2 ds))
      (Num (a3 + count_situacion 3 ds)) (Num (a4 + count_situacion 4 ds))
      (Num (a5 + count_situacion 5 ds)) (Num t) (Num (m + sum_montos ds)).
Proof.
  revert a1 a2 a3 a4 a5 m.
  induction ds as [|d ds IH]; intros a1 a2 a3 a4 a5 m.
  - cbn. now rewrite !Z.add_0_r.
  - cbn [fold_left]. rewrite count_deuda_step, IH.
    rewrite !count_situacion_cons. cbn [sum_montos].
    f_equal; f_equal; lia.
Qed.

Lemma count_situacion_5_positive (ds : list Deuda.t) :
  0 < count_situacion 5 ds <-> exists d, In d ds /\ Deuda.situacion d = 5.
Proof.
  induction ds as [|d ds IH].
  - cbn. split; [lia|]. now intros (d & [] & _).
  - rewrite count_situacion_cons.
    pose proof (count_situacion_nonneg 5 ds) as Hn.
    destruct (Deuda.situacion d =? 5) eqn:E.
    + apply Z.eqb_eq in E. split; [|lia].
      intros _. exists d. split; [now left|assumption].
    + apply Z.eqb_neq in E. rewrite Z.add_0_l, IH. split.
      * intros (x & Hx & Hs). exists x. split; [now right|assumption].
      * intros (x & [<-|Hx] & Hs); [contradiction|]. now exists x.
Qed.

Lemma counts_partition (ds : list Deuda.t) :
  count_situacion 1 ds + count_situacion 2 ds + count_situacion 3 ds
  + count_situacion 4 ds + count_situacion 5 ds
  = Z.of_nat (List.length (List.filter situacion_conocida ds)).
Proof.
  induction ds as [|d ds IH]; [reflexivity|].
  rewrite !count_situacion_cons. cbn [List.filter]. unfold situacion_conocida at 1.
  destruct (Deuda.situacion d =? 1) eqn:E1;
    destruct (Deuda.situacion d =? 2) eqn:E2;
    destruct (Deuda.situacion d =? 3) eqn:E3;
    destruct (Deuda.situacion d =? 4) eqn:E4;
    destruct (Deuda.situacion d =? 5) eqn:E5;
    destruct (1 <=? Deuda.situacion d) eqn:L1;
    destruct (Deuda.situacion d <=? 5) eqn:L5;
    cbn [andb List.length];
    repeat match goal with
           | H : (_ =? _) = true |- _ => apply Z.eqb_eq in H
           | H : (_ =? _) = false |- _ => apply Z.eqb_neq in H
           | H : (_ <=? _) = true |- _ => apply Z.leb_le in H
           | H : (_ <=? _) = false |- _ => apply Z.leb_gt in H
           end; lia.
Qed.

End Summary.

(** X1. [processResponse] never fails and leaves the world as it is; the
    answer it builds carries the debts of the body (none when the body has
    no [deudas]); each counter of the summary is the number of debts in that
    situation, [totalEntidades] is the number of debts and [montoTotal] the
    sum of their amounts: none of them is NaN. *)
Theorem X1_processResponse_counts (api : ApiResponse) (cuit : string) (w : World) :
  exists r,
    BcraCommon.processResponse api cuit w = (Ok r, w)
    /\ deudas r = match api_deudas api with Some l => l | None => [] end
    /\ situacion1 (resumen r) = Num (count_situacion 1 (deudas r))
    /\ situacion2 (resumen r) = Num (count_situacion 2 (deudas r))
    /\ situacion3 (resumen r) = Num (count_situacion 3 (deudas r))
    /\ situacion4 (resumen r) = Num (count_situacion 4 (deudas r))
    /\ situacion5 (resumen r) = Num (count_situacion 5 (deudas r))
    /\ totalEntidades (resumen r) = Num (Z.of_nat (List.length (deudas r)))
    /\ montoTotal (resumen r) = Num (sum_montos (deudas r)).
Proof.
  unfold BcraCommon.processResponse, bind, Date_now, ret.
  rewrite fold_count_deuda. eexists. split; [reflexivity|].
  cbn [deudas resumen situacion1 situacion2 situacion3 situacion4 situacion5
         totalEntidades montoTotal].
  repeat split; reflexivity.
Qed.

(** X2. In the answer [processResponse] builds, the [inhabilitado] flag is
    set exactly when some debt is in situation 5, and the five counters add
    up to the number of debts whose situation is one of 1 to 5: a debt with
    any other situation is counted in [totalEntidades] and in [montoTotal]
    but in no counter, so the counters add up to at most [totalEntidades]. *)
Theorem X2_processResponse_flag (api : ApiResponse) (cuit : string) (w : World) :
  exists r,
    BcraCommon.processResponse api cuit w = (Ok r, w)
    /\ (inhabilitado r = true <->
        exists d, In d (deudas r) /\ Deuda.situacion d = 5)
    /\ count_situacion 1 (deudas r) + count_situacion 2 (deudas r)
       + count_situacion 3 (deudas r) + count_situacion 4 (deudas r)
       + count_situacion 5 (deudas r)
       = Z.of_nat (List.length (List.filter situacion_conocida (deudas r)))
    /\ totalProblematicas (resumen r)
       = Num (count_situacion 3 (deudas r) + count_situacion 4 (deudas r)
              + count_situacion 5 (deudas r))
    /\ (List.length (List.filter situacion_conocida (deudas r))
        <= List.length (deudas r))%nat.
Proof.
  unfold BcraCommon.processResponse, bind, Date_now, ret.
  rewrite fold_count_deuda. eexists. split; [reflexivity|].
  cbn [deudas resumen inhabilitado situacion5 situacion3 situacion4
         totalProblematicas].
  split; [|split; [apply counts_partition|split; [reflexivity|]]].
  - rewrite <- count_situacion_5_positive. unfold ngtb, nltb.
    rewrite Z.add_0_l. apply Z.ltb_lt.
  - apply filter_length_le.
Qed.

(* ================================================================== *)
(** * Further properties: the retry loop                               *)
(* ================================================================== *)

Section RetryMore.
Import BcraCommon.

Variable TIMEOUT_MS : Z.
Variables cuit token : string.

Let after_fetch (w : World) : World :=
  snd (fetch (deudas_url cuit) token TIMEOUT_MS w).

Lemma attempt_error_answer (o : FetchOutcome) :
  attempt_error o = None <-> exists api, answer_of o = Some api.
Proof.
  unfold attempt_error, answer_of.
  destruct o as [|msg| |status [api|msg]];
    try (split; [discriminate|now intros [? ?]]);
    destruct ((200 <=? status) && (status <=? 299));
    split; try discriminate; try (now intros [? ?]); eauto.
Qed.

Lemma makeRequest_answer (w : World) (api : ApiResponse) :
  answer_of (fetch_script w (fetches w)) = Some api ->
  makeRequest TIMEOUT_MS cuit token w = (Ok api, after_fetch w).
Proof.
  unfold makeRequest, bind, fetch, answer_of, after_fetch, deudas_url, fetch.
  cbn [snd]. intro H.
  destruct (fetch_script w (fetches w)) as [|msg| |status [a|msg]];
    try discriminate.
  destruct ((200 <=? status) && (status <=? 299)); cbn [negb];
    [|discriminate].
  injection H as <-. reflexivity.
Qed.

(** An iteration of the loop whose request is answered. *)
Lemma attempts_answer_step (n : nat) (attempt : Z) (last : option string)
    (w : World) (api : ApiResponse) :
  answer_of (fetch_script w (fetches w)) = Some api ->
  attempts TIMEOUT_MS cuit token (S n) attempt last w
  = processResponse api cuit (after_fetch w).
Proof.
  intro H. cbn [attempts]. unfold try_catch, bind at 1.
  rewrite (makeRequest_answer w api H).
  unfold processResponse, bind, Date_now, ret. reflexivity.
Qed.

(** The loop when the first [k] attempts fail and the next one, which is
    not beyond the third, is answered. *)
Lemma attempts_first_answer (k : nat) (w : World) (api : ApiResponse) :
  (k < 3)%nat ->
  (forall i, (i < k)%nat ->
     attempt_error (fetch_script w (fetches w + i)%nat) <> None) ->
  answer_of (fetch_script w (fetches w + k)%nat) = Some api ->
  exists r w',
    attempts TIMEOUT_MS cuit token (Z.to_nat MAX_RETRIES) 1 None w = (Ok r, w')
    /\ processResponse api cuit w' = (Ok r, w')
    /\ trace w'
       = (trace w
            ++ backoff_trace (deudas_url cuit) token TIMEOUT_MS 1 (S k))%list
    /\ fetches w' = (fetches w + S k)%nat
    /\ draws w' = draws w.
Proof.
  intros Hk Hfail Hans.
  change (Z.to_nat MAX_RETRIES) with 3%nat.
  destruct k as [|[|[|k]]]; [| | |lia].
  - rewrite Nat.add_0_r in Hans.
    rewrite (attempts_answer_step 2 1 None w api Hans).
    unfold processResponse, bind, Date_now, ret, after_fetch, fetch.
    cbn [snd]. do 2 eexists. split; [reflexivity|].
    cbn. repeat split; try reflexivity. lia.
  - pose proof (Hfail 0%nat ltac:(lia)) as H0. rewrite Nat.add_0_r in H0.
    destruct (attempt_error (fetch_script w (fetches w))) as [e1|] eqn:E1;
      [|contradiction].
    rewrite (attempts_fail_step TIMEOUT_MS cuit token 2 1 None w e1 E1).
    change (1 <? MAX_RETRIES) with true. cbv iota.
    rewrite Nat.add_1_r in Hans.
    set (w1 := snd (sleep (2 ^ 1 * 1000)
                      (snd (fetch (deudas_url cuit) token TIMEOUT_MS w)))).
    rewrite (attempts_answer_step 1 (1 + 1) (Some e1) w1 api Hans).
    subst w1.
    unfold processResponse, bind, Date_now, ret, after_fetch, fetch, sleep,
      log_event.
    cbn [snd]. do 2 eexists. split; [reflexivity|].
    cbn. repeat rewrite <- app_assoc. cbn.
    repeat split; try reflexivity. lia.
  - pose proof (Hfail 0%nat ltac:(lia)) as H0. rewrite Nat.add_0_r in H0.
    pose proof (Hfail 1%nat ltac:(lia)) as H1. rewrite Nat.add_1_r in H1.
    destruct (attempt_error (fetch_script w (fetches w))) as [e1|] eqn:E1;
      [|contradiction].
    destruct (attempt_error (fetch_script w (S (fetches w)))) as [e2|] eqn:E2;
      [|contradiction].
    rewrite (attempts_fail_step TIMEOUT_MS cuit token 2 1 None w e1 E1).
    change (1 <? MAX_RETRIES) with true. cbv iota.
    set (w1 := snd (sleep (2 ^ 1 * 1000)
                      (snd (fetch (deudas_url cuit) token TIMEOUT_MS w)))).
    rewrite (attempts_fail_step TIMEOUT_MS cuit token 1 (1 + 1) (Some e1) w1 e2 E2).
    change (1 + 1 <? MAX_RETRIES) with true. cbv iota.
    replace (fetches w + 2)%nat with (S (S (fetches w))) in Hans by lia.
    set (w2 := snd (sleep (2 ^ (1 + 1) * 1000)
                      (snd (fetch (deudas_url cuit) token TIMEOUT_MS w1)))).
    rewrite (attempts_answer_step 0 (1 + 1 + 1) (Some e2) w2 api Hans).
    subst w2 w1.
    unfold processResponse, bind, Date_now, ret, after_fetch, fetch, sleep,
      log_event.
    cbn [snd]. do 2 eexists. split; [reflexivity|].
    cbn. repeat rewrite <- app_assoc. cbn.
    repeat split; try reflexivity. lia.
Qed.

(** Whatever the registry does, the loop makes one to three requests, waits
    6 seconds at most and draws no random number. *)
Lemma attempts_budget (w : World) :
  let w' := snd (attempts TIMEOUT_MS cuit token (Z.to_nat MAX_RETRIES) 1 None w) in
  (fetches w < fetches w' <= fetches w + 3)%nat
  /\ draws w' = draws w
  /\ exists t, trace w' = (trace w ++ t)%list /\ 0 <= total_wait t <= 6000.
Proof.
  change (Z.to_nat MAX_RETRIES) with 3%nat.
  destruct (attempt_error (fetch_script w (fetches w))) as [e1|] eqn:E1.
  - rewrite (attempts_fail_step TIMEOUT_MS cuit token 2 1 None w e1 E1).
    change (1 <? MAX_RETRIES) with true. cbv iota.
    set (w1 := snd (sleep (2 ^ 1 * 1000)
                      (snd (fetch (deudas_url cuit) token TIMEOUT_MS w)))).
    destruct (attempt_error (fetch_script w (S (fetches w)))) as [e2|] eqn:E2.
    + rewrite (attempts_fail_step TIMEOUT_MS cuit token 1 (1 + 1) (Some e1) w1 e2 E2).
      change (1 + 1 <? MAX_RETRIES) with true. cbv iota.
      set (w2 := snd (sleep (2 ^ (1 + 1) * 1000)
                        (snd (fetch (deudas_url cuit) token TIMEOUT_MS w1)))).
      destruct (attempt_error (fetch_script w (S (S (fetches w)))))
        as [e3|] eqn:E3.
      * rewrite (attempts_fail_step TIMEOUT_MS cuit token 0 (1 + 1 + 1)
                   (Some e2) w2 e3 E3).
        change (1 + 1 + 1 <? MAX_RETRIES) with false. cbv iota.
        subst w2 w1. cbn. repeat rewrite <- app_assoc. cbn.
        split; [lia|]. split; [reflexivity|].
        eexists. split; [reflexivity|]. cbn. lia.
      * apply attempt_error_answer in E3. destruct E3 as [api E3].
        rewrite (attempts_answer_step 0 (1 + 1 + 1) (Some e2) w2 api E3).
        subst w2 w1. cbn. repeat rewrite <- app_assoc. cbn.
        split; [lia|]. split; [reflexivity|].
        eexists. split; [reflexivity|]. cbn. lia.
    + apply attempt_error_answer in E2. destruct E2 as [api E2].
      rewrite (attempts_answer_step 1 (1 + 1) (Some e1) w1 api E2).
      subst w1. cbn. repeat rewrite <- app_assoc. cbn.
      split; [lia|]. split; [reflexivity|].
      eexists. split; [reflexivity|]. cbn. lia.
  - apply attempt_error_answer in E1. destruct E1 as [api E1].
    rewrite (attempts_answer_step 2 1 None w api E1).
    cbn. split; [lia|]. split; [reflexivity|].
    eexists. split; [reflexivity|]. cbn. lia.
Qed.

End RetryMore.

Lemma generateMockResponse_B_world (cuit : string) (w : World) :
  snd (BcraB.generateMockResponse cuit w) = w.
Proof.
  unfold BcraB.generateMockResponse, bind, Date_now, ret.
  destruct (parseInt (slice_last 4 cuit)) as [|seed]; [reflexivity|].
  match goal with |- context [Qltb ?r (7 # 10)] =>
    destruct (Qltb r (7 # 10)) end; reflexivity.
Qed.

(** X3. In live mode (second client), when the first [k] attempts fail and
    attempt [k + 1], the third at most, is answered with a 2xx status and a
    readable body, [consultarDeudas] returns the summary of that answer after
    exactly [k + 1] requests, having waited 2 s after the first failure and
    4 s after the second and not at all after the answer; it draws no random
    number. *)
Theorem X3_consultarDeudas_first_answer (k : nat) (w : World)
    (cuit t : string) (api : ApiResponse) :
  BcraB.getAuthToken w = (Ok (Some t), w) ->
  (k < 3)%nat ->
  (forall i, (i < k)%nat ->
     attempt_error (fetch_script w (fetches w + i)%nat) <> None) ->
  answer_of (fetch_script w (fetches w + k)%nat) = Some api ->
  exists r w',
    BcraB.consultarDeudas cuit w = (Ok r, w')
    /\ BcraCommon.processResponse api cuit w' = (Ok r, w')
    /\ trace w'
       = (trace w ++ backoff_trace (deudas_url cuit) t 15000 1 (S k))%list
    /\ fetches w' = (fetches w + S k)%nat
    /\ draws w' = draws w.
Proof.
  intros Ht Hk Hfail Hans.
  unfold BcraB.consultarDeudas, bind. rewrite Ht.
  apply (attempts_first_answer BcraB.TIMEOUT_MS cuit t k w api Hk Hfail Hans).
Qed.

(** X3, witness: one timeout, then an answer with one debt. *)
Lemma X3_witness :
  exists r w',
    BcraB.consultarDeudas "20123456786" (live_flaky [une_deuda "A" 2 700])
    = (Ok r, w')
    /\ BcraCommon.processResponse
         (mkApiResponse (Some [une_deuda "A" 2 700]) None) "20123456786" w'
       = (Ok r, w')
    /\ trace w'
       = (trace (live_flaky [une_deuda "A" 2 700])
            ++ backoff_trace (deudas_url "20123456786") "secret" 15000 1 2)%list
    /\ fetches w' = (fetches (live_flaky [une_deuda "A" 2 700]) + 2)%nat
    /\ draws w' = draws (live_flaky [une_deuda "A" 2 700]).
Proof.
  apply (X3_consultarDeudas_first_answer 1
           (live_flaky [une_deuda "A" 2 700]) "20123456786" "secret"
           (mkApiResponse (Some [une_deuda "A" 2 700]) None)).
  - reflexivity.
  - lia.
  - intros i Hi. assert (i = 0%nat) as -> by lia. discriminate.
  - reflexivity.
Defined.

(** X4. Whatever the registry answers, a call of the second client's
    [consultarDeudas] makes at most three requests, waits at most 6 seconds
    in all, and draws no random number; with no credential in the
    environment it makes no request and leaves the world as it is. *)
Theorem X4_consultarDeudas_budget (cuit : string) (w : World) :
  let w' := snd (BcraB.consultarDeudas cuit w) in
  (fetches w <= fetches w' <= fetches w + 3)%nat
  /\ draws w' = draws w
  /\ (exists t, trace w' = (trace w ++ t)%list /\ 0 <= total_wait t <= 6000)
  /\ (truthy_string (credential w) = false -> w' = w)
  /\ (truthy_string (credential w) = true -> (fetches w < fetches w')%nat).
Proof.
  unfold BcraB.consultarDeudas, BcraB.getAuthToken, bind.
  fold (credential w).
  destruct (truthy_string (credential w)) eqn:Ec; cbn [negb].
  - destruct (credential w) as [t|]; [|discriminate Ec].
    destruct (attempts_budget BcraB.TIMEOUT_MS cuit t w) as (Hf & Hd & Ht).
    cbv zeta in *. repeat split; try assumption; try lia; discriminate.
  - rewrite generateMockResponse_B_world. cbv zeta.
    repeat split; try lia; try discriminate.
    exists []. rewrite app_nil_r. cbn. split; [reflexivity|lia].
Qed.

(* ================================================================== *)
(** * Further properties: the simulations                              *)
(* ================================================================== *)

Section Simulations.

Lemma seeded_floor (r k : Z) :
  Math_floor (inject_Z r / 233280 * inject_Z k) = (r * k) / 233280.
Proof.
  unfold Math_floor, Qfloor, Qdiv, Qmult, Qinv, inject_Z. cbn.
  now rewrite Z.mul_1_r.
Qed.

Lemma seeded_below (r a b : Z) (p : positive) :
  b = Zpos p ->
  Qltb (inject_Z r / 233280) (a # p) = (r * b <? a * 233280).
Proof.
  intros ->. unfold Qltb, Qle_bool, Qdiv, Qmult, Qinv, inject_Z. cbn.
  rewrite Z.mul_1_r. now rewrite Z.ltb_antisym.
Qed.

Lemma seeded_numerator_bound (seed : Z) :
  - 233280 < seeded_numerator seed < 233280.
Proof.
  unfold seeded_numerator.
  pose proof (Z.rem_bound_abs (seed * 9301 + 49297) 233280 ltac:(lia)). lia.
Qed.

(** The shapes of the summary the seeded simulation can give. *)
Lemma seeded_summary_shapes (cuit : string) (w : World) :
  exists r,
    BcraB.generateMockResponse cuit w = (Ok r, w)
    /\ inhabilitado r = false
    /\ (resumen r = mkResumen NaN (Num 0) NaN NaN (Num 0) NaN NaN
        \/ resumen r
           = mkResumen (Num 1) (Num 1) (Num 0) (Num 0) (Num 0) (Num 2)
               (Num 15000)
        \/ (exists m, 350000 <= m < 375000
              /\ resumen r
                 = mkResumen (Num 2) (Num 0) (Num 1) (Num 0) (Num 0) (Num 4)
                     (Num m))
        \/ (exists m, 375000 <= m < 500000
              /\ resumen r
                 = mkResumen (Num 2) (Num 0) (Num 2) (Num 0) (Num 0) (Num 5)
                     (Num m))).
Proof.
  unfold BcraB.generateMockResponse, bind, Date_now, ret.
  destruct (parseInt (slice_last 4 cuit)) as [|seed].
  - eexists. split; [reflexivity|]. split; [reflexivity|]. now left.
  - fold (seeded_numerator seed).
    pose proof (seeded_numerator_bound seed) as Hb.
    set (n := seeded_numerator seed) in *. clearbody n.
    rewrite (seeded_below n 7 10 10 eq_refl).
    destruct (n * 10 <? 7 * 233280) eqn:E7.
    + eexists. split; [reflexivity|]. split; [reflexivity|].
      right. now left.
    + apply Z.ltb_ge in E7.
      eexists. split; [reflexivity|].
      cbn [inhabilitado resumen].
      rewrite (seeded_below n 1 10 10 eq_refl).
      replace (n * 10 <? 1 * 233280) with false
        by (symmetry; apply Z.ltb_ge; lia).
      split; [reflexivity|]. right. right.
      change 4%Q with (inject_Z 4). change 500000%Q with (inject_Z 500000).
      rewrite !seeded_floor.
      assert (Hq : n * 4 / 233280 = 2 \/ n * 4 / 233280 = 3).
      { assert (2 <= n * 4 / 233280) by (apply Z.div_le_lower_bound; lia).
        assert (n * 4 / 233280 < 4) by (apply Z.div_lt_upper_bound; lia).
        lia. }
      destruct Hq as [Hq|Hq]; rewrite Hq.
      * left. exists (n * 500000 / 233280). split.
        -- assert (n * 4 < 3 * 233280).
           { destruct (Z_lt_le_dec (n * 4) (3 * 233280)) as [|Hge]; [assumption|].
             assert (3 <= n * 4 / 233280)
               by (apply Z.div_le_lower_bound; lia). lia. }
           split; [apply Z.div_le_lower_bound; lia
                  |apply Z.div_lt_upper_bound; lia].
        -- reflexivity.
      * right. exists (n * 500000 / 233280). split.
        -- assert (3 * 233280 <= n * 4).
           { destruct (Z_lt_le_dec (n * 4) (3 * 233280)) as [Hlt|]; [|assumption].
             assert (n * 4 / 233280 < 3)
               by (apply Z.div_lt_upper_bound; lia). lia. }
           split; [apply Z.div_le_lower_bound; lia
                  |apply Z.div_lt_upper_bound; lia].
        -- reflexivity.
Qed.

End Simulations.

(** X5. The seeded simulation of the second client never fails, leaves the
    world as it is, never sets the [inhabilitado] flag and never counts an
    entity in situation 5: whatever the CUIT, its summary is the favourable
    one (two entities, 15,000 owed), or has four entities with one in
    situation 3, or five entities with two in situation 3 (the amount owed
    is then between 350,000 and 500,000), or, when the last four characters
    of the CUIT do not start with a number, has NaN counters. *)
Theorem X5_seeded_simulation_shapes (cuit : string) (w : World) :
  exists r,
    BcraB.generateMockResponse cuit w = (Ok r, w)
    /\ inhabilitado r = false
    /\ situacion5 (resumen r) = Num 0
    /\ (resumen r = mkResumen NaN (Num 0) NaN NaN (Num 0) NaN NaN
        \/ resumen r
           = mkResumen (Num 1) (Num 1) (Num 0) (Num 0) (Num 0) (Num 2)
               (Num 15000)
        \/ (exists m, 350000 <= m < 375000
              /\ resumen r
                 = mkResumen (Num 2) (Num 0) (Num 1) (Num 0) (Num 0) (Num 4)
                     (Num m))
        \/ (exists m, 375000 <= m < 500000
              /\ resumen r
                 = mkResumen (Num 2) (Num 0) (Num 2) (Num 0) (Num 0) (Num 5)
                     (Num m))).
Proof.
  destruct (seeded_summary_shapes cuit w) as (r & Hr & Hi & Hs).
  exists r. repeat split; try assumption.
  destruct Hs as [E|[E|[(m & _ & E)|(m & _ & E)]]]; now rewrite E.
Qed.

Lemma alt_classify_success (r : BCRAResponse) :
  success (Alt.classify r)
  = negb (inhabilitado r)
    && negb (rgeb (porcentajeProblematicas (resumen r)) 40).
Proof.
  unfold Alt.classify. destruct (inhabilitado r); [reflexivity|].
  now destruct (rgeb (porcentajeProblematicas (resumen r)) 40).
Qed.

Lemma lib_classify_success (r : BCRAResponse) :
  success (Lib.classify r)
  = negb (rgeb (porcentajeProblematicas (resumen r)) 40).
Proof.
  unfold Lib.classify.
  now destruct (rgeb (porcentajeProblematicas (resumen r)) 40).
Qed.

(** X6. With the second client and no credential in the environment, for
    an identifier from which a CUIT can be derived (a valid CUIT, or any 8
    characters), the bureau stage of either validation service queries
    nothing, leaves the world as it is, never asks for a manual review and
    never reports situation 5; it fails exactly when the simulated summary
    has five entities, with 40.0% of them problematic. *)
Theorem X6_bureau_stage_in_simulation (dni cuit : string) (w : World) :
  truthy_string (credential w) = false ->
  derive_cuit serviceB dni = Ok cuit ->
  exists r,
    BcraB.generateMockResponse cuit w = (Ok r, w)
    /\ Alt.validateBCRA serviceB dni w = (Ok (Alt.classify r), w)
    /\ Lib.validateBCRA serviceB dni w = (Ok (Lib.classify r), w)
    /\ requires_review (Alt.classify r) = false
    /\ requires_review (Lib.classify r) = false
    /\ vr_situacion5 (Lib.classify r) = Some false
    /\ (success (Alt.classify r) = false <->
        totalEntidades (resumen r) = Num 5)
    /\ (success (Lib.classify r) = false <->
        totalEntidades (resumen r) = Num 5)
    /\ (totalEntidades (resumen r) = Num 5 ->
        message (Alt.classify r)
        = "Porcentaje alto de situaciones problemáticas: 40.0%").
Proof.
  intros Hc Hd.
  destruct (seeded_summary_shapes cuit w) as (r & Hr & Hi & Hs).
  exists r. split; [exact Hr|].
  assert (Hq : BcraB.consultarDeudas cuit w = (Ok r, w)).
  { unfold BcraB.consultarDeudas, BcraB.getAuthToken, bind.
    fold (credential w). rewrite Hc. exact Hr. }
  split.
  { unfold Alt.validateBCRA, try_catch, bind, lift, ret.
    fold (derive_cuit serviceB dni). rewrite Hd.
    cbn [svc_consultarDeudas serviceB]. now rewrite Hq. }
  split.
  { unfold Lib.validateBCRA, try_catch, bind, lift, ret.
    fold (derive_cuit serviceB dni). rewrite Hd.
    cbn [svc_consultarDeudas serviceB]. now rewrite Hq. }
  split; [apply alt_classify_no_review|].
  split; [apply lib_classify_no_review|].
  rewrite lib_classify_flag, alt_classify_success, lib_classify_success, Hi.
  assert (Hm : totalEntidades (resumen r) = Num 5 ->
               message (Alt.classify r)
               = "Porcentaje alto de situaciones problemáticas: 40.0%").
  { intro H5. unfold Alt.classify. rewrite Hi.
    destruct Hs as [E|[E|[(m & _ & E)|(m & _ & E)]]]; rewrite E in *;
      try discriminate H5. reflexivity. }
  destruct Hs as [E|[E|[(m & _ & E)|(m & _ & E)]]]; rewrite E in *;
    cbn [situacion5 totalEntidades ngtb nltb orb negb andb];
    (split; [reflexivity|]);
    (split; [vm_compute; split; intro H; solve [reflexivity|discriminate H]|]);
    (split; [vm_compute; split; intro H; solve [reflexivity|discriminate H]|]);
    exact Hm.
Qed.

Section UnseededSimulation.

Lemma floor_of_draw (q : Q) (k : Z) :
  0 < k -> (0 <= q)%Q -> (q < 1)%Q ->
  0 <= Math_floor (q * inject_Z k) < k.
Proof.
  intros Hk H0 H1. unfold Math_floor. split.
  - change 0 with (Qfloor 0). apply Qfloor_resp_le.
    apply Qmult_le_0_compat; [assumption|].
    change 0%Q with (inject_Z 0). rewrite <- Zle_Qle. lia.
  - apply Z.lt_le_trans with (m := Qfloor (inject_Z k - (1 # 2)) + 1).
    + assert (Hle : Qfloor (q * inject_Z k) <= Qfloor (inject_Z k)).
      { apply Qfloor_resp_le.
        rewrite <- (Qmult_1_l (inject_Z k)) at 2.
        apply Qmult_le_compat_r; [now apply Qlt_le_weak|].
        change 0%Q with (inject_Z 0). rewrite <- Zle_Qle. lia. }
      rewrite Qfloor_Z in Hle.
      assert (Hne : Qfloor (q * inject_Z k) <> k).
      { intro E.
        pose proof (Qfloor_le (q * inject_Z k)) as Hf. rewrite E in Hf.
        assert (Hlt : (q * inject_Z k < 1 * inject_Z k)%Q).
        { apply Qmult_lt_compat_r; [|assumption].
          change 0%Q with (inject_Z 0). rewrite <- Zlt_Qlt. lia. }
        rewrite Qmult_1_l in Hlt.
        exact (Qlt_irrefl _ (Qle_lt_trans _ _ _ Hf Hlt)). }
      assert (Hf2 : k - 1 <= Qfloor (inject_Z k - (1 # 2))).
      { change (k - 1) with (k - 1). rewrite <- (Qfloor_Z (k - 1)).
        apply Qfloor_resp_le. unfold Qminus, Qle, Qplus, Qopp, inject_Z. cbn.
        lia. }
      lia.
    + assert (Hf3 : Qfloor (inject_Z k - (1 # 2)) <= Qfloor (inject_Z k)).
      { apply Qfloor_resp_le. unfold Qminus, Qle, Qplus, Qopp, inject_Z. cbn.
        lia. }
      rewrite Qfloor_Z in Hf3.
      assert (Hne : Qfloor (inject_Z k - (1 # 2)) <> k).
      { intro E.
        pose proof (Qfloor_le (inject_Z k - (1 # 2))) as Hf. rewrite E in Hf.
        revert Hf. unfold Qminus, Qle, Qplus, Qopp, inject_Z. cbn. lia. }
      lia.
Qed.

Lemma only_draws_refl (w : World) : only_draws w w.
Proof. unfold only_draws. repeat split; reflexivity || lia. Qed.

Lemma only_draws_trans (w1 w2 w3 : World) :
  only_draws w1 w2 -> only_draws w2 w3 -> only_draws w1 w3.
Proof.
  unfold only_draws.
  intros (A1 & A2 & A3 & A4 & A5 & A6 & A7 & A8)
         (B1 & B2 & B3 & B4 & B5 & B6 & B7 & B8).
  repeat split; try congruence. lia.
Qed.

Lemma only_draws_unit (w w' : World) :
  only_draws w w' -> draws_in_unit w -> draws_in_unit w'.
Proof.
  unfold only_draws, draws_in_unit.
  intros (_ & _ & _ & _ & E & _) H n. rewrite E. apply H.
Qed.

Lemma Math_random_run (w : World) :
  exists w',
    Math_random w = (Ok (random_script w (draws w)), w')
    /\ only_draws w w' /\ draws w' = S (draws w).
Proof.
  unfold Math_random, only_draws. eexists. split; [reflexivity|].
  cbn. repeat split; lia.
Qed.

Lemma mock_deuda_run (p : Z) (fecha : string) (i : nat) (w : World) :
  draws_in_unit w ->
  exists d w',
    BcraA.mock_deuda p fecha i w = (Ok d, w')
    /\ simulated_deuda d /\ only_draws w w'.
Proof.
  intro Hu. unfold BcraA.mock_deuda, bind, ret.
  destruct (Z.of_nat i <? p).
  - destruct (Math_random_run w) as (w1 & E1 & O1 & _). rewrite E1.
    destruct (Math_random_run w1) as (w2 & E2 & O2 & _). rewrite E2.
    do 2 eexists. split; [reflexivity|].
    split; [|exact (only_draws_trans _ _ _ O1 O2)].
    unfold simulated_deuda. cbn [Deuda.situacion Deuda.monto]. split.
    + destruct (Qltb (random_script w (draws w)) (1 # 2)); lia.
    + destruct (only_draws_unit _ _ O1 Hu (draws w1)) as [H0 H1].
      change 100000%Q with (inject_Z 100000).
      apply floor_of_draw; [lia|assumption|assumption].
  - destruct (Math_random_run w) as (w1 & E1 & O1 & _). rewrite E1.
    do 2 eexists. split; [reflexivity|]. split; [|exact O1].
    unfold simulated_deuda. cbn [Deuda.situacion Deuda.monto]. split; [lia|].
    destruct (Hu (draws w)) as [H0 H1].
    change 100000%Q with (inject_Z 100000).
    apply floor_of_draw; [lia|assumption|assumption].
Qed.

Lemma mapM_mock_deuda_run (p : Z) (fecha : string) (l : list nat) (w : World) :
  draws_in_unit w ->
  exists ds w',
    mapM (BcraA.mock_deuda p fecha) l w = (Ok ds, w')
    /\ List.length ds = List.length l
    /\ Forall simulated_deuda ds /\ only_draws w w'.
Proof.
  revert w. induction l as [|i l IH]; intros w Hu.
  - exists [], w. repeat split; [constructor|apply only_draws_refl].
  - cbn [mapM]. unfold bind at 1.
    destruct (mock_deuda_run p fecha i w Hu) as (d & w1 & E1 & Hd & O1).
    rewrite E1. unfold bind at 1.
    destruct (IH w1 (only_draws_unit _ _ O1 Hu)) as (ds & w2 & E2 & Hl & Hf & O2).
    rewrite E2. exists (d :: ds), w2. split; [reflexivity|].
    split; [cbn; now rewrite Hl|].
    split; [now constructor|exact (only_draws_trans _ _ _ O1 O2)].
Qed.

End UnseededSimulation.

(** X7. When every [Math.random()] lies in [0, 1), the simulation of the
    first client never fails, makes no request and no wait, and its answer
    reports between 2 and 5 entities with as many debts as entities, each
    debt in a situation from 1 to 4 with an amount below 100,000; the
    counters of situations 1, 3 and 4 add up to at most the number of
    entities, the counter of situation 5 is 0 or 1 whatever the debts, and
    the total owed is between 0 and 500,000. *)
Theorem X7_unseeded_simulation_range (cuit : string) (w : World) :
  draws_in_unit w ->
  exists r w',
    BcraA.generateMockResponse cuit w = (Ok r, w')
    /\ only_draws w w'
    /\ (draws w < draws w')%nat
    /\ Forall simulated_deuda (deudas r)
    /\ exists total a2 a1 a3 a4 a5 m,
         resumen r
         = mkResumen (Num a1) (Num a2) (Num a3) (Num a4) (Num a5)
             (Num total) (Num m)
         /\ 2 <= total <= 5
         /\ Z.of_nat (List.length (deudas r)) = total
         /\ 0 <= a1 /\ 0 <= a2 /\ 0 <= a3 /\ 0 <= a4
         /\ a1 + a2 + a3 + a4 <= total
         /\ (a5 = 0 \/ a5 = 1)
         /\ 0 <= m < 500000.
Proof.
  intro Hu. unfold BcraA.generateMockResponse.
  unfold bind at 1.
  destruct (Math_random_run w) as (w1 & E1 & O1 & D1). rewrite E1.
  unfold bind at 1, Date_now at 1.
  destruct (Qltb (random_script w (draws w)) (7 # 10)).
  - unfold ret. do 2 eexists. split; [reflexivity|].
    split; [exact O1|]. split; [lia|].
    split.
    + cbn [deudas favourable_response].
      repeat constructor; cbn; lia.
    + exists 2, 1, 1, 0, 0, 0, 15000. cbn. repeat split; lia.
  - unfold bind at 1.
    destruct (Math_random_run w1) as (w2 & E2 & O2 & D2). rewrite E2.
    pose proof (only_draws_unit _ _ O1 Hu) as Hu1.
    pose proof (only_draws_unit _ _ O2 Hu1) as Hu2.
    destruct (Hu1 (draws w1)) as [H0 H1].
    pose proof (floor_of_draw _ 4 ltac:(lia) H0 H1) as Hf.
    change (inject_Z 4) with 4%Q in Hf.
    set (f := Math_floor (random_script w1 (draws w1) * 4)) in *.
    clearbody f.
    unfold bind at 1.
    destruct (mapM_mock_deuda_run
                (Math_floor (inject_Z (f + 2) * (6 # 10))) (now w1)
                (seq 0 (Z.to_nat (f + 2))) w2 Hu2)
      as (ds & w3 & E3 & Hl & Hds & O3).
    rewrite E3.
    pose proof (only_draws_unit _ _ O3 Hu2) as Hu3.
    unfold bind at 1.
    destruct (Math_random_run w3) as (w4 & E4 & O4 & D4). rewrite E4.
    pose proof (only_draws_unit _ _ O4 Hu3) as Hu4.
    unfold bind at 1.
    destruct (Math_random_run w4) as (w5 & E5 & O5 & D5). rewrite E5.
    unfold bind at 1.
    destruct (Math_random_run w5) as (w6 & E6 & O6 & D6). rewrite E6.
    unfold ret. do 2 eexists. split; [reflexivity|].
    split.
    { exact (only_draws_trans _ _ _ O1
               (only_draws_trans _ _ _ O2
                  (only_draws_trans _ _ _ O3
                     (only_draws_trans _ _ _ O4
                        (only_draws_trans _ _ _ O5 O6))))). }
    split.
    { destruct O2 as (_&_&_&_&_&_&_&L2). destruct O3 as (_&_&_&_&_&_&_&L3).
      lia. }
    split; [exact Hds|].
    cbn [resumen deudas].
    destruct (Hu4 (draws w4)) as [M0 M1].
    pose proof (floor_of_draw _ 500000 ltac:(lia) M0 M1) as Hm.
    change (inject_Z 500000) with 500000%Q in Hm.
    do 7 eexists. split; [reflexivity|].
    rewrite Hl, length_seq.
    assert (Hc : f = 0 \/ f = 1 \/ f = 2 \/ f = 3) by lia.
    split; [lia|]. split; [lia|].
    destruct (Qltb (random_script w3 (draws w3)) (1 # 10));
      destruct Hc as [-> | [-> | [-> | ->]]];
      repeat match goal with
             | |- context [Math_floor (inject_Z ?z * ?q)] =>
                 let v := eval vm_compute in (Math_floor (inject_Z z * q)) in
                 change (Math_floor (inject_Z z * q)) with v
             end;
      lia.
Qed.

(** X7, witness: every draw is 1/2. *)
Lemma X7_witness :
  exists r w',
    BcraA.generateMockResponse "20123456786" offline = (Ok r, w')
    /\ only_draws offline w'
    /\ (draws offline < draws w')%nat
    /\ Forall simulated_deuda (deudas r)
    /\ exists total a2 a1 a3 a4 a5 m,
         resumen r
         = mkResumen (Num a1) (Num a2) (Num a3) (Num a4) (Num a5)
             (Num total) (Num m)
         /\ 2 <= total <= 5
         /\ Z.of_nat (List.length (deudas r)) = total
         /\ 0 <= a1 /\ 0 <= a2 /\ 0 <= a3 /\ 0 <= a4
         /\ a1 + a2 + a3 + a4 <= total
         /\ (a5 = 0 \/ a5 = 1)
         /\ 0 <= m < 500000.
Proof.
  apply (X7_unseeded_simulation_range "20123456786" offline).
  intro n. split; [discriminate|reflexivity].
Defined.

(** X6, witness: an applicant with a DNI of 8 digits, no credential. *)
Lemma X6_witness :
  exists r,
    BcraB.generateMockResponse "20301112220" offline = (Ok r, offline)
    /\ Alt.validateBCRA serviceB "30111222" offline
       = (Ok (Alt.classify r), offline)
    /\ Lib.validateBCRA serviceB "30111222" offline
       = (Ok (Lib.classify r), offline)
    /\ requires_review (Alt.classify r) = false
    /\ requires_review (Lib.classify r) = false
    /\ vr_situacion5 (Lib.classify r) = Some false
    /\ (success (Alt.classify r) = false <->
        totalEntidades (resumen r) = Num 5)
    /\ (success (Lib.classify r) = false <->
        totalEntidades (resumen r) = Num 5)
    /\ (totalEntidades (resumen r) = Num 5 ->
        message (Alt.classify r)
        = "Porcentaje alto de situaciones problemáticas: 40.0%").
Proof.
  apply (X6_bureau_stage_in_simulation "30111222" "20301112220" offline);
    reflexivity.
Defined.

(* ================================================================== *)
(** * Further properties: the identifier service                       *)
(* ================================================================== *)

Section TaxIdMore.

Ltac explode s H :=
  repeat
    match type of H with
    | String.length ?x = S _ =>
        let c := fresh "c" in
        let r := fresh "r" in
        let E := fresh "E" in
        destruct (string_length_S _ _ H) as (c & r & E & H');
        subst x; clear H; rename H' into H
    | String.length ?x = O =>
        apply string_length_0 in H; subst x
    end.

Lemma parseInt_not_digit (c : ascii) :
  is_digit c = false -> parseInt (String c EmptyString) = NaN.
Proof.
  destruct c as [[] [] [] [] [] [] [] []]; intro H;
    solve [discriminate H | reflexivity].
Qed.

Lemma filter_string_length (f : ascii -> bool) (s : string) :
  (String.length (filter_string f s) <= String.length s)%nat.
Proof.
  induction s as [|c r IH]; cbn; [lia|]. destruct (f c); cbn; lia.
Qed.

Lemma filter_string_all (f : ascii -> bool) (s : string) :
  all_chars f (filter_string f s) = true.
Proof.
  induction s as [|c r IH]; cbn; [reflexivity|].
  destruct (f c) eqn:E; [cbn; now rewrite E|assumption].
Qed.

Lemma string_app_length (a b : string) :
  String.length (a ++ b) = (String.length a + String.length b)%nat.
Proof. induction a as [|c a IH]; cbn; [reflexivity|now rewrite IH]. Qed.

(** The running sum of the checksum loop stays NaN once it is NaN. *)
Lemma weighted_fold_NaN (s : string) (l : list nat) :
  fold_left
    (fun sum i =>
       nadd sum (nmul (parseInt_at s i) (Num (nth i BcraCommon.multipliers 0))))
    l NaN = NaN.
Proof. induction l as [|i l IH]; [reflexivity|exact IH]. Qed.

Lemma weighted_fold_bad (s : string) (l : list nat) (acc : number) (j : nat) :
  In j l -> parseInt_at s j = NaN ->
  fold_left
    (fun sum i =>
       nadd sum (nmul (parseInt_at s i) (Num (nth i BcraCommon.multipliers 0))))
    l acc = NaN.
Proof.
  revert acc. induction l as [|i l IH]; intros acc Hin Hj; [contradiction|].
  cbn [fold_left]. destruct Hin as [->|Hin].
  - rewrite Hj. cbn [nmul]. destruct acc; cbn [nadd]; apply weighted_fold_NaN.
  - now apply IH.
Qed.

Lemma not_all_digits (s : string) :
  all_chars is_digit s = false ->
  exists j c, (j < String.length s)%nat /\ get j s = Some c
              /\ is_digit c = false.
Proof.
  induction s as [|c r IH]; cbn; [discriminate|].
  destruct (is_digit c) eqn:E; cbn [andb]; intro H.
  - destruct (IH H) as (j & c' & Hj & Hg & Hc).
    exists (S j), c'. repeat split; [lia|assumption|assumption].
  - exists 0%nat, c. repeat split; [lia|assumption].
Qed.

End TaxIdMore.

Lemma filter_string_app (f : ascii -> bool) (a b : string) :
  filter_string f (a ++ b) = filter_string f a ++ filter_string f b.
Proof.
  induction a as [|c a IH]; cbn; [reflexivity|].
  destruct (f c); cbn; now rewrite IH.
Qed.

Lemma all_chars_app (p : ascii -> bool) (a b : string) :
  all_chars p (a ++ b) = all_chars p a && all_chars p b.
Proof.
  induction a as [|c a IH]; cbn; [reflexivity|].
  now rewrite IH, andb_assoc.
Qed.

Lemma digits_of_app (a b : string) :
  digits_of (a ++ b)
  = match digits_of a, digits_of b with
    | Some x, Some y => Some (x ++ y)%list
    | _, _ => None
    end.
Proof.
  induction a as [|c a IH]; cbn.
  - now destruct (digits_of b).
  - destruct (is_digit c); [|reflexivity]. rewrite IH.
    destruct (digits_of a); [|reflexivity]. now destruct (digits_of b).
Qed.

Lemma string_app_inv_head (a x y : string) : a ++ x = a ++ y -> x = y.
Proof.
  induction a as [|c a IH]; cbn; intro H; [assumption|].
  injection H as H. auto.
Qed.

(** X8. For any ten digits there is exactly one eleventh character that
    the strict [validateCuit] accepts: the check digit that [dniToCuit]
    appends. *)
Theorem X8_check_digit_unique (b : string) (c : ascii) :
  String.length b = 10%nat ->
  all_chars is_digit b = true ->
  (BcraB.validateCuit (b ++ String c EmptyString) = true
   <-> String c EmptyString = toString (BcraCommon.checkDigit b)).
Proof.
  intros L H.
  destruct (append_check_digit b L H) as (ds & Hds & Eo & Hk & _ & Hv).
  apply string_app_inv_head in Eo.
  destruct (digits_of_all _ _ Hds) as [_ Hlen]. rewrite L in Hlen.
  split.
  - intro Hc. apply validateCuit_B_spec in Hc.
    destruct Hc as (ds' & Hd' & Hl' & Hn).
    rewrite digits_of_app, Hds in Hd'. cbn [digits_of] in Hd'.
    destruct (is_digit c) eqn:Ec; [|discriminate].
    injection Hd' as <-.
    assert (F : firstn 10 (ds ++ [code c - 48]) = ds).
    { rewrite <- Hlen, firstn_app, Nat.sub_diag, firstn_all. cbn.
      apply app_nil_r. }
    assert (N : nth 10 (ds ++ [code c - 48]) 0 = code c - 48).
    { rewrite <- Hlen, app_nth2, Nat.sub_diag by lia. reflexivity. }
    rewrite F, N in Hn.
    rewrite Eo, <- Hn. now rewrite char_of_digit_code.
  - intros ->. exact Hv.
Qed.

(** X8, witness: the ten digits of 2012345678. *)
Lemma X8_witness :
  BcraB.validateCuit ("2012345678" ++ "6") = true
  <-> "6" = toString (BcraCommon.checkDigit "2012345678").
Proof.
  apply (X8_check_digit_unique "2012345678" "6"); reflexivity.
Defined.

(** X9. The first client's [dniToCuit] looks at the digits of its argument
    only: when they are 7 or 8 in number, whatever other characters stand
    between them, it returns the CUIT of those digits, which has 11
    characters and passes both versions of [validateCuit]. *)
Theorem X9_dniToCuit_ignores_separators (d : string) :
  String.length (filter_string is_digit d) = 7%nat
  \/ String.length (filter_string is_digit d) = 8%nat ->
  BcraA.dniToCuit d = BcraA.dniToCuit (filter_string is_digit d)
  /\ exists out,
       BcraA.dniToCuit d = Ok out
       /\ String.length out = 11%nat
       /\ BcraB.validateCuit out = true
       /\ BcraA.validateCuit out = true.
Proof.
  intro L.
  assert (Hd : all_chars is_digit (filter_string is_digit d) = true)
    by apply filter_string_all.
  assert (E : BcraA.dniToCuit d = BcraA.dniToCuit (filter_string is_digit d)).
  { unfold BcraA.dniToCuit. now rewrite (filter_digits_id _ Hd). }
  split; [exact E|]. rewrite E.
  destruct (dniToCuit_A_digits _ Hd L) as (Lb & Hb & Eo).
  destruct (append_check_digit _ Lb Hb) as (ds & _ & _ & _ & Lo & Hv).
  eexists. split; [exact Eo|]. split; [exact Lo|]. split; [exact Hv|].
  now apply validateCuit_A_of_B.
Qed.

(** X9, witness: a DNI written with dots. *)
Lemma X9_witness :
  BcraA.dniToCuit "12.345.678" = BcraA.dniToCuit "12345678"
  /\ exists out,
       BcraA.dniToCuit "12.345.678" = Ok out
       /\ String.length out = 11%nat
       /\ BcraB.validateCuit out = true
       /\ BcraA.validateCuit out = true.
Proof.
  apply (X9_dniToCuit_ignores_separators "12.345.678"). right. reflexivity.
Defined.

(** X10. What the bureau stage sends to the client for a DNI of 7 or 8
    digits, [validateCuit(dni) ? dni : dniToCuit(dni)]: with the first
    client, whose [validateCuit] accepts a DNI, it is the DNI itself and not
    the CUIT that [dniToCuit] would give; with the second client, for 8
    digits, it is that CUIT. *)
Theorem X10_identifier_sent_to_the_bureau (d : string) :
  all_chars is_digit d = true ->
  String.length d = 7%nat \/ String.length d = 8%nat ->
  derive_cuit serviceA d = Ok d
  /\ (exists out, BcraA.dniToCuit d = Ok out /\ String.length out = 11%nat)
  /\ (String.length d = 8%nat -> derive_cuit serviceB d = BcraA.dniToCuit d)
  /\ (String.length d = 7%nat -> derive_cuit serviceB d = Throw "DNI inválido").
Proof.
  intros Hd L. split; [|split; [|split]].
  - unfold derive_cuit. cbn [svc_validateCuit serviceA].
    rewrite (validateCuit_A_digits d Hd).
    destruct L as [L|L]; now rewrite L.
  - destruct (dniToCuit_A_digits _ Hd L) as (Lb & Hb & Eo).
    destruct (append_check_digit _ Lb Hb) as (ds & _ & _ & _ & Lo & _).
    eexists. split; [exact Eo|exact Lo].
  - intro L8. unfold derive_cuit. cbn [svc_validateCuit svc_dniToCuit serviceB].
    unfold BcraB.validateCuit. rewrite L8. cbn [Nat.eqb negb orb].
    rewrite orb_true_r.
    unfold BcraB.dniToCuit, BcraA.dniToCuit.
    rewrite (filter_digits_id d Hd), L8. unfold padStart. rewrite L8.
    reflexivity.
  - intro L7. unfold derive_cuit. cbn [svc_validateCuit svc_dniToCuit serviceB].
    unfold BcraB.validateCuit. rewrite L7. cbn [Nat.eqb negb orb].
    rewrite orb_true_r. unfold BcraB.dniToCuit. now rewrite L7.
Qed.

(** X10, witness: the DNI 30111222. *)
Lemma X10_witness :
  derive_cuit serviceA "30111222" = Ok "30111222"
  /\ (exists out,
         BcraA.dniToCuit "30111222" = Ok out /\ String.length out = 11%nat)
  /\ (String.length "30111222" = 8%nat ->
      derive_cuit serviceB "30111222" = BcraA.dniToCuit "30111222")
  /\ (String.length "30111222" = 7%nat ->
      derive_cuit serviceB "30111222" = Throw "DNI inválido").
Proof.
  apply (X10_identifier_sent_to_the_bureau "30111222");
    [reflexivity|right; reflexivity].
Defined.

(** X11. The second client's [dniToCuit] does not look at what its 8
    characters are: when one of them is not a digit it does not fail, and
    returns the 13 characters "20", the argument and "NaN", which neither
    version of [validateCuit] accepts. *)
Theorem X11_dniToCuit_B_not_digits (d : string) :
  String.length d = 8%nat ->
  all_chars is_digit d = false ->
  BcraB.dniToCuit d = Ok ("20" ++ d ++ "NaN")
  /\ String.length ("20" ++ d ++ "NaN") = 13%nat
  /\ BcraB.validateCuit ("20" ++ d ++ "NaN") = false
  /\ BcraA.validateCuit ("20" ++ d ++ "NaN") = false.
Proof.
  intros L H.
  destruct (not_all_digits d H) as (j & c & Hj & Hg & Hc).
  assert (Hs : BcraCommon.weighted_sum ("20" ++ d) = NaN).
  { unfold BcraCommon.weighted_sum.
    apply (weighted_fold_bad _ _ _ (S (S j))).
    - apply in_seq. lia.
    - unfold parseInt_at, charAt. cbn [append get]. rewrite Hg.
      now apply parseInt_not_digit. }
  assert (Hk : BcraCommon.checkDigit ("20" ++ d) = NaN).
  { unfold BcraCommon.checkDigit. now rewrite Hs. }
  assert (Ld : String.length ("20" ++ d ++ "NaN") = 13%nat).
  { rewrite !string_app_length, L. reflexivity. }
  split.
  { unfold BcraB.dniToCuit. rewrite L. cbn [Nat.eqb negb].
    rewrite Hk. reflexivity. }
  split; [exact Ld|]. split.
  - unfold BcraB.validateCuit. rewrite Ld. cbn [Nat.eqb negb].
    now rewrite orb_true_r.
  - unfold BcraA.validateCuit.
    rewrite !filter_string_app, !all_chars_app.
    match goal with |- context [all_chars is_digit (filter_string ?f "NaN")] =>
      change (all_chars is_digit (filter_string f "NaN")) with false end.
    now rewrite !andb_false_r.
Qed.

(** X11, witness: seven digits and a letter. *)
Lemma X11_witness :
  BcraB.dniToCuit "1234567a" = Ok ("20" ++ "1234567a" ++ "NaN")
  /\ String.length ("20" ++ "1234567a" ++ "NaN") = 13%nat
  /\ BcraB.validateCuit ("20" ++ "1234567a" ++ "NaN") = false
  /\ BcraA.validateCuit ("20" ++ "1234567a" ++ "NaN") = false.
Proof.
  apply (X11_dniToCuit_B_not_digits "1234567a"); reflexivity.
Defined.

(* ================================================================== *)
(** * Further properties: the amount calculators                       *)
(* ================================================================== *)

Section AmountMore.

Ltac cmp_props :=
  repeat match goal with
         | H : (_ <? _) = true |- _ => apply Z.ltb_lt in H
         | H : (_ <? _) = false |- _ => apply Z.ltb_ge in H
         | H : (_ <=? _) = true |- _ => apply Z.leb_le in H
         | H : (_ <=? _) = false |- _ => apply Z.leb_gt in H
         end.

Lemma alt_amount_zero (c : ClienteData) (bcra banco : ValidationResult) :
  let m := Alt.calculateMaxAmount c bcra banco in
  (m = 0 \/ m = 100000 \/ m = 150000 \/ m = 200000)
  /\ (m = 0 <-> sueldoNeto c < 500000).
Proof.
  unfold Alt.calculateMaxAmount.
  destruct (1000000 <=? sueldoNeto c) eqn:E1;
    destruct (800000 <=? sueldoNeto c) eqn:E2;
    destruct (500000 <=? sueldoNeto c) eqn:E3;
    cmp_props; try lia;
    destruct (tipoEmpleado c);
    destruct (banco_situacion_is (details banco) 3);
    destruct (value_gtb (field "porcentajeProblematicas" (details bcra)) 20);
    destruct (value_gtb (field "montoTotal" (details bcra)) 100000);
    cbn; lia.
Qed.

Lemma alt_amount_monotone (c c' : ClienteData) (bcra banco : ValidationResult) :
  tipoEmpleado c = tipoEmpleado c' ->
  sueldoNeto c <= sueldoNeto c' ->
  Alt.calculateMaxAmount c bcra banco <= Alt.calculateMaxAmount c' bcra banco.
Proof.
  unfold Alt.calculateMaxAmount. intros <- Hs.
  destruct (1000000 <=? sueldoNeto c) eqn:E1;
    destruct (800000 <=? sueldoNeto c) eqn:E2;
    destruct (500000 <=? sueldoNeto c) eqn:E3;
    destruct (1000000 <=? sueldoNeto c') eqn:F1;
    destruct (800000 <=? sueldoNeto c') eqn:F2;
    destruct (500000 <=? sueldoNeto c') eqn:F3;
    cmp_props; try lia;
    destruct (tipoEmpleado c);
    destruct (banco_situacion_is (details banco) 3);
    destruct (value_gtb (field "porcentajeProblematicas" (details bcra)) 20);
    destruct (value_gtb (field "montoTotal" (details bcra)) 100000);
    cbn; lia.
Qed.

Lemma lib_amount_zero (c : ClienteData) (bcra banco : ValidationResult) :
  let m := Lib.calculateMaxAmount c bcra banco in
  (m = 0 \/ m = 100000 \/ m = 150000 \/ m = 200000)
  /\ (m = 0 <->
      vr_situacion5 bcra <> Some true
      /\ (sueldoNeto c <= 500000
          \/ (800000 < sueldoNeto c /\ tipoEmpleado c = sin_tipo))).
Proof.
  unfold Lib.calculateMaxAmount.
  destruct (vr_situacion5 bcra) as [[|]|];
    destruct (1000000 <? sueldoNeto c) eqn:E1;
    destruct (800000 <? sueldoNeto c) eqn:E2;
    destruct (500000 <? sueldoNeto c) eqn:E3;
    cmp_props; try lia;
    destruct (tipoEmpleado c);
    destruct (banco_situacion_is (details banco) 3);
    cbn; (split; [lia|]); split;
    try (intro; exfalso; lia);
    try (intros [Hn _]; exfalso; now apply Hn);
    try (intros [_ [Hc|[Hc Ht]]]; first [lia | discriminate]);
    try (intros _; split; [discriminate|]; first [left; lia | right; split; [lia|reflexivity]]);
    try reflexivity.
Qed.

Lemma lib_amount_monotone (c c' : ClienteData) (bcra banco : ValidationResult) :
  tipoEmpleado c = tipoEmpleado c' ->
  tipoEmpleado c <> sin_tipo ->
  sueldoNeto c <= sueldoNeto c' ->
  Lib.calculateMaxAmount c bcra banco <= Lib.calculateMaxAmount c' bcra banco.
Proof.
  unfold Lib.calculateMaxAmount. intros <- Hn Hs.
  destruct (vr_situacion5 bcra) as [[|]|]; try lia;
    destruct (1000000 <? sueldoNeto c) eqn:E1;
    destruct (800000 <? sueldoNeto c) eqn:E2;
    destruct (500000 <? sueldoNeto c) eqn:E3;
    destruct (1000000 <? sueldoNeto c') eqn:F1;
    destruct (800000 <? sueldoNeto c') eqn:F2;
    destruct (500000 <? sueldoNeto c') eqn:F3;
    cmp_props; try lia;
    destruct (tipoEmpleado c); try contradiction;
    destruct (banco_situacion_is (details banco) 3);
    cbn; lia.
Qed.

End AmountMore.

(** X12. The calculator of part_001 returns one of 0, 100,000, 150,000 and
    200,000, and returns 0 exactly when the net income is below 500,000:
    since that service has no income stage, its rejection of an amount of 0
    is what refuses the incomes below 500,000. *)
Theorem X12_alt_amount_values (c : ClienteData) (bcra banco : ValidationResult) :
  let m := Alt.calculateMaxAmount c bcra banco in
  (m = 0 \/ m = 100000 \/ m = 150000 \/ m = 200000)
  /\ (m = 0 <-> sueldoNeto c < 500000).
Proof. apply alt_amount_zero. Qed.

(** X13. In part_001, for the same employment category, bureau result and
    bank, a higher net income never gives a lower amount. *)
Theorem X13_alt_amount_monotone (c c' : ClienteData)
    (bcra banco : ValidationResult) :
  tipoEmpleado c = tipoEmpleado c' ->
  sueldoNeto c <= sueldoNeto c' ->
  Alt.calculateMaxAmount c bcra banco <= Alt.calculateMaxAmount c' bcra banco.
Proof. apply alt_amount_monotone. Qed.

(** X13, witness: 600,000 and 900,000, private sector. *)
Lemma X13_witness :
  Alt.calculateMaxAmount (applicant "30111222" 600000 privado "nacion" None)
    (Alt.classify (favourable_response "20301112220" "2025-01-01"))
    (banco_aceptado nacion)
  <= Alt.calculateMaxAmount (applicant "30111222" 900000 privado "nacion" None)
       (Alt.classify (favourable_response "20301112220" "2025-01-01"))
       (banco_aceptado nacion).
Proof.
  apply X13_alt_amount_monotone; [reflexivity|cbn; lia].
Defined.

(** X14. The calculator of [src/lib/validation-service.ts] returns one of
    0, 100,000, 150,000 and 200,000, and returns 0 exactly when the bureau
    result has no situation-5 flag and either the net income is at most
    500,000 or it is above 800,000 with the employment category unset. *)
Theorem X14_lib_amount_values (c : ClienteData) (bcra banco : ValidationResult) :
  let m := Lib.calculateMaxAmount c bcra banco in
  (m = 0 \/ m = 100000 \/ m = 150000 \/ m = 200000)
  /\ (m = 0 <->
      vr_situacion5 bcra <> Some true
      /\ (sueldoNeto c <= 500000
          \/ (800000 < sueldoNeto c /\ tipoEmpleado c = sin_tipo))).
Proof. apply lib_amount_zero. Qed.

(** X15. In [src/lib/validation-service.ts], for the same employment
    category, provided it is set, and the same bureau result and bank, a
    higher net income never gives a lower amount. (With the category unset
    700,000 gives 100,000 and 900,000 gives 0.) *)
Theorem X15_lib_amount_monotone (c c' : ClienteData)
    (bcra banco : ValidationResult) :
  tipoEmpleado c = tipoEmpleado c' ->
  tipoEmpleado c <> sin_tipo ->
  sueldoNeto c <= sueldoNeto c' ->
  Lib.calculateMaxAmount c bcra banco <= Lib.calculateMaxAmount c' bcra banco.
Proof. apply lib_amount_monotone. Qed.

(** X15, witness: 600,000 and 900,000, private sector. *)
Lemma X15_witness :
  Lib.calculateMaxAmount (applicant "30111222" 600000 privado "nacion" None)
    (Lib.classify (favourable_response "20301112220" "2025-01-01"))
    (banco_aceptado nacion)
  <= Lib.calculateMaxAmount (applicant "30111222" 900000 privado "nacion" None)
       (Lib.classify (favourable_response "20301112220" "2025-01-01"))
       (banco_aceptado nacion).
Proof.
  apply X15_lib_amount_monotone; [reflexivity|discriminate|cbn; lia].
Defined.

Example lib_amount_not_monotone_unset :
  Lib.calculateMaxAmount (applicant "30111222" 700000 sin_tipo "nacion" None)
    (Lib.classify (favourable_response "20301112220" "2025-01-01"))
    (banco_aceptado nacion) = 100000
  /\ Lib.calculateMaxAmount (applicant "30111222" 900000 sin_tipo "nacion" None)
       (Lib.classify (favourable_response "20301112220" "2025-01-01"))
       (banco_aceptado nacion) = 0.
Proof. split; reflexivity. Qed.

(* ================================================================== *)
(** * Properties: what an evaluation records and what it costs         *)
(* ================================================================== *)

Section EvaluationShape.
Variable svc : BCRAService.

Ltac shape :=
  do 2 eexists; split; [reflexivity|];
  unfold recorded_in_order, requires_review;
  cbn [detalles resultado montoMaximo motivoRechazo protecap bcra banco
       montoCalculado];
  cbn [no_evaluado plain success details field truthy];
  intuition (try congruence; try discriminate).

Lemma lib_evaluate_shape (c : ClienteData) (w : World) :
  exists e w',
    Lib.evaluateCliente svc c w = (Ok e, w')
    /\ recorded_in_order e
    /\ montoCalculado (detalles e) = montoMaximo e.
Proof.
  destruct (validateProtecap_run (dni c) w) as [p [Hp _]].
  destruct (lib_validateBCRA_run svc (dni c) (snd (sleep 1500 w)))
    as (b & w2 & Hb & _).
  destruct (validateBanco_lib_spec Lib.bancosHabilitados c w2)
    as (k & w3 & Hk & _).
  unfold Lib.evaluateCliente. rewrite income_stage_passes.
  destruct (500000 <=? sueldoNeto c); cbn [negb]; [|shape].
  unfold bind at 1. rewrite Hp.
  destruct (success p) eqn:Sp; cbn [negb]; [|shape].
  unfold bind at 1. rewrite Hb.
  destruct (success b) eqn:Sb; cbn [negb].
  - unfold bind at 1. unfold Lib.validateBanco. rewrite Hk.
    destruct (success k) eqn:Sk; cbn [negb]; shape.
  - destruct (truthy (field "requiresManualReview" (details b))) eqn:Rb; shape.
Qed.

Lemma alt_evaluate_shape (c : ClienteData) (w : World) :
  exists e w',
    Alt.evaluateCliente svc c w = (Ok e, w')
    /\ recorded_in_order e
    /\ fst (validateProtecap (dni c) w) = Ok (protecap (detalles e))
    /\ (montoCalculado (detalles e) = montoMaximo e
        \/ (montoCalculado (detalles e) = Some 0
            /\ resultado e = rechazado
            /\ motivoRechazo e
               = Some "No califica para monto mínimo de préstamo")).
Proof.
  destruct (validateProtecap_run (dni c) w) as [p [Hp _]].
  destruct (alt_validateBCRA_run svc (dni c) (snd (sleep 1500 w)))
    as (b & w2 & Hb & _).
  destruct (validateBanco_alt_spec Alt.bancosData c w2)
    as (k & w3 & Hk & _).
  unfold Alt.evaluateCliente, try_catch.
  unfold bind at 1. rewrite Hp. cbn [fst].
  destruct (success p) eqn:Sp; cbn [negb]; [|shape].
  unfold bind at 1. rewrite Hb.
  destruct (success b) eqn:Sb; cbn [negb].
  - unfold bind at 1. unfold Alt.validateBanco. rewrite Hk.
    destruct (success k) eqn:Sk; cbn [negb]; [|shape].
    destruct (Alt.calculateMaxAmount c b k =? 0) eqn:E0; shape.
  - destruct (truthy (field "requiresManualReview" (details b))) eqn:Rb; shape.
Qed.

(** Which world an evaluation of [src/lib/validation-service.ts] ends in:
    the one left by the last stage it ran. *)
Lemma lib_evaluate_world (c : ClienteData) (w : World) :
  exists p b w2 k w3,
    validateProtecap (dni c) w = (Ok p, snd (sleep 1500 w))
    /\ success p = negb (con_credito_activo (dni c))
    /\ Lib.validateBCRA svc (dni c) (snd (sleep 1500 w)) = (Ok b, w2)
    /\ Lib.validateBanco c w2 = (Ok k, w3)
    /\ snd (Lib.evaluateCliente svc c w)
       = (if sueldoNeto c <? 500000 then w
          else if negb (success p) then snd (sleep 1500 w)
          else if negb (success b) then w2
          else w3).
Proof.
  destruct (validateProtecap_run (dni c) w) as [p [Hp Hs]].
  destruct (lib_validateBCRA_run svc (dni c) (snd (sleep 1500 w)))
    as (b & w2 & Hb & _).
  destruct (validateBanco_lib_spec Lib.bancosHabilitados c w2)
    as (k & w3 & Hk & _).
  exists p, b, w2, k, w3. repeat (split; [assumption|]).
  unfold Lib.evaluateCliente, Lib.validateSueldoMinimo.
  destruct (sueldoNeto c <? 500000); cbn [success plain negb]; [reflexivity|].
  unfold bind at 1. rewrite Hp.
  destruct (success p); cbn [negb]; [|reflexivity].
  unfold bind at 1. rewrite Hb.
  destruct (success b); cbn [negb].
  - unfold bind at 1. unfold Lib.validateBanco. rewrite Hk.
    destruct (success k); reflexivity.
  - destruct (truthy (field "requiresManualReview" (details b))); reflexivity.
Qed.

(** The same for part_001, which has no income stage. *)
Lemma alt_evaluate_world (c : ClienteData) (w : World) :
  exists p b w2 k w3,
    validateProtecap (dni c) w = (Ok p, snd (sleep 1500 w))
    /\ success p = negb (con_credito_activo (dni c))
    /\ Alt.validateBCRA svc (dni c) (snd (sleep 1500 w)) = (Ok b, w2)
    /\ Alt.validateBanco c w2 = (Ok k, w3)
    /\ snd (Alt.evaluateCliente svc c w)
       = (if negb (success p) then snd (sleep 1500 w)
          else if negb (success b) then w2
          else w3).
Proof.
  destruct (validateProtecap_run (dni c) w) as [p [Hp Hs]].
  destruct (alt_validateBCRA_run svc (dni c) (snd (sleep 1500 w)))
    as (b & w2 & Hb & _).
  destruct (validateBanco_alt_spec Alt.bancosData c w2)
    as (k & w3 & Hk & _).
  exists p, b, w2, k, w3. repeat (split; [assumption|]).
  unfold Alt.evaluateCliente, try_catch.
  unfold bind at 1. rewrite Hp.
  destruct (success p); cbn [negb]; [|reflexivity].
  unfold bind at 1. rewrite Hb.
  destruct (success b); cbn [negb].
  - unfold bind at 1. unfold Alt.validateBanco. rewrite Hk.
    destruct (success k); cbn [negb]; [|reflexivity].
    destruct (Alt.calculateMaxAmount c b k =? 0); reflexivity.
  - destruct (truthy (field "requiresManualReview" (details b))); reflexivity.
Qed.

End EvaluationShape.

(** X16. Whatever the bureau client and the world, the evaluation that
    [evaluateCliente] returns has an amount exactly when its outcome is
    [aprobado] and a reason exactly when it is not; an approval records the
    three stages as passed and its amount as the calculated one; a stage
    that comes after a failed one is recorded as "No evaluado"; and the
    outcome is [pendiente] exactly when the recorded bureau result failed
    asking for a manual review. In [src/lib/validation-service.ts] the
    calculated amount is recorded exactly when there is an amount. In
    part_001 the delinquency result recorded is always the one the stage
    returned, so the catch-all of [evaluateCliente], which records "Error
    técnico" for every stage, is never taken; and an amount is calculated
    but not granted only when it is 0, the outcome then being [rechazado]. *)
Theorem X16_evaluation_records (svc : BCRAService) (c : ClienteData)
    (w : World) :
  (exists e w',
      Lib.evaluateCliente svc c w = (Ok e, w')
      /\ recorded_in_order e
      /\ montoCalculado (detalles e) = montoMaximo e)
  /\ (exists e w',
         Alt.evaluateCliente svc c w = (Ok e, w')
         /\ recorded_in_order e
         /\ fst (validateProtecap (dni c) w) = Ok (protecap (detalles e))
         /\ (montoCalculado (detalles e) = montoMaximo e
             \/ (montoCalculado (detalles e) = Some 0
                 /\ resultado e = rechazado
                 /\ motivoRechazo e
                    = Some "No califica para monto mínimo de préstamo"))).
Proof.
  split; [apply lib_evaluate_shape|apply alt_evaluate_shape].
Qed.

(** X17. The stages short-circuit. In [src/lib/validation-service.ts] an
    income below 500,000 ends the evaluation with nothing done: no wait, no
    request, no random draw. An applicant with an active credit in the
    delinquency registry costs the wait of 1500 ms of that stage and nothing
    else, in both services: the bureau and bank stages are not run. And when
    the bureau stage fails, the evaluation ends in the world that stage
    left: the bank stage is not run. *)
Theorem X17_stages_short_circuit (svc : BCRAService) (c : ClienteData)
    (w : World) :
  (sueldoNeto c < 500000 -> snd (Lib.evaluateCliente svc c w) = w)
  /\ (500000 <= sueldoNeto c -> con_credito_activo (dni c) = true ->
      snd (Lib.evaluateCliente svc c w) = snd (sleep 1500 w))
  /\ (con_credito_activo (dni c) = true ->
      snd (Alt.evaluateCliente svc c w) = snd (sleep 1500 w))
  /\ (forall b w2,
         500000 <= sueldoNeto c -> con_credito_activo (dni c) = false ->
         Lib.validateBCRA svc (dni c) (snd (sleep 1500 w)) = (Ok b, w2) ->
         success b = false ->
         snd (Lib.evaluateCliente svc c w) = w2)
  /\ (forall b w2,
         con_credito_activo (dni c) = false ->
         Alt.validateBCRA svc (dni c) (snd (sleep 1500 w)) = (Ok b, w2) ->
         success b = false ->
         snd (Alt.evaluateCliente svc c w) = w2).
Proof.
  destruct (lib_evaluate_world svc c w)
    as (p & b & w2 & k & w3 & _ & Hs & Hb & _ & Hw).
  destruct (alt_evaluate_world svc c w)
    as (p' & b' & w2' & k' & w3' & _ & Hs' & Hb' & _ & Hw').
  rewrite Hw, Hw', Hs, Hs'. clear Hw Hw' Hs Hs'.
  repeat split.
  - intro H. apply Z.ltb_lt in H. now rewrite H.
  - intros H Hc. apply Z.ltb_ge in H. now rewrite H, Hc.
  - intro Hc. now rewrite Hc.
  - intros b0 w0 H Hc Hb0 Sb. apply Z.ltb_ge in H. rewrite H, Hc.
    rewrite Hb in Hb0. injection Hb0 as -> ->. now rewrite Sb.
  - intros b0 w0 Hc Hb0 Sb. rewrite Hc.
    rewrite Hb' in Hb0. injection Hb0 as -> ->. now rewrite Sb.
Qed.

(** X18. In [src/lib/validation-service.ts] an evaluation is approved for an
    amount of 0 only when the bureau stage classified an answer without a
    situation-5 flag and the net income is exactly 500,000, or is above
    800,000 with the employment category unset. *)
Theorem X18_lib_zero_approvals (svc : BCRAService) (c : ClienteData)
    (w : World) :
  verdict (Lib.evaluateCliente svc c w) = Some (aprobado, Some 0, None) ->
  (sueldoNeto c = 500000
   \/ (800000 < sueldoNeto c /\ tipoEmpleado c = sin_tipo))
  /\ exists resp w2,
       Lib.validateBCRA svc (dni c) (snd (sleep 1500 w))
       = (Ok (Lib.classify resp), w2)
       /\ vr_situacion5 (Lib.classify resp) = Some false.
Proof.
  intro Hv.
  destruct (lib_evaluate_table svc c w)
    as (p & b & w2 & k & w3 & e & w' & Hp & Hb & Hk & He & Ht & Hm & _).
  unfold verdict, returned in Hv. rewrite He in Hv. cbn in Hv.
  injection Hv as Hr Hz _.
  specialize (Hm Hr). rewrite Hz in Hm. injection Hm as Hm.
  destruct (lib_amount_zero c b k) as [_ [H0 _]]. cbv zeta in H0.
  destruct (H0 (eq_sym Hm)) as [H5 Hcase]. clear H0.
  rewrite Hr in Ht. unfold outcome_table in Ht.
  destruct (500000 <=? sueldoNeto c) eqn:Ei; [|discriminate Ht].
  apply Z.leb_le in Ei. cbn [negb] in Ht.
  destruct (success p); [|discriminate Ht]. cbn [negb] in Ht.
  destruct (success b) eqn:Sb; cbn [negb] in Ht.
  - split; [destruct Hcase as [H|H]; [left; lia|right; exact H]|].
    destruct (lib_validateBCRA_run svc (dni c) (snd (sleep 1500 w)))
      as (b' & w2' & Hb' & _ & Hrev & Hcl).
    rewrite Hb in Hb'. injection Hb' as <- <-.
    destruct (requires_review b) eqn:Rb.
    + rewrite (Hrev eq_refl) in Sb. discriminate Sb.
    + destruct (Hcl eq_refl) as [resp ->].
      exists resp, w2. split; [exact Hb|].
      rewrite lib_classify_flag in *.
      destruct (inhabilitado resp || ngtb (situacion5 (resumen resp)) (Num 0));
        [now elim H5|reflexivity].
  - destruct (truthy (field "requiresManualReview" (details b)));
      discriminate Ht.
Qed.

(** X18, witness: an income of exactly 500,000, no credential. *)
Lemma X18_witness :
  (sueldoNeto (applicant "30111222" 500000 publico "nacion" None) = 500000
   \/ (800000 < sueldoNeto (applicant "30111222" 500000 publico "nacion" None)
       /\ tipoEmpleado (applicant "30111222" 500000 publico "nacion" None)
          = sin_tipo))
  /\ exists resp w2,
       Lib.validateBCRA serviceB
         (dni (applicant "30111222" 500000 publico "nacion" None))
         (snd (sleep 1500 offline))
       = (Ok (Lib.classify resp), w2)
       /\ vr_situacion5 (Lib.classify resp) = Some false.
Proof.
  apply (X18_lib_zero_approvals serviceB
           (applicant "30111222" 500000 publico "nacion" None) offline).
  vm_compute. reflexivity.
Defined.

(* ================================================================== *)
(** * Properties: what the stages cost                                 *)
(* ================================================================== *)

Section Costs.

Lemma only_waits_nil (w w' : World) : only_draws w w' -> only_waits [] w w'.
Proof.
  unfold only_draws, only_waits. cbn [map]. rewrite app_nil_r. tauto.
Qed.

Lemma only_waits_trans (a b : list Z) (w1 w2 w3 : World) :
  only_waits a w1 w2 -> only_waits b w2 w3 -> only_waits (a ++ b) w1 w3.
Proof.
  unfold only_waits.
  intros (A1 & A2 & A3 & A4 & A5 & A6 & A7 & A8)
         (B1 & B2 & B3 & B4 & B5 & B6 & B7 & B8).
  repeat split; try congruence; [|lia].
  rewrite B7, A7, map_app, app_assoc. reflexivity.
Qed.

Lemma only_waits_refl (w : World) : only_waits [] w w.
Proof. apply only_waits_nil, only_draws_refl. Qed.

Lemma sleep_only_waits (ms : Z) (w : World) :
  only_waits [ms] w (snd (sleep ms w)).
Proof.
  unfold only_waits, sleep, log_event. cbn. repeat split; lia.
Qed.

Ltac any_branch :=
  repeat match goal with
         | |- context [if ?c then _ else _] => destruct c
         end.

(** The bank stage waits 800 ms once, sends nothing and draws at most one
    random number. *)
Lemma lib_validateBanco_cost (tabla : list Banco.t) (c : ClienteData)
    (w : World) :
  let w' := snd (Lib.validateBancoEn tabla c w) in
  only_waits [800] w w'
  /\ (draws w' <= S (draws w))%nat
  /\ (draws w' = S (draws w) ->
      exists b, banco_de tabla c = Some b
                /\ Banco.id b = "macro"%string
                /\ truthy_string (numeroCuenta c) = true).
Proof.
  unfold Lib.validateBancoEn, bind, sleep, log_event, Math_random, ret,
    banco_de, only_waits.
  destruct (find (fun b => (Banco.id b =? bancoPagador c)%string) tabla)
    as [b|]; [|cbn; repeat split; try lia; intro; exfalso; lia].
  destruct (Banco.id b =? "macro")%string eqn:Em;
    destruct (truthy_string (numeroCuenta c)) eqn:Et;
    cbn [andb]; any_branch; cbn;
    repeat split; try lia; intro H; try (exfalso; lia);
    exists b; apply String.eqb_eq in Em; auto.
Qed.

Lemma alt_validateBanco_cost (tabla : list Banco.t) (c : ClienteData)
    (w : World) :
  let w' := snd (Alt.validateBancoEn tabla c w) in
  only_waits [800] w w'
  /\ (draws w' <= S (draws w))%nat
  /\ (draws w' = S (draws w) -> banco_de tabla c <> None).
Proof.
  unfold Alt.validateBancoEn, bind, sleep, log_event, Math_random, ret,
    banco_de, only_waits.
  destruct (find (fun b => (Banco.id b =? bancoPagador c)%string) tabla)
    as [b|]; [|cbn; repeat split; try lia; intro; exfalso; lia].
  any_branch; cbn; repeat split; try lia; discriminate.
Qed.

Lemma mock_deuda_draws (p : Z) (fecha : string) (i : nat) (w : World) :
  exists d w', BcraA.mock_deuda p fecha i w = (Ok d, w') /\ only_draws w w'.
Proof.
  unfold BcraA.mock_deuda, bind, ret.
  destruct (Z.of_nat i <? p).
  - destruct (Math_random_run w) as (w1 & E1 & O1 & _). rewrite E1.
    destruct (Math_random_run w1) as (w2 & E2 & O2 & _). rewrite E2.
    do 2 eexists. split; [reflexivity|].
    exact (only_draws_trans _ _ _ O1 O2).
  - destruct (Math_random_run w) as (w1 & E1 & O1 & _). rewrite E1.
    do 2 eexists. split; [reflexivity|exact O1].
Qed.

Lemma mapM_mock_deuda_draws (p : Z) (fecha : string) (l : list nat)
    (w : World) :
  exists ds w',
    mapM (BcraA.mock_deuda p fecha) l w = (Ok ds, w') /\ only_draws w w'.
Proof.
  revert w. induction l as [|i l IH]; intro w.
  - exists [], w. split; [reflexivity|apply only_draws_refl].
  - cbn [mapM]. unfold bind at 1.
    destruct (mock_deuda_draws p fecha i w) as (d & w1 & E1 & O1).
    rewrite E1. unfold bind at 1.
    destruct (IH w1) as (ds & w2 & E2 & O2).
    rewrite E2. exists (d :: ds), w2. split; [reflexivity|].
    exact (only_draws_trans _ _ _ O1 O2).
Qed.

(** The simulation of the first client always returns an answer, for the
    identifier it was given, and only draws random numbers. *)
Lemma generateMockResponse_A_draws (id : string) (w : World) :
  exists r w',
    BcraA.generateMockResponse id w = (Ok r, w')
    /\ only_draws w w' /\ cuit r = id.
Proof.
  unfold BcraA.generateMockResponse.
  unfold bind at 1.
  destruct (Math_random_run w) as (w1 & E1 & O1 & _). rewrite E1.
  unfold bind at 1, Date_now at 1.
  destruct (Qltb (random_script w (draws w)) (7 # 10)).
  - unfold ret. do 2 eexists. split; [reflexivity|]. split; [exact O1|].
    reflexivity.
  - unfold bind at 1.
    destruct (Math_random_run w1) as (w2 & E2 & O2 & _). rewrite E2.
    unfold bind at 1.
    match goal with
    | |- context [mapM (BcraA.mock_deuda ?p ?f) ?l w2] =>
        destruct (mapM_mock_deuda_draws p f l w2) as (ds & w3 & E3 & O3)
    end.
    rewrite E3.
    unfold bind at 1.
    destruct (Math_random_run w3) as (w4 & E4 & O4 & _). rewrite E4.
    unfold bind at 1.
    destruct (Math_random_run w4) as (w5 & E5 & O5 & _). rewrite E5.
    unfold bind at 1.
    destruct (Math_random_run w5) as (w6 & E6 & O6 & _). rewrite E6.
    unfold ret. do 2 eexists. split; [reflexivity|].
    split; [|reflexivity].
    exact (only_draws_trans _ _ _ O1
             (only_draws_trans _ _ _ O2
                (only_draws_trans _ _ _ O3
                   (only_draws_trans _ _ _ O4
                      (only_draws_trans _ _ _ O5 O6))))).
Qed.

(** The bureau stage on the first client: no request, no wait. *)
Lemma lib_validateBCRA_A_draws (id : string) (w : World) :
  exists b w',
    Lib.validateBCRA serviceA id w = (Ok b, w')
    /\ only_draws w w'
    /\ match derive_cuit serviceA id with
       | Ok q => exists r, b = Lib.classify r /\ cuit r = q
       | Throw _ => requires_review b = true /\ w' = w
       end.
Proof.
  unfold Lib.validateBCRA, try_catch, bind, lift, ret.
  fold (derive_cuit serviceA id).
  destruct (derive_cuit serviceA id) as [q|e].
  - cbn [svc_consultarDeudas svc_generateMockResponse serviceA].
    rewrite consultarDeudas_A_no_token.
    change ("TOKEN_NOT_CONFIGURED" =? "TOKEN_NOT_CONFIGURED")%string with true.
    cbv iota.
    destruct (generateMockResponse_A_draws q w) as (r & w' & E & O & Hc).
    rewrite E. do 2 eexists. split; [reflexivity|]. split; [exact O|].
    now exists r.
  - do 2 eexists. split; [reflexivity|].
    split; [apply only_draws_refl|]. split; reflexivity.
Qed.

Lemma alt_validateBCRA_A_draws (id : string) (w : World) :
  exists b w',
    Alt.validateBCRA serviceA id w = (Ok b, w')
    /\ only_draws w w'
    /\ match derive_cuit serviceA id with
       | Ok q => exists r, b = Alt.classify r /\ cuit r = q
       | Throw _ => requires_review b = true /\ w' = w
       end.
Proof.
  unfold Alt.validateBCRA, try_catch, bind, lift, ret.
  fold (derive_cuit serviceA id).
  destruct (derive_cuit serviceA id) as [q|e].
  - cbn [svc_consultarDeudas svc_generateMockResponse serviceA].
    rewrite consultarDeudas_A_no_token.
    change ("TOKEN_NOT_CONFIGURED" =? "TOKEN_NOT_CONFIGURED")%string with true.
    cbv iota.
    destruct (generateMockResponse_A_draws q w) as (r & w' & E & O & Hc).
    rewrite E. do 2 eexists. split; [reflexivity|]. split; [exact O|].
    now exists r.
  - do 2 eexists. split; [reflexivity|].
    split; [apply only_draws_refl|]. split; reflexivity.
Qed.

End Costs.

Lemma derive_cuit_A_throw (d m : string) :
  derive_cuit serviceA d = Throw m -> m = "DNI_INVALID_LENGTH"%string.
Proof.
  unfold derive_cuit. cbn [svc_validateCuit svc_dniToCuit serviceA].
  destruct (BcraA.validateCuit d); [discriminate|].
  unfold BcraA.dniToCuit.
  match goal with |- context [if ?c then _ else _] => destruct c end;
    congruence.
Qed.

(** X19. With the first client, whose [getAuthToken] returns null, an
    evaluation never sends a request to the registry, whatever the
    environment holds: it only waits and draws random numbers. The waits are
    none (in [src/lib/validation-service.ts], when the income stage fails),
    1500 ms, or 1500 ms and then 800 ms. The outcome is [pendiente] exactly
    when the income and delinquency stages pass and no tax identifier can be
    derived from the applicant's identifier, [dniToCuit] throwing
    DNI_INVALID_LENGTH. *)
Theorem X19_first_client_sends_nothing (c : ClienteData) (w : World) :
  (exists e w' ms,
      Lib.evaluateCliente serviceA c w = (Ok e, w')
      /\ only_waits ms w w'
      /\ (ms = [] \/ ms = [1500] \/ ms = [1500; 800])
      /\ (resultado e = pendiente <->
          500000 <= sueldoNeto c
          /\ con_credito_activo (dni c) = false
          /\ derive_cuit serviceA (dni c) = Throw "DNI_INVALID_LENGTH"))
  /\ (exists e w' ms,
         Alt.evaluateCliente serviceA c w = (Ok e, w')
         /\ only_waits ms w w'
         /\ (ms = [1500] \/ ms = [1500; 800])
         /\ (resultado e = pendiente <->
             con_credito_activo (dni c) = false
             /\ derive_cuit serviceA (dni c) = Throw "DNI_INVALID_LENGTH")).
Proof.
  pose proof (sleep_only_waits 1500 w) as S1.
  split.
  - destruct (lib_evaluate_table serviceA c w)
      as (p & b & w2 & k & w3 & e & w' & Hp & Hb & Hk & He & Ht & _).
    destruct (lib_evaluate_world serviceA c w)
      as (p1 & b1 & w21 & k1 & w31 & Hp1 & Hs & Hb1 & Hk1 & Hw).
    rewrite Hp in Hp1. injection Hp1 as <-.
    rewrite Hb in Hb1. injection Hb1 as <- <-.
    rewrite Hk in Hk1. injection Hk1 as <- <-.
    rewrite He in Hw. cbn [snd] in Hw.
    destruct (lib_validateBCRA_A_draws (dni c) (snd (sleep 1500 w)))
      as (b2 & w22 & Hb2 & O & Hm).
    rewrite Hb in Hb2. injection Hb2 as <- <-.
    destruct (lib_validateBCRA_run serviceA (dni c) (snd (sleep 1500 w)))
      as (b3 & w23 & Hb3 & _ & Hrev & _).
    rewrite Hb in Hb3. injection Hb3 as <- <-.
    destruct (lib_validateBanco_cost Lib.bancosHabilitados c w2) as [S3 _].
    unfold Lib.validateBanco in Hk. rewrite Hk in S3. cbn [snd] in S3.
    exists e, w'.
    assert (Hpend : resultado e = pendiente <->
                    500000 <= sueldoNeto c
                    /\ con_credito_activo (dni c) = false
                    /\ derive_cuit serviceA (dni c)
                       = Throw "DNI_INVALID_LENGTH").
    { rewrite Ht, (outcome_table_pendiente _ _ _ _ _ _ Hrev), Hs.
      rewrite Z.leb_le.
      destruct (derive_cuit serviceA (dni c)) as [q|m] eqn:Ed.
      - destruct Hm as (r & -> & _). rewrite lib_classify_no_review.
        intuition discriminate.
      - destruct Hm as [Hr _]. rewrite Hr.
        rewrite (derive_cuit_A_throw _ _ Ed).
        destruct (con_credito_activo (dni c)); cbn [negb];
          intuition discriminate. }
    destruct (sueldoNeto c <? 500000).
    + exists []. subst w'. split; [exact He|].
      split; [apply only_waits_refl|]. split; [now left|exact Hpend].
    + destruct (success p); cbn [negb] in Hw.
      * destruct (success b); cbn [negb] in Hw; subst w'.
        -- exists [1500; 800]. split; [exact He|].
           split; [|split; [now right; right|exact Hpend]].
           exact (only_waits_trans _ _ _ _ _ S1
                    (only_waits_trans _ _ _ _ _ (only_waits_nil _ _ O) S3)).
        -- exists [1500]. split; [exact He|].
           split; [|split; [now right; left|exact Hpend]].
           exact (only_waits_trans _ _ _ _ _ S1 (only_waits_nil _ _ O)).
      * subst w'. exists [1500]. split; [exact He|].
        split; [exact S1|]. split; [now right; left|exact Hpend].
  - destruct (alt_evaluate_table serviceA c w)
      as (p & b & w2 & k & w3 & e & w' & Hp & Hb & Hk & He & Ht & _).
    destruct (alt_evaluate_world serviceA c w)
      as (p1 & b1 & w21 & k1 & w31 & Hp1 & Hs & Hb1 & Hk1 & Hw).
    rewrite Hp in Hp1. injection Hp1 as <-.
    rewrite Hb in Hb1. injection Hb1 as <- <-.
    rewrite Hk in Hk1. injection Hk1 as <- <-.
    rewrite He in Hw. cbn [snd] in Hw.
    destruct (alt_validateBCRA_A_draws (dni c) (snd (sleep 1500 w)))
      as (b2 & w22 & Hb2 & O & Hm).
    rewrite Hb in Hb2. injection Hb2 as <- <-.
    destruct (alt_validateBCRA_run serviceA (dni c) (snd (sleep 1500 w)))
      as (b3 & w23 & Hb3 & _ & Hrev & _).
    rewrite Hb in Hb3. injection Hb3 as <- <-.
    destruct (alt_validateBanco_cost Alt.bancosData c w2) as [S3 _].
    unfold Alt.validateBanco in Hk. rewrite Hk in S3. cbn [snd] in S3.
    exists e, w'.
    assert (Hpend : resultado e = pendiente <->
                    con_credito_activo (dni c) = false
                    /\ derive_cuit serviceA (dni c)
                       = Throw "DNI_INVALID_LENGTH").
    { rewrite Ht, (outcome_table_pendiente _ _ _ _ _ _ Hrev), Hs.
      destruct (derive_cuit serviceA (dni c)) as [q|m] eqn:Ed.
      - destruct Hm as (r & -> & _). rewrite alt_classify_no_review.
        intuition discriminate.
      - destruct Hm as [Hr _]. rewrite Hr.
        rewrite (derive_cuit_A_throw _ _ Ed).
        destruct (con_credito_activo (dni c)); cbn [negb];
          intuition discriminate. }
    destruct (success p); cbn [negb] in Hw.
    + destruct (success b); cbn [negb] in Hw; subst w'.
      * exists [1500; 800]. split; [exact He|].
        split; [|split; [now right|exact Hpend]].
        exact (only_waits_trans _ _ _ _ _ S1
                 (only_waits_trans _ _ _ _ _ (only_waits_nil _ _ O) S3)).
      * exists [1500]. split; [exact He|].
        split; [|split; [now left|exact Hpend]].
        exact (only_waits_trans _ _ _ _ _ S1 (only_waits_nil _ _ O)).
    + subst w'. exists [1500]. split; [exact He|].
      split; [exact S1|]. split; [now left|exact Hpend].
Qed.

Section HttpErrors.

Lemma substring_all (x : string) : substring 0 (String.length x) x = x.
Proof. induction x as [|a x IH]; [reflexivity|]. cbn. now rewrite IH. Qed.

Lemma technical_failure_http (x : string) :
  Alt.technical_failure ("HTTP_ERROR_" ++ x)
  = plain false
      ("Error HTTP " ++ x ++ " en consulta BCRA - Pendiente revisión manual")
      (Some [("error", VStr "http_error"); ("statusCode", VStr x);
             ("requiresManualReview", VBool true)]).
Proof.
  unfold Alt.technical_failure.
  change ("HTTP_ERROR_" ++ x =? "TIMEOUT")%string with false.
  change ("HTTP_ERROR_" ++ x =? "MAX_RETRIES_EXCEEDED")%string with false.
  assert (Hp : startsWith "HTTP_ERROR_" ("HTTP_ERROR_" ++ x) = true).
  { unfold startsWith. apply prefix_correct. cbn. now destruct x. }
  rewrite Hp.
  assert (Hs : substring 11 (String.length ("HTTP_ERROR_" ++ x) - 11)
                 ("HTTP_ERROR_" ++ x) = x).
  { cbn. rewrite Nat.sub_0_r. apply substring_all. }
  now rewrite Hs.
Qed.

Lemma attempt_error_status (s : Z) (body : result ApiResponse) :
  s < 200 \/ 299 < s ->
  attempt_error (Responded s body) = Some ("HTTP_ERROR_" ++ string_of_Z s).
Proof.
  intro H. unfold attempt_error.
  destruct (200 <=? s) eqn:A; destruct (s <=? 299) eqn:B; try reflexivity.
  apply Z.leb_le in A. apply Z.leb_le in B. lia.
Qed.

End HttpErrors.

(** X20. In live mode, when the first two attempts fail and the registry
    answers the third with a status [s] outside 200-299, the bureau stage of
    part_001 reports that status: its message is "Error HTTP s en consulta
    BCRA - Pendiente revisión manual" and its details carry the error
    "http_error", the status code in decimal and the manual-review flag. The
    bureau stage of [src/lib/validation-service.ts] reports the same fault
    under its one message for every error, with the raw HTTP_ERROR_s as the
    error detail. Both have made three requests. *)
Theorem X20_http_status_reported (dni q t e1 e2 : string) (s : Z)
    (body : result ApiResponse) (w : World) :
  BcraB.getAuthToken w = (Ok (Some t), w) ->
  derive_cuit serviceB dni = Ok q ->
  attempt_error (fetch_script w (fetches w)) = Some e1 ->
  attempt_error (fetch_script w (S (fetches w))) = Some e2 ->
  fetch_script w (S (S (fetches w))) = Responded s body ->
  s < 200 \/ 299 < s ->
  exists w',
    Alt.validateBCRA serviceB dni w
    = (Ok (plain false
             ("Error HTTP " ++ string_of_Z s
                ++ " en consulta BCRA - Pendiente revisión manual")
             (Some [("error", VStr "http_error");
                    ("statusCode", VStr (string_of_Z s));
                    ("requiresManualReview", VBool true)])), w')
    /\ Lib.validateBCRA serviceB dni w
       = (Ok (plain false
                "Error técnico en consulta BCRA - Pendiente revisión manual"
                (Some [("error", VStr ("HTTP_ERROR_" ++ string_of_Z s));
                       ("requiresManualReview", VBool true)])), w')
    /\ fetches w' = S (S (S (fetches w))).
Proof.
  intros Ht Hd H1 H2 H3 Hs.
  assert (H3' : attempt_error (fetch_script w (S (S (fetches w))))
                = Some ("HTTP_ERROR_" ++ string_of_Z s)).
  { rewrite H3. now apply attempt_error_status. }
  destruct (attempts_all_fail BcraB.TIMEOUT_MS q t w e1 e2 _ H1 H2 H3')
    as (w' & E & _ & F & _).
  assert (Hq : BcraB.consultarDeudas q w
               = (Throw ("HTTP_ERROR_" ++ string_of_Z s), w')).
  { unfold BcraB.consultarDeudas, bind. rewrite Ht. exact E. }
  exists w'. split; [|split; [|exact F]].
  - unfold Alt.validateBCRA, try_catch, bind, lift, ret.
    fold (derive_cuit serviceB dni). rewrite Hd.
    cbn [svc_consultarDeudas serviceB]. rewrite Hq.
    change ("HTTP_ERROR_" ++ string_of_Z s =? "TOKEN_NOT_CONFIGURED")%string
      with false.
    cbv iota. now rewrite technical_failure_http.
  - unfold Lib.validateBCRA, try_catch, bind, lift, ret.
    fold (derive_cuit serviceB dni). rewrite Hd.
    cbn [svc_consultarDeudas serviceB]. rewrite Hq.
    change ("HTTP_ERROR_" ++ string_of_Z s =? "TOKEN_NOT_CONFIGURED")%string
      with false.
    reflexivity.
Qed.

(** X20, witness: a registry that answers 503 to every request. *)
Lemma X20_witness :
  exists w',
    Alt.validateBCRA serviceB "30111222" live_503
    = (Ok (plain false
             ("Error HTTP " ++ string_of_Z 503
                ++ " en consulta BCRA - Pendiente revisión manual")
             (Some [("error", VStr "http_error");
                    ("statusCode", VStr (string_of_Z 503));
                    ("requiresManualReview", VBool true)])), w')
    /\ Lib.validateBCRA serviceB "30111222" live_503
       = (Ok (plain false
                "Error técnico en consulta BCRA - Pendiente revisión manual"
                (Some [("error", VStr ("HTTP_ERROR_" ++ string_of_Z 503));
                       ("requiresManualReview", VBool true)])), w')
    /\ fetches w' = S (S (S (fetches live_503))).
Proof.
  apply (X20_http_status_reported "30111222" "20301112220" "secret"
           "HTTP_ERROR_503" "HTTP_ERROR_503" 503 (Throw "Unexpected token")
           live_503).
  - reflexivity.
  - reflexivity.
  - reflexivity.
  - reflexivity.
  - reflexivity.
  - right. lia.
Defined.

(** X21. The bank stage always returns a result, after one wait of 800 ms,
    without any request and with at most one random draw. A successful
    result is exactly the acceptance of the bank of the table whose id is
    the applicant's payer bank, and carries that bank. In
    [src/lib/validation-service.ts] a draw is made only for "macro" with an
    account number; in part_001 every acceptance has passed a draw, and no
    draw is made for a bank that is not in the table. *)
Theorem X21_bank_stage_result (tabla : list Banco.t) (c : ClienteData)
    (w : World) :
  (exists r w',
      Lib.validateBancoEn tabla c w = (Ok r, w')
      /\ only_waits [800] w w'
      /\ (draws w' <= S (draws w))%nat
      /\ (draws w' = S (draws w) ->
          exists b, banco_de tabla c = Some b
                    /\ Banco.id b = "macro"%string
                    /\ truthy_string (numeroCuenta c) = true)
      /\ (success r = true ->
          exists b, banco_de tabla c = Some b
                    /\ In b tabla
                    /\ Banco.id b = bancoPagador c
                    /\ r = banco_aceptado b))
  /\ (exists r w',
         Alt.validateBancoEn tabla c w = (Ok r, w')
         /\ only_waits [800] w w'
         /\ (draws w' <= S (draws w))%nat
         /\ (draws w' = S (draws w) -> banco_de tabla c <> None)
         /\ (success r = true ->
             draws w' = S (draws w)
             /\ exists b, banco_de tabla c = Some b
                          /\ In b tabla
                          /\ Banco.id b = bancoPagador c
                          /\ r = banco_aceptado b)).
Proof.
  split.
  - unfold Lib.validateBancoEn, bind, sleep, log_event, Math_random, ret,
      banco_de, only_waits, banco_aceptado.
    destruct (find (fun b => (Banco.id b =? bancoPagador c)%string) tabla)
      as [b|] eqn:Ef.
    + apply find_some in Ef. destruct Ef as [Hin Eid].
      apply String.eqb_eq in Eid.
      destruct (Banco.id b =? "macro")%string eqn:Em;
        destruct (truthy_string (numeroCuenta c)) eqn:Et;
        cbn [andb];
        repeat match goal with
               | |- context [if ?c then _ else _] => destruct c
               end;
        do 2 eexists; (split; [reflexivity|]); cbn;
        repeat split; try lia; try discriminate;
        intro H; try (exfalso; lia);
        exists b; try apply String.eqb_eq in Em; auto.
    + do 2 eexists. split; [reflexivity|]. cbn.
      repeat split; try lia; discriminate.
  - unfold Alt.validateBancoEn, bind, sleep, log_event, Math_random, ret,
      banco_de, only_waits, banco_aceptado.
    destruct (find (fun b => (Banco.id b =? bancoPagador c)%string) tabla)
      as [b|] eqn:Ef.
    + apply find_some in Ef. destruct Ef as [Hin Eid].
      apply String.eqb_eq in Eid.
      repeat match goal with
             | |- context [if ?c then _ else _] => destruct c
             end;
        do 2 eexists; (split; [reflexivity|]); cbn;
        repeat split; try lia; try discriminate.
      exists b. auto.
    + do 2 eexists. split; [reflexivity|]. cbn.
      repeat split; try lia; discriminate.
Qed.

(* ================================================================== *)
(** * Properties: the delinquency stage                                *)
(* ================================================================== *)

(** X22. The delinquency stage always returns a result, after one wait of
    1500 ms and nothing else. It fails exactly for the identifiers
    "12345678" and "11223344", compared as strings with the registry's
    entries, and then reports the debt the registry holds (50,000 and
    25,000); a result that passes reports a debt of 0. An identifier written
    with separators, such as "12.345.678", therefore passes. *)
Theorem X22_validateProtecap_registry (d : string) (w : World) :
  exists r,
    validateProtecap d w = (Ok r, snd (sleep 1500 w))
    /\ (success r = false <-> d = "12345678" \/ d = "11223344")
    /\ (d = "12345678" -> field "montoDeuda" (details r) = Some (VInt 50000))
    /\ (d = "11223344" -> field "montoDeuda" (details r) = Some (VInt 25000))
    /\ (success r = true ->
        field "montoDeuda" (details r) = Some (VInt 0)
        /\ message r = "Cliente sin créditos activos en Protecap").
Proof.
  unfold validateProtecap, bind, sleep, log_event, ret. cbn [snd].
  unfold clientesMorosos. cbn [find Moroso.dni Moroso.tieneCredito
                               Moroso.montoDeuda].
  destruct ("12345678" =? d)%string eqn:E1;
    [|destruct ("87654321" =? d)%string eqn:E2;
      [|destruct ("11223344" =? d)%string eqn:E3]];
    repeat match goal with
           | H : (_ =? _)%string = true |- _ =>
               apply String.eqb_eq in H; subst d
           | H : (_ =? _)%string = false |- _ => apply String.eqb_neq in H
           end;
    eexists; (split; [reflexivity|]); cbn;
    repeat split; try discriminate; try reflexivity; try tauto;
    try (intros [H|H]; congruence); intro H; congruence.
Qed.

(* ================================================================== *)
(** * Properties: the form and the result page                         *)
(* ================================================================== *)

Section Callers.
Variable svc : BCRAService.

(** What an approval of [src/lib/validation-service.ts] records. *)
Lemma lib_evaluate_approved (c : ClienteData) (w : World)
    (e : EvaluationResult) (w' : World) :
  Lib.evaluateCliente svc c w = (Ok e, w') ->
  resultado e = aprobado ->
  500000 <= sueldoNeto c
  /\ (exists resp, bcra (detalles e) = Lib.classify resp)
  /\ montoMaximo e
     = Some (Lib.calculateMaxAmount c (bcra (detalles e)) (banco (detalles e))).
Proof.
  destruct (validateProtecap_run (dni c) w) as [p [Hp _]].
  destruct (lib_validateBCRA_run svc (dni c) (snd (sleep 1500 w)))
    as (b & w2 & Hb & _ & Hrev & Hcl).
  destruct (validateBanco_lib_spec Lib.bancosHabilitados c w2)
    as (k & w3 & Hk & _).
  unfold Lib.evaluateCliente. rewrite income_stage_passes.
  destruct (500000 <=? sueldoNeto c) eqn:Ei; cbn [negb].
  2:{ unfold ret. intros H Ha. injection H as <- _. discriminate Ha. }
  apply Z.leb_le in Ei.
  unfold bind at 1. rewrite Hp.
  destruct (success p); cbn [negb].
  2:{ unfold ret. intros H Ha. injection H as <- _. discriminate Ha. }
  unfold bind at 1. rewrite Hb.
  destruct (success b) eqn:Sb; cbn [negb].
  - unfold bind at 1. unfold Lib.validateBanco. rewrite Hk.
    destruct (success k); cbn [negb]; unfold ret; intros H Ha;
      injection H as <- _; [|discriminate Ha].
    cbn [detalles bcra banco montoMaximo].
    split; [exact Ei|]. split; [|reflexivity].
    destruct (requires_review b) eqn:Rb.
    + discriminate (Hrev eq_refl).
    + exact (Hcl eq_refl).
  - destruct (truthy (field "requiresManualReview" (details b)));
      unfold ret; intros H Ha; injection H as <- _; discriminate Ha.
Qed.

Lemma lib_evaluate_amounts (c : ClienteData) (w : World) :
  exists e w',
    Lib.evaluateCliente svc c w = (Ok e, w')
    /\ (resultado e = aprobado ->
        montoMaximo e = Some 0 \/ montoMaximo e = Some 100000
        \/ montoMaximo e = Some 150000 \/ montoMaximo e = Some 200000)
    /\ (resultado e <> aprobado -> montoMaximo e = None).
Proof.
  destruct (lib_evaluate_shape svc c w) as (e & w' & He & Hs & _).
  exists e, w'. split; [exact He|]. split.
  - intro Ha.
    destruct (lib_evaluate_approved c w e w' He Ha) as (_ & _ & ->).
    destruct (lib_amount_zero c (bcra (detalles e)) (banco (detalles e)))
      as [[H|[H|[H|H]]] _]; cbv zeta in H; rewrite H; tauto.
  - intro Hn. destruct Hs as [Hm _].
    destruct (montoMaximo e); [|reflexivity].
    elim Hn. apply Hm. discriminate.
Qed.

Lemma alt_evaluate_amounts (c : ClienteData) (w : World) :
  exists e w',
    Alt.evaluateCliente svc c w = (Ok e, w')
    /\ (resultado e = aprobado ->
        montoMaximo e = Some 100000
        \/ montoMaximo e = Some 150000 \/ montoMaximo e = Some 200000)
    /\ (resultado e <> aprobado -> montoMaximo e = None).
Proof.
  destruct (alt_evaluate_table svc c w)
    as (p & b & w2 & k & w3 & e & w' & _ & _ & _ & He & _ & Hm & _).
  destruct (alt_evaluate_shape svc c w) as (e1 & w1 & He1 & Hs & _).
  rewrite He in He1. injection He1 as <- <-.
  exists e, w'. split; [exact He|]. split.
  - intro Ha.
    destruct (alt_aprobado_monto_positivo svc c w e w' He Ha)
      as (m & Hm1 & Hpos).
    rewrite (Hm Ha) in Hm1. injection Hm1 as Hm1.
    rewrite (Hm Ha).
    destruct (alt_amount_zero c b k) as [[H|[H|[H|H]]] _]; cbv zeta in H;
      rewrite H in *; try tauto. lia.
  - intro Hn. destruct Hs as [Hx _].
    destruct (montoMaximo e); [|reflexivity].
    elim Hn. apply Hx. discriminate.
Qed.

End Callers.

(** X23. The amounts the result page offers. For the evaluation that
    [evaluateCliente] returns, [amountOptions] is empty or one of
    50,000/75,000/100,000, 75,000/112,500/150,000 and
    100,000/150,000/200,000 (half, three quarters and the whole of the
    amount), and the selectors are rendered exactly when it is not empty.
    With the service of part_001 the options are there exactly when the
    outcome is [aprobado]. With [src/lib/validation-service.ts] an approval
    for an amount of 0 has no option to select, and its contact button,
    disabled while the selected amount is 0, stays disabled. An outcome
    other than [aprobado] has no options and never disables the button. *)
Theorem X23_result_page_options (svc : BCRAService) (c : ClienteData)
    (w : World) :
  (exists e w',
      Lib.evaluateCliente svc c w = (Ok e, w')
      /\ (ResultPage.amountOptions e = []
          \/ ResultPage.amountOptions e = [50000; 75000; 100000]
          \/ ResultPage.amountOptions e = [75000; 112500; 150000]
          \/ ResultPage.amountOptions e = [100000; 150000; 200000])
      /\ (ResultPage.shows_selectors e = true <->
          ResultPage.amountOptions e <> [])
      /\ (resultado e = aprobado -> montoMaximo e = Some 0 ->
          ResultPage.amountOptions e = []
          /\ forall n, ResultPage.contact_disabled e 0 n = true)
      /\ (resultado e <> aprobado ->
          ResultPage.amountOptions e = []
          /\ forall a n, ResultPage.contact_disabled e a n = false))
  /\ (exists e w',
         Alt.evaluateCliente svc c w = (Ok e, w')
         /\ (ResultPage.amountOptions e = []
             \/ ResultPage.amountOptions e = [50000; 75000; 100000]
             \/ ResultPage.amountOptions e = [75000; 112500; 150000]
             \/ ResultPage.amountOptions e = [100000; 150000; 200000])
         /\ (ResultPage.shows_selectors e = true <->
             ResultPage.amountOptions e <> [])
         /\ (resultado e = aprobado <-> ResultPage.amountOptions e <> [])
         /\ (resultado e <> aprobado ->
             forall a n, ResultPage.contact_disabled e a n = false)).
Proof.
  split.
  - destruct (lib_evaluate_amounts svc c w) as (e & w' & He & Ha & Hn).
    exists e, w'. split; [exact He|].
    unfold ResultPage.amountOptions, ResultPage.shows_selectors,
      ResultPage.contact_disabled.
    destruct (resultado e) eqn:Hr.
    + destruct (Ha eq_refl) as [H|[H|[H|H]]]; rewrite H; vm_compute;
        repeat split; try tauto; try discriminate; try congruence;
        intros; try reflexivity; try discriminate; try congruence.
    + rewrite (Hn ltac:(discriminate)).
      repeat split; try tauto; try discriminate; try congruence.
    + rewrite (Hn ltac:(discriminate)).
      repeat split; try tauto; try discriminate; try congruence.
  - destruct (alt_evaluate_amounts svc c w) as (e & w' & He & Ha & Hn).
    exists e, w'. split; [exact He|].
    unfold ResultPage.amountOptions, ResultPage.shows_selectors,
      ResultPage.contact_disabled.
    destruct (resultado e) eqn:Hr.
    + destruct (Ha eq_refl) as [H|[H|H]]; rewrite H; vm_compute;
        repeat split; try tauto; try discriminate; try congruence;
        intros; try reflexivity; try discriminate; try congruence.
    + rewrite (Hn ltac:(discriminate)).
      repeat split; try tauto; try discriminate; try congruence.
    + rewrite (Hn ltac:(discriminate)).
      repeat split; try tauto; try discriminate; try congruence.
Qed.

(** X24. Submitting the form. [handleSubmit] sets the loading flag, hands
    to [onEvaluationComplete] the evaluation that [evaluateCliente]
    returned, and clears the flag: its [catch] block, which would hand over
    a technical-error result, is never taken. When the form is valid (the
    condition that enables the submit button), the employment category is
    set and the income is positive, so that an approval is for an amount of
    0 exactly when the income is 500,000 and the bureau result has no
    situation-5 flag. *)
Theorem X24_form_submission (svc : BCRAService) (c : ClienteData)
    (w : World) :
  Form.isFormValid c = true ->
  exists e w',
    Lib.evaluateCliente svc c w = (Ok e, w')
    /\ Form.handleSubmit svc c w
       = (Ok [Form.setIsLoading true; Form.onEvaluationComplete e;
              Form.setIsLoading false], w')
    /\ tipoEmpleado c <> sin_tipo
    /\ 0 < sueldoNeto c
    /\ (resultado e = aprobado ->
        exists m,
          montoMaximo e = Some m
          /\ (m = 0 <->
              sueldoNeto c = 500000
              /\ vr_situacion5 (bcra (detalles e)) = Some false)).
Proof.
  intro Hv.
  destruct (lib_evaluate_shape svc c w) as (e & w' & He & _).
  exists e, w'. split; [exact He|].
  split.
  { unfold Form.handleSubmit, try_catch, bind, ret. rewrite He. reflexivity. }
  unfold Form.isFormValid in Hv.
  repeat match type of Hv with
         | _ && _ = true => apply andb_prop in Hv; destruct Hv as [Hv ?]
         end.
  assert (Ht : tipoEmpleado c <> sin_tipo).
  { intro E. rewrite E in *. discriminate. }
  split; [exact Ht|]. split; [now apply Z.ltb_lt|].
  intro Ha.
  destruct (lib_evaluate_approved svc c w e w' He Ha)
    as (Hi & (resp & Hc) & Hm).
  eexists. split; [exact Hm|].
  destruct (lib_amount_zero c (bcra (detalles e)) (banco (detalles e)))
    as [_ Hz].
  cbv zeta in Hz. rewrite Hz, Hc, lib_classify_flag.
  destruct (inhabilitado resp || ngtb (situacion5 (resumen resp)) (Num 0));
    split.
  - intros [Hx _]. now elim Hx.
  - intros [_ Hx]. discriminate Hx.
  - intros [_ [Hx|[_ Hx]]]; [split; [lia|reflexivity]|contradiction].
  - intros [Hx _]. split; [discriminate|left; lia].
Qed.

(** X24, witness: a valid form with an income of exactly 500,000. *)
Lemma X24_witness :
  exists e w',
    Lib.evaluateCliente serviceB
      (applicant "30111222" 500000 publico "nacion" None) offline
    = (Ok e, w')
    /\ Form.handleSubmit serviceB
         (applicant "30111222" 500000 publico "nacion" None) offline
       = (Ok [Form.setIsLoading true; Form.onEvaluationComplete e;
              Form.setIsLoading false], w')
    /\ tipoEmpleado (applicant "30111222" 500000 publico "nacion" None)
       <> sin_tipo
    /\ 0 < sueldoNeto (applicant "30111222" 500000 publico "nacion" None)
    /\ (resultado e = aprobado ->
        exists m,
          montoMaximo e = Some m
          /\ (m = 0 <->
              sueldoNeto (applicant "30111222" 500000 publico "nacion" None)
              = 500000
              /\ vr_situacion5 (bcra (detalles e)) = Some false)).
Proof.
  apply (X24_form_submission serviceB
           (applicant "30111222" 500000 publico "nacion" None) offline).
  reflexivity.
Defined.

(* ================================================================== *)
(** * Properties: the progress bar                                     *)
(* ================================================================== *)

Section Clamp.

Lemma Qltb_lt (a b : Q) : Qltb a b = true <-> (a < b)%Q.
Proof.
  unfold Qltb. rewrite negb_true_iff. split.
  - intro H. apply Qnot_le_lt. intro L.
    apply Qle_bool_iff in L. congruence.
  - intro H. destruct (Qle_bool b a) eqn:E; [|reflexivity].
    apply Qle_bool_iff in E. elim (Qlt_not_le _ _ H E).
Qed.

Lemma Qltb_ge (a b : Q) : Qltb a b = false <-> (b <= a)%Q.
Proof.
  unfold Qltb. rewrite negb_false_iff. apply Qle_bool_iff.
Qed.

Lemma clamp_range (x : Q) :
  (0 <= Math_min (Math_max x 0) 100)%Q
  /\ (Math_min (Math_max x 0) 100 <= 100)%Q.
Proof.
  unfold Math_min, Math_max.
  destruct (Qltb x 0) eqn:A.
  - change (Qltb 100 0) with false. cbv iota. split; discriminate.
  - apply Qltb_ge in A.
    destruct (Qltb 100 x) eqn:B.
    + split; discriminate.
    + apply Qltb_ge in B. split; assumption.
Qed.

Lemma Math_round_range (p : Q) :
  (0 <= p)%Q -> (p <= 100)%Q -> 0 <= Math_round p <= 100.
Proof.
  intros H0 H1. unfold Math_round. split.
  - change 0 with (Qfloor (0 + (1 # 2))).
    apply Qfloor_resp_le. now apply Qplus_le_l.
  - change 100 with (Qfloor (100 + (1 # 2))).
    apply Qfloor_resp_le. now apply Qplus_le_l.
Qed.

End Clamp.

(** X25. The width the progress bar draws, for finite [value] and [max]:
    it is NaN exactly when both are 0, and otherwise lies between 0 and 100,
    whatever the two are; its rounded label then lies between 0 and 100 as
    well. For a positive [max] it is 100 as soon as [value] reaches [max],
    and 0 when [value] is 0 or negative. *)
Theorem X25_progress_bar_clamped (value max : Q) :
  (ProgressBar.percentage value max = RNaN <-> (value == 0 /\ max == 0)%Q)
  /\ (forall p,
         ProgressBar.percentage value max = Real p ->
         (0 <= p)%Q /\ (p <= 100)%Q
         /\ (exists l, ProgressBar.label value max = Num l /\ 0 <= l <= 100)
         /\ ((0 < max)%Q -> (max <= value)%Q -> (p == 100)%Q)
         /\ ((0 < max)%Q -> (value <= 0)%Q -> (p == 0)%Q)).
Proof.
  unfold ProgressBar.label, ProgressBar.percentage.
  destruct (Qeq_bool max 0) eqn:Em.
  - apply Qeq_bool_iff in Em.
    destruct (Qltb 0 value) eqn:A; [|destruct (Qltb value 0) eqn:B].
    + apply Qltb_lt in A. split.
      * split; [discriminate|]. intros [H _]. rewrite H in A.
        discriminate A.
      * intros p H. injection H as <-.
        split; [discriminate|]. split; [discriminate|].
        split; [exists 100; split; [reflexivity|lia]|].
        split; [reflexivity|].
        intros H. rewrite Em in H. discriminate H.
    + apply Qltb_lt in B. split.
      * split; [discriminate|]. intros [H _]. rewrite H in B.
        discriminate B.
      * intros p H. injection H as <-.
        split; [discriminate|]. split; [discriminate|].
        split; [exists 0; split; [reflexivity|lia]|].
        split; [|reflexivity].
        intros H. rewrite Em in H. discriminate H.
    + apply Qltb_ge in A. apply Qltb_ge in B. split.
      * split; [|reflexivity]. intros _.
        split; [now apply Qle_antisym|exact Em].
      * intros p H. discriminate H.
  - assert (Hm : ~ (max == 0)%Q).
    { intro H. apply Qeq_bool_iff in H. congruence. }
    split.
    + split; [discriminate|]. intros [_ H]. contradiction.
    + intros p H. injection H as <-.
      destruct (clamp_range (value / max * 100)) as [H0 H1].
      split; [exact H0|]. split; [exact H1|].
      split.
      { eexists. split; [reflexivity|]. now apply Math_round_range. }
      unfold Math_min, Math_max. split.
      * intros Hp Hv.
        assert (Hq : (100 <= value / max * 100)%Q).
        { rewrite <- (Qmult_1_l 100) at 1.
          apply Qmult_le_compat_r; [|discriminate].
          apply Qle_shift_div_l; [exact Hp|]. now rewrite Qmult_1_l. }
        assert (A : Qltb (value / max * 100) 0 = false).
        { apply Qltb_ge. apply Qle_trans with (y := 100%Q);
            [discriminate|exact Hq]. }
        rewrite A.
        destruct (Qltb 100 (value / max * 100)) eqn:B; [reflexivity|].
        apply Qltb_ge in B. now apply Qle_antisym.
      * intros Hp Hv.
        assert (Hq : (value / max * 100 <= 0)%Q).
        { rewrite <- (Qmult_0_l 100).
          apply Qmult_le_compat_r; [|discriminate].
          apply Qle_shift_div_r; [exact Hp|]. now rewrite Qmult_0_l. }
        destruct (Qltb (value / max * 100) 0) eqn:A.
        -- reflexivity.
        -- apply Qltb_ge in A.
           change (Qltb 100 (value / max * 100))
             with (negb (Qle_bool (value / max * 100) 100)).
           assert (L : Qle_bool (value / max * 100) 100 = true).
           { apply Qle_bool_iff.
             apply Qle_trans with (y := 0%Q); [exact Hq|discriminate]. }
           rewrite L. cbn [negb]. now apply Qle_antisym.
Qed.
